(** * Agentica chat client: session context, API client, chat page and
      message renderer.

    A shallow embedding of the TypeScript sources

    - [lib/agent-api.ts]            (module [Api]),
    - [contexts/AgentContext.tsx]   (module [Agent]),
    - [app/page.tsx]                (module [Page]),
    - [components/ChatMessage.tsx]  (module [Render]),

    together with the properties of the session-state flow.

    Asynchronous functions are embedded as trees of effects ([Task]):
    React state setters, local-storage accesses, [alert], [Date.now] and
    [fetch].  A function of a React component closes over the values of the
    render it was created in; it is embedded as a Rocq function of that
    render's state (the argument [self]) and reads the state it closed over
    from there, while every setter acts on the current state.  [console.*]
    calls have no effect on the state and are left out. *)

From Stdlib Require Import ZArith NArith Ascii String List Lia Bool.
From stdpp Require Import base strings gmap list pretty.

Set Default Proof Using "Type".
Local Open Scope string_scope.
Local Open Scope list_scope.

(** ** JavaScript strings and errors *)

Module Js.

(** A string is a sequence of UTF-16 code units; the embedding covers the
    code units below 256, one [ascii] each. *)

(** [\s] of a regular expression, [String.prototype.trim]: TAB, LF, VT, FF,
    CR, SPACE and NBSP are the white-space code units below 256. *)
Definition is_space (c : ascii) : bool :=
  match N_of_ascii c with
  | 9%N | 10%N | 11%N | 12%N | 13%N | 32%N | 160%N => true
  | _ => false
  end.

(** Line terminators below 256: LF and CR. *)
Definition is_line_terminator (c : ascii) : bool :=
  match N_of_ascii c with
  | 10%N | 13%N => true
  | _ => false
  end.

(** [\d] *)
Definition is_digit (c : ascii) : bool :=
  (48 <=? N_of_ascii c)%N && (N_of_ascii c <=? 57)%N.

(** [s.startsWith(p)] *)
Fixpoint startsWith (s p : string) {struct p} : bool :=
  match p with
  | EmptyString => true
  | String c p' =>
      match s with
      | String d s' => Ascii.eqb c d && startsWith s' p'
      | EmptyString => false
      end
  end.

(** [s.includes(p)] *)
Fixpoint includes (s p : string) : bool :=
  startsWith s p ||
  match s with
  | String _ s' => includes s' p
  | EmptyString => false
  end.

Fixpoint trimStart (s : string) : string :=
  match s with
  | String c s' => if is_space c then trimStart s' else s
  | EmptyString => EmptyString
  end.

Fixpoint all_space (s : string) : bool :=
  match s with
  | String c s' => is_space c && all_space s'
  | EmptyString => true
  end.

Fixpoint trimEnd (s : string) : string :=
  match s with
  | String c s' => if all_space s then EmptyString else String c (trimEnd s')
  | EmptyString => EmptyString
  end.

(** [s.trim()] *)
Definition trim (s : string) : string := trimEnd (trimStart s).

(** Truthiness of a string: only the empty string is falsy. *)
Definition truthy (s : string) : bool :=
  match s with
  | EmptyString => false
  | String _ _ => true
  end.

(** Truthiness of [string | null]. *)
Definition truthy_opt (s : option string) : bool :=
  match s with
  | Some s => truthy s
  | None => false
  end.

(** [a || b] on strings. *)
Definition or_else (a : option string) (b : string) : string :=
  match a with
  | Some s => if truthy s then s else b
  | None => b
  end.

(** An [Error] object: its [name] ([Error], [TypeError], [SyntaxError]) and
    its [message]. *)
Record Error := mkError { name : string; message : string }.

Definition newError (msg : string) : Error := mkError "Error" msg.
Definition TypeError (msg : string) : Error := mkError "TypeError" msg.
Definition SyntaxError (msg : string) : Error := mkError "SyntaxError" msg.

(** [String(error)], that is [Error.prototype.toString]. *)
Definition toString (e : Error) : string :=
  match message e, name e with
  | EmptyString, n => n
  | m, EmptyString => m
  | m, n => n +:+ ": " +:+ m
  end.

End Js.

(** ** The data model of [lib/agent-api.ts] and the HTTP exchange *)

Inductive Role := user | assistant.

Record ChatMessage := mkMessage { role : Role; content : string }.

(** [messages] is read as [session.messages || []], so it may be missing. *)
Record ChatSession := mkSession {
  session_id : string;
  messages : option (list ChatMessage);
  title : option string;
  createdAt : option string;
  lastMessageAt : option string
}.

Record PersonalitySettings := mkPersonality {
  type : string;
  custom : option (gmap string string)
}.

Record BackgroundInfo := mkBackground { items : list string }.

Record ToolSettings := mkTools {
  background_search : bool;
  memory_storage : bool;
  memory_retrieval : bool;
  web_search : bool
}.

Record OrganizationSettings := mkOrganization {
  name : string;
  personality : PersonalitySettings;
  background : BackgroundInfo;
  tools : ToolSettings
}.

Record SessionResponse := mkSessionResponse {
  sr_session_id : string;
  sr_message : string
}.

(** A [MessageResponse]; both callers test [data.response], so the field
    may be missing. *)
Record MessageResponse := mkMessageResponse {
  mr_session_id : string;
  response : option string
}.

Record DeleteResult := mkDeleteResult { success : bool; dr_message : string }.

Record WebsiteScrapeRequest := mkScrapeRequest {
  sq_url : string;
  max_pages : option N;
  max_items : option N
}.

Record WebsiteScrapeResponse := mkScrapeResponse {
  status_ok : bool;
  ws_message : string;
  background_items : list string
}.

(** The personality presets, [Record<string, any>]: each preset is kept as
    an object of string fields. *)
Abbreviation Presets := (gmap string (gmap string string)).

Inductive Method := GET | POST | DELETE.

(** The JSON body of a request ([JSON.stringify] of the given value). *)
Inductive RequestBody :=
| NoBody
| SessionRequest (organization : OrganizationSettings)
| MessageRequest (session_id : option string) (message : string)
| ScrapeRequest (request : WebsiteScrapeRequest).

Record Request := mkRequest {
  url : string;
  method : Method;
  body : RequestBody
}.

(** The shape a call site reads the response body as; the body of a
    response either is no JSON text at all or has that shape.  The body
    of a session may also be [null], which [loadSession] reads a property
    of: [None] is that body. *)
Inductive Payload :=
| PSessionResponse | PMessageResponse | PSession | PSessionList
| PPresets | PScrape | PAny.

Definition payload (p : Payload) : Type :=
  match p with
  | PSessionResponse => SessionResponse
  | PMessageResponse => MessageResponse
  | PSession => option ChatSession
  | PSessionList => list ChatSession
  | PPresets => Presets
  | PScrape => WebsiteScrapeResponse
  | PAny => unit
  end.

(** The result of [JSON.parse] on the body text. *)
Inductive Parsed (B : Type) :=
| Malformed (syntax_error : string)
| Json (value : B).
Arguments Malformed {B} _.
Arguments Json {B} _.

Record Response (B : Type) := mkResponse {
  status : N;
  statusText : string;
  text : string;
  json : Parsed B
}.
Arguments mkResponse {B} _ _ _ _.
Arguments status {B} _.
Arguments statusText {B} _.
Arguments text {B} _.
Arguments json {B} _.

(** [response.ok]: the status is in the range 200-299. *)
Definition ok {B} (r : Response B) : bool :=
  (200 <=? status r)%N && (status r <=? 299)%N.

(** What [fetch] settles to: a rejection (no response at all) or a
    response. *)
Inductive FetchResult (B : Type) :=
| NetworkFailure (reason : string)
| Received (r : Response B).
Arguments NetworkFailure {B} _.
Arguments Received {B} _.

(** ** The state the program acts on *)

Record CurrentSettings := mkSettings { organization : OrganizationSettings }.

(** The state hooks of [AgentProvider] that the context value exposes. *)
Record AgentState := mkAgent {
  isInitialized : bool;
  isLoading : bool;
  sessionId : option string;
  agentMessages : list ChatMessage;
  sessions : list ChatSession;
  personalityPresets : Presets;
  currentSettings : CurrentSettings
}.

(** The state hooks of the chat page [Home] that [handleSubmit] uses. *)
Record PageState := mkPage {
  input : string;
  pageMessages : list ChatMessage;
  pageLoading : bool
}.

(** The browser side: both components, [localStorage], the [alert]s shown,
    the requests sent so far (oldest first) and the number of [Date.now]
    readings taken. *)
Record World := mkWorld {
  agent : AgentState;
  page : PageState;
  localStorage : gmap string string;
  alerts : list string;
  requests : list Request;
  ticks : nat
}.

Definition with_agent (f : AgentState -> AgentState) (w : World) : World :=
  mkWorld (f (agent w)) (page w) (localStorage w) (alerts w) (requests w) (ticks w).

Definition with_page (f : PageState -> PageState) (w : World) : World :=
  mkWorld (agent w) (f (page w)) (localStorage w) (alerts w) (requests w) (ticks w).

Definition with_storage (f : gmap string string -> gmap string string) (w : World) : World :=
  mkWorld (agent w) (page w) (f (localStorage w)) (alerts w) (requests w) (ticks w).

Definition with_alert (msg : string) (w : World) : World :=
  mkWorld (agent w) (page w) (localStorage w) (alerts w ++ [msg]) (requests w) (ticks w).

Definition with_request (r : Request) (w : World) : World :=
  mkWorld (agent w) (page w) (localStorage w) (alerts w) (requests w ++ [r]) (ticks w).

Definition with_tick (w : World) : World :=
  mkWorld (agent w) (page w) (localStorage w) (alerts w) (requests w) (S (ticks w)).

(** ** Asynchronous functions as trees of effects *)

Inductive Task (A : Type) : Type :=
| Ret (a : A)
| Throw (e : Js.Error)
| SetAgent (f : AgentState -> AgentState) (k : Task A)
| SetPage (f : PageState -> PageState) (k : Task A)
| SetItem (key value : string) (k : Task A)
| RemoveItem (key : string) (k : Task A)
| GetItem (key : string) (k : option string -> Task A)
| Alert (msg : string) (k : Task A)
| DateNow (k : Z -> Task A)
| Fetch (p : Payload) (req : Request) (k : FetchResult (payload p) -> Task A).
Arguments Ret {A} _.
Arguments Throw {A} _.
Arguments SetAgent {A} _ _.
Arguments SetPage {A} _ _.
Arguments SetItem {A} _ _ _.
Arguments RemoveItem {A} _ _.
Arguments GetItem {A} _ _.
Arguments Alert {A} _ _.
Arguments DateNow {A} _.
Arguments Fetch {A} _ _ _.

(** [await t; k] *)
Fixpoint bind {A B} (t : Task A) (k : A -> Task B) : Task B :=
  match t with
  | Ret a => k a
  | Throw e => Throw e
  | SetAgent f t' => SetAgent f (bind t' k)
  | SetPage f t' => SetPage f (bind t' k)
  | SetItem key v t' => SetItem key v (bind t' k)
  | RemoveItem key t' => RemoveItem key (bind t' k)
  | GetItem key g => GetItem key (fun v => bind (g v) k)
  | Alert msg t' => Alert msg (bind t' k)
  | DateNow g => DateNow (fun z => bind (g z) k)
  | Fetch p req g => Fetch p req (fun r => bind (g r) k)
  end.

(** [try { t } catch (error) { handler error }] *)
Fixpoint try_catch {A} (t : Task A) (handler : Js.Error -> Task A) : Task A :=
  match t with
  | Ret a => Ret a
  | Throw e => handler e
  | SetAgent f t' => SetAgent f (try_catch t' handler)
  | SetPage f t' => SetPage f (try_catch t' handler)
  | SetItem key v t' => SetItem key v (try_catch t' handler)
  | RemoveItem key t' => RemoveItem key (try_catch t' handler)
  | GetItem key g => GetItem key (fun v => try_catch (g v) handler)
  | Alert msg t' => Alert msg (try_catch t' handler)
  | DateNow g => DateNow (fun z => try_catch (g z) handler)
  | Fetch p req g => Fetch p req (fun r => try_catch (g r) handler)
  end.

(** [try { t } finally { cleanup }], for a [cleanup] that completes
    normally. *)
Fixpoint try_finally {A} (t : Task A) (cleanup : Task unit) : Task A :=
  match t with
  | Ret a => bind cleanup (fun _ => Ret a)
  | Throw e => bind cleanup (fun _ => Throw e)
  | SetAgent f t' => SetAgent f (try_finally t' cleanup)
  | SetPage f t' => SetPage f (try_finally t' cleanup)
  | SetItem key v t' => SetItem key v (try_finally t' cleanup)
  | RemoveItem key t' => RemoveItem key (try_finally t' cleanup)
  | GetItem key g => GetItem key (fun v => try_finally (g v) cleanup)
  | Alert msg t' => Alert msg (try_finally t' cleanup)
  | DateNow g => DateNow (fun z => try_finally (g z) cleanup)
  | Fetch p req g => Fetch p req (fun r => try_finally (g r) cleanup)
  end.

Declare Scope task_scope.
Delimit Scope task_scope with task.
Bind Scope task_scope with Task.
Notation "'let!' x ':=' t 'in' k" := (bind t (fun x => k))
  (at level 10, x pattern, t at level 100, k at level 200) : task_scope.
Notation "t ';;' k" := (bind t (fun _ => k))
  (at level 100, k at level 200, right associativity) : task_scope.
Local Open Scope task_scope.

Definition skip : Task unit := Ret tt.

(** [await fetch(url, init)]: a rejected fetch throws a [TypeError]. *)
Definition fetch (p : Payload) (req : Request) : Task (Response (payload p)) :=
  Fetch p req (fun r =>
    match r with
    | NetworkFailure reason => Throw (Js.TypeError reason)
    | Received resp => Ret resp
    end).

(** [await response.json()]: a body that is no JSON throws a
    [SyntaxError]. *)
Definition response_json {B} (resp : Response B) : Task B :=
  match json resp with
  | Malformed reason => Throw (Js.SyntaxError reason)
  | Json v => Ret v
  end.

Definition localStorage_getItem (key : string) : Task (option string) :=
  GetItem key Ret.
Definition localStorage_setItem (key value : string) : Task unit :=
  SetItem key value skip.
Definition localStorage_removeItem (key : string) : Task unit :=
  RemoveItem key skip.
Definition alert (msg : string) : Task unit := Alert msg skip.
Definition Date_now : Task Z := DateNow Ret.

(** ** Running a task *)

(** The outside of the browser: what the network answers to a request,
    given the requests sent before it, and what the clock shows at each
    reading. *)
Record Env := mkEnv {
  respond : forall p : Payload, list Request -> Request -> FetchResult (payload p);
  clock : nat -> Z
}.

Inductive Outcome (A : Type) :=
| Returned (a : A)
| Thrown (e : Js.Error).
Arguments Returned {A} _.
Arguments Thrown {A} _.

(** A task run to its end, each [fetch] answered by the environment. *)
Fixpoint run {A} (E : Env) (t : Task A) (w : World) : Outcome A * World :=
  match t with
  | Ret a => (Returned a, w)
  | Throw e => (Thrown e, w)
  | SetAgent f k => run E k (with_agent f w)
  | SetPage f k => run E k (with_page f w)
  | SetItem key v k => run E k (with_storage (insert key v) w)
  | RemoveItem key k => run E k (with_storage (delete key) w)
  | GetItem key k => run E (k (localStorage w !! key)) w
  | Alert msg k => run E k (with_alert msg w)
  | DateNow k => run E (k (clock E (ticks w))) (with_tick w)
  | Fetch p req k => run E (k (respond E p (requests w) req)) (with_request req w)
  end.

(** A task run up to its next suspension: the synchronous stretch between
    two [await]s of a [fetch].  React 18 batches the state updates of
    such a stretch and renders between stretches only, so the worlds at
    the suspensions and at the end are the observable ones. *)
Inductive Progress (A : Type) :=
| Finished (o : Outcome A)
| Suspended (p : Payload) (req : Request) (k : FetchResult (payload p) -> Task A).
Arguments Finished {A} _.
Arguments Suspended {A} _ _ _.

Fixpoint advance {A} (now : nat -> Z) (t : Task A) (w : World) : Progress A * World :=
  match t with
  | Ret a => (Finished (Returned a), w)
  | Throw e => (Finished (Thrown e), w)
  | SetAgent f k => advance now k (with_agent f w)
  | SetPage f k => advance now k (with_page f w)
  | SetItem key v k => advance now k (with_storage (insert key v) w)
  | RemoveItem key k => advance now k (with_storage (delete key) w)
  | GetItem key k => advance now (k (localStorage w !! key)) w
  | Alert msg k => advance now k (with_alert msg w)
  | DateNow k => advance now (k (now (ticks w))) (with_tick w)
  | Fetch p req k => (Suspended p req k, with_request req w)
  end.

(** The worlds at the suspensions of a run, in order. *)
Fixpoint observations {A} (E : Env) (t : Task A) (w : World) : list World :=
  match t with
  | Ret _ | Throw _ => []
  | SetAgent f k => observations E k (with_agent f w)
  | SetPage f k => observations E k (with_page f w)
  | SetItem key v k => observations E k (with_storage (insert key v) w)
  | RemoveItem key k => observations E k (with_storage (delete key) w)
  | GetItem key k => observations E (k (localStorage w !! key)) w
  | Alert msg k => observations E k (with_alert msg w)
  | DateNow k => observations E (k (clock E (ticks w))) (with_tick w)
  | Fetch p req k =>
      with_request req w ::
      observations E (k (respond E p (requests w) req)) (with_request req w)
  end.

(** ** What the program takes from its host *)

(** The [enabledTools] object of local storage, as [JSON.parse] yields it:
    each flag may be missing. *)
Record ToolFlags := mkToolFlags {
  backgroundSearch : option bool;
  memoryStorage : option bool;
  memoryRetrieval : option bool;
  webSearch : option bool
}.

(** The build-time environment variable and the library functions the
    program calls on text: [Date.prototype.toISOString] on a time in
    milliseconds, and [JSON.parse] at the two places where the page reads
    local storage ([None] when it throws or, for the array, when the value
    is no array). *)
Record Host := mkHost {
  NEXT_PUBLIC_API_URL : option string;
  toISOString : Z -> string;
  JSON_parse_array : string -> option (list string);
  JSON_parse_tools : string -> option ToolFlags
}.

(** ** [lib/agent-api.ts] *)

Module Api.
Section WithHost.
Context (host : Host).

Definition API_BASE_URL : string :=
  Js.or_else (NEXT_PUBLIC_API_URL host) "ec2-54-235-6-245.compute-1.amazonaws.com".

Definition createSession (settings : OrganizationSettings) : Task SessionResponse :=
  try_catch
    (let! response :=
       fetch PSessionResponse
         (mkRequest (API_BASE_URL +:+ "/sessions") POST (SessionRequest settings)) in
     if negb (ok response)
     then Throw (Js.newError ("Failed to create session: " +:+ statusText response))
     else response_json response)
    (fun error => Throw error).

Definition sendMessage (sessionId message : string) : Task MessageResponse :=
  try_catch
    (let! response :=
       fetch PMessageResponse
         (mkRequest (API_BASE_URL +:+ "/chat") POST
            (MessageRequest (Some sessionId) message)) in
     if negb (ok response)
     then Throw (Js.newError ("Failed to send message: " +:+ statusText response))
     else response_json response)
    (fun error => Throw error).

Definition getSession (sessionId : string) : Task (option ChatSession) :=
  try_catch
    (let! response :=
       fetch PSession
         (mkRequest (API_BASE_URL +:+ "/sessions/" +:+ sessionId) GET NoBody) in
     if negb (ok response)
     then Throw (Js.newError ("Failed to get session: " +:+ statusText response))
     else response_json response)
    (fun error => Throw error).

Definition getPersonalityPresets : Task Presets :=
  try_catch
    (let! response :=
       fetch PPresets (mkRequest (API_BASE_URL +:+ "/personalities") GET NoBody) in
     if negb (ok response)
     then Throw (Js.newError ("Failed to get personality presets: " +:+ statusText response))
     else response_json response)
    (fun error => Throw error).

(** The development data [getAllSessions] falls back to; the times are
    the six [Date.now()] readings of the object literal, in order. *)
Definition mockSessions (t1 t2 t3 t4 t5 t6 : Z) : list ChatSession :=
  [ mkSession "1" (Some [mkMessage assistant "Let's schedule..."])
      (Some "Project Planning")
      (Some (toISOString host (t1 - 86400000)))
      (Some (toISOString host (t2 - 3600000)));
    mkSession "2" (Some [mkMessage assistant "The error is..."])
      (Some "Tech Support")
      (Some (toISOString host (t3 - 172800000)))
      (Some (toISOString host (t4 - 7200000)));
    mkSession "3" (Some [mkMessage assistant "New ideas for..."])
      (Some "Brainstorming")
      (Some (toISOString host (t5 - 259200000)))
      (Some (toISOString host (t6 - 10800000))) ].

Definition getAllSessions : Task (list ChatSession) :=
  try_catch
    (let! response :=
       fetch PSessionList (mkRequest (API_BASE_URL +:+ "/sessions") GET NoBody) in
     if negb (ok response)
     then Throw (Js.newError ("Failed to get sessions: " +:+ statusText response))
     else response_json response)
    (fun error =>
       let! t1 := Date_now in
       let! t2 := Date_now in
       let! t3 := Date_now in
       let! t4 := Date_now in
       let! t5 := Date_now in
       let! t6 := Date_now in
       Ret (mockSessions t1 t2 t3 t4 t5 t6)).

Definition deleteSession (sessionId : string) : Task DeleteResult :=
  try_catch
    (let! response :=
       fetch PAny (mkRequest (API_BASE_URL +:+ "/sessions/" +:+ sessionId) DELETE NoBody) in
     if negb (ok response)
     then Throw (Js.newError ("Failed to delete session: " +:+ statusText response))
     else Ret (mkDeleteResult true "Session deleted successfully"))
    (fun error =>
       Ret (mkDeleteResult false ("Error deleting session: " +:+ Js.message error))).

Definition scrapeWebsite (request : WebsiteScrapeRequest) : Task WebsiteScrapeResponse :=
  try_catch
    (let! response :=
       fetch PScrape
         (mkRequest (API_BASE_URL +:+ "/scrape-website") POST (ScrapeRequest request)) in
     if negb (ok response)
     then Throw (Js.newError ("Failed to scrape website: " +:+ statusText response))
     else response_json response)
    (fun error => Throw error).

End WithHost.
End Api.

(** ** [contexts/AgentContext.tsx] *)

Module Agent.

Definition defaultOrganizationSettings : OrganizationSettings :=
  mkOrganization "Agentica AI" (mkPersonality "Balanced" None) (mkBackground [])
    (mkTools true true true true).

(** The state of the first render. *)
Definition initialState : AgentState :=
  mkAgent false false None [] [] ∅ (mkSettings defaultOrganizationSettings).

(** The state setters; [setMessages] and [setSessions] take the updater
    function, a plain value [v] being [fun _ => v]. *)
Definition setIsInitialized (b : bool) : Task unit :=
  SetAgent (fun s => mkAgent b (isLoading s) (sessionId s) (agentMessages s)
                       (sessions s) (personalityPresets s) (currentSettings s)) skip.

Definition setIsLoading (b : bool) : Task unit :=
  SetAgent (fun s => mkAgent (isInitialized s) b (sessionId s) (agentMessages s)
                       (sessions s) (personalityPresets s) (currentSettings s)) skip.

Definition setSessionId (v : option string) : Task unit :=
  SetAgent (fun s => mkAgent (isInitialized s) (isLoading s) v (agentMessages s)
                       (sessions s) (personalityPresets s) (currentSettings s)) skip.

Definition setMessages (f : list ChatMessage -> list ChatMessage) : Task unit :=
  SetAgent (fun s => mkAgent (isInitialized s) (isLoading s) (sessionId s)
                       (f (agentMessages s)) (sessions s) (personalityPresets s)
                       (currentSettings s)) skip.

Definition setSessions (f : list ChatSession -> list ChatSession) : Task unit :=
  SetAgent (fun s => mkAgent (isInitialized s) (isLoading s) (sessionId s)
                       (agentMessages s) (f (sessions s)) (personalityPresets s)
                       (currentSettings s)) skip.

Definition setPersonalityPresets (v : Presets) : Task unit :=
  SetAgent (fun s => mkAgent (isInitialized s) (isLoading s) (sessionId s)
                       (agentMessages s) (sessions s) v (currentSettings s)) skip.

Definition setCurrentSettings (f : CurrentSettings -> CurrentSettings) : Task unit :=
  SetAgent (fun s => mkAgent (isInitialized s) (isLoading s) (sessionId s)
                       (agentMessages s) (sessions s) (personalityPresets s)
                       (f (currentSettings s))) skip.

Section WithHost.
Context (host : Host).

(** Initialize session with organization settings *)
Definition initializeSession (settings : OrganizationSettings) : Task unit :=
  setIsLoading true ;;
  try_finally
    (try_catch
       (let! response := Api.createSession host settings in
        localStorage_setItem "lastSessionId" (sr_session_id response) ;;
        setSessionId (Some (sr_session_id response)) ;;
        setMessages (fun _ => []) ;;
        setCurrentSettings (fun _ => mkSettings settings) ;;
        setIsInitialized true)
       (fun error =>
          alert "Failed to initialize chat session. Please try refreshing the page."))
    (setIsLoading false).

Definition unableMessage : ChatMessage :=
  mkMessage assistant
    "Unable to initialize chat session. Please refresh the page and try again.".

Definition expiredMessage : ChatMessage :=
  mkMessage assistant "Your session has expired. Creating a new session...".

Definition newSessionMessage : ChatMessage :=
  mkMessage assistant "New session created. Please try your message again.".

Definition sorryMessage (error : Js.Error) : ChatMessage :=
  mkMessage assistant
    ("Sorry, there was an error processing your message: " +:+ Js.message error).

(** The address the context posts chat messages to. *)
Definition chatUrl : string := "http://localhost:8000/chat".

(** Send a message to the agent.  [self] is the render the function belongs
    to: [sessionId] and [currentSettings] are read from it, also after the
    [await]s. *)
Definition sendUserMessage (self : AgentState) (message : string) : Task unit :=
  let sessionId := sessionId self in
  let currentSettings := currentSettings self in
  let send : Task unit :=
    setIsLoading true ;;
    setMessages (fun prev => prev ++ [mkMessage user message]) ;;
    try_finally
      (try_catch
         (let! directResponse :=
            fetch PMessageResponse
              (mkRequest chatUrl POST (MessageRequest sessionId message)) in
          if negb (ok directResponse)
          then Throw (Js.newError ("API error: " +:+ pretty (status directResponse)
                                     +:+ " " +:+ statusText directResponse))
          else
            let responseText := text directResponse in
            let! data :=
              match json directResponse with
              | Json data => Ret data
              | Malformed _ =>
                  Throw (Js.newError ("Failed to parse API response: " +:+ responseText))
              end in
            if Js.truthy_opt (response data)
            then setMessages (fun prev =>
                   prev ++ [mkMessage assistant (default EmptyString (response data))])
            else Throw (Js.newError "Invalid response format from API"))
         (fun error =>
            let errorString := Js.toString error in
            let is404 :=
              Js.includes errorString "404" || Js.includes errorString "not found" in
            if is404
            then
              setMessages (fun prev => prev ++ [expiredMessage]) ;;
              initializeSession (organization currentSettings) ;;
              setMessages (fun prev => prev ++ [newSessionMessage])
            else
              setMessages (fun prev => prev ++ [sorryMessage error])))
      (setIsLoading false) in
  if negb (Js.truthy_opt sessionId)
  then
    initializeSession (organization currentSettings) ;;
    if negb (Js.truthy_opt sessionId)
    then setMessages (fun _ => [unableMessage])
    else send
  else send.

(** Update personality settings *)
Definition updatePersonality (personality : PersonalitySettings) : Task unit :=
  setCurrentSettings (fun prev =>
    mkSettings (mkOrganization (name (organization prev)) personality
                  (background (organization prev)) (tools (organization prev)))).

(** Update background information *)
Definition updateBackground (background : BackgroundInfo) : Task unit :=
  setCurrentSettings (fun prev =>
    mkSettings (mkOrganization (name (organization prev))
                  (personality (organization prev)) background
                  (tools (organization prev)))).

(** Update organization name *)
Definition updateOrganizationName (name : string) : Task unit :=
  setCurrentSettings (fun prev =>
    mkSettings (mkOrganization name (personality (organization prev))
                  (background (organization prev)) (tools (organization prev)))).

(** Load a specific session by ID.  [session.messages] is read after the
    id has been set; on a body that is [null] it throws there. *)
Definition loadSession (sessionId : string) : Task unit :=
  setIsLoading true ;;
  try_finally
    (try_catch
       (setMessages (fun _ => []) ;;
        let! session := Api.getSession host sessionId in
        setSessionId (Some sessionId) ;;
        let! loaded :=
          match session with
          | Some session => Ret (default [] (messages session))
          | None =>
              Throw (Js.TypeError "Cannot read properties of null (reading 'messages')")
          end in
        setMessages (fun _ => loaded) ;;
        setIsInitialized true ;;
        localStorage_setItem "lastSessionId" sessionId ;;
        let! updatedSessions := Api.getAllSessions host in
        setSessions (fun _ => updatedSessions))
       (fun error => Throw error))
    (setIsLoading false).

(** Create a new chat session *)
Definition createNewSession (self : AgentState) : Task unit :=
  setMessages (fun _ => []) ;;
  initializeSession (organization (currentSettings self)) ;;
  try_catch
    (let! updatedSessions := Api.getAllSessions host in
     setSessions (fun _ => updatedSessions))
    (fun error => skip).

(** Delete a chat session *)
Definition deleteSessionById (self : AgentState) (idToDelete : string) : Task unit :=
  try_catch
    (Api.deleteSession host idToDelete ;;
     setSessions (fun prevSessions =>
       List.filter (fun s => negb (String.eqb (session_id s) idToDelete)) prevSessions) ;;
     if bool_decide (Some idToDelete = sessionId self)
     then
       setSessionId None ;;
       setMessages (fun _ => []) ;;
       setIsInitialized false ;;
       localStorage_removeItem "lastSessionId"
     else skip)
    (fun error => Throw error).

(** Load personality presets and sessions on mount *)
Definition loadInitialData : Task unit :=
  try_catch
    (let! presets := Api.getPersonalityPresets host in
     setPersonalityPresets presets ;;
     let! allSessions := Api.getAllSessions host in
     setSessions (fun _ => allSessions) ;;
     let! lastSessionId := localStorage_getItem "lastSessionId" in
     match lastSessionId with
     | Some id =>
         if Js.truthy id
         then try_catch (loadSession id)
                (fun error => localStorage_removeItem "lastSessionId")
         else skip
     | None => skip
     end)
    (fun error => skip).

End WithHost.
End Agent.

(** ** [app/page.tsx] *)

Module Page.

Definition setInput (v : string) : Task unit :=
  SetPage (fun s => mkPage v (pageMessages s) (pageLoading s)) skip.

Definition setMessages (f : list ChatMessage -> list ChatMessage) : Task unit :=
  SetPage (fun s => mkPage (input s) (f (pageMessages s)) (pageLoading s)) skip.

Definition setIsLoading (b : bool) : Task unit :=
  SetPage (fun s => mkPage (input s) (pageMessages s) b) skip.

Section WithHost.
Context (host : Host).

(** Get personality and background from localStorage *)
Definition getPersonality : Task string :=
  let! savedPersonality := localStorage_getItem "aiPersonality" in
  Ret (Js.or_else savedPersonality "Balanced").

Definition getCustomPrompt : Task string :=
  let! customPrompt := localStorage_getItem "customPrompt" in
  Ret (Js.or_else customPrompt EmptyString).

Definition getBackgroundTexts : Task (list string) :=
  let! savedBackgrounds := localStorage_getItem "backgroundTexts" in
  if Js.truthy_opt savedBackgrounds
  then Ret (default [] (JSON_parse_array host (default EmptyString savedBackgrounds)))
  else Ret [].

Definition defaultTools : ToolSettings := mkTools true true true false.

(** Function to get enabled tools from localStorage *)
Definition getEnabledTools : Task ToolSettings :=
  let! savedTools := localStorage_getItem "enabledTools" in
  if Js.truthy_opt savedTools
  then
    match JSON_parse_tools host (default EmptyString savedTools) with
    | Some parsedTools =>
        Ret (mkTools (default true (backgroundSearch parsedTools))
                     (default true (memoryStorage parsedTools))
                     (default true (memoryRetrieval parsedTools))
                     (default false (webSearch parsedTools)))
    | None => Ret defaultTools
    end
  else Ret defaultTools.

(** [`${process.env.NEXT_PUBLIC_API_URL}`]: no fallback here, an unset
    variable prints as [undefined]. *)
Definition apiBaseUrl : string := default "undefined" (NEXT_PUBLIC_API_URL host).

(** The organization object both effects of the page build from local
    storage. *)
Definition orgSettings : Task OrganizationSettings :=
  let! type := getPersonality in
  let! again := getPersonality in
  let! custom :=
    (if String.eqb again "Custom"
     then
       let! description := getCustomPrompt in
       Ret (Some (<["description" := description]>
                    (<["tone" := "custom"]> (<["style" := "custom"]> ∅))))
     else Ret None) in
  let! items := getBackgroundTexts in
  let! tools := getEnabledTools in
  Ret (mkOrganization "Agentica AI" (mkPersonality type custom) (mkBackground items) tools).

(** Initialize on mount *)
Definition initializeAgent : Task unit :=
  try_catch
    (let! response := fetch PAny (mkRequest apiBaseUrl GET NoBody) in
     let! data := response_json response in
     localStorage_removeItem "lastSessionId")
    (fun error => skip) ;;
  let! settings := orgSettings in
  Agent.initializeSession host settings.

(** [self] is the render of the page the handler belongs to and
    [agentLoading] the context's [isLoading] in that render. *)
Definition handleSubmit (self : PageState) (agentLoading : bool) : Task unit :=
  if negb (Js.truthy (Js.trim (input self))) || pageLoading self || agentLoading
  then skip
  else
    let currentInput := input self in
    setInput EmptyString ;;
    setMessages (fun prev => prev ++ [mkMessage user currentInput]) ;;
    setIsLoading true ;;
    try_finally
      (try_catch
         (let! stored := localStorage_getItem "lastSessionId" in
          let! sessionId :=
            (if negb (Js.truthy (Js.or_else stored EmptyString))
             then
               let! organization := orgSettings in
               let! sessionResponse :=
                 fetch PSessionResponse
                   (mkRequest (apiBaseUrl +:+ "/sessions") POST
                      (SessionRequest organization)) in
               if negb (ok sessionResponse)
               then Throw (Js.newError ("Session creation failed: "
                                          +:+ pretty (status sessionResponse)))
               else
                 let! sessionData := response_json sessionResponse in
                 localStorage_setItem "lastSessionId" (sr_session_id sessionData) ;;
                 Ret (sr_session_id sessionData)
             else Ret (Js.or_else stored EmptyString)) in
          let! chatResponse :=
            fetch PMessageResponse
              (mkRequest (apiBaseUrl +:+ "/chat") POST
                 (MessageRequest (Some sessionId) currentInput)) in
          if negb (ok chatResponse)
          then Throw (Js.newError ("API error: " +:+ pretty (status chatResponse)))
          else
            let! chatData := response_json chatResponse in
            if Js.truthy_opt (response chatData)
            then setMessages (fun prev =>
                   prev ++ [mkMessage assistant (default EmptyString (response chatData))])
            else Throw (Js.newError "Invalid response format"))
         (fun error =>
            setMessages (fun prev =>
              prev ++ [mkMessage assistant
                         ("Error: " +:+ Js.or_else (Some (Js.message error))
                                          "An unknown error occurred")])))
      (setIsLoading false).

End WithHost.
End Page.

(** ** [components/ChatMessage.tsx] *)

(** The fragment of JavaScript regular expressions the component uses, with
    the backtracking order of the language: the left alternative first, a
    greedy star the longest run first, a lazy star the shortest first.  All
    the expressions carry the flag [m]. *)
Module Regex.

Inductive re :=
| Eps
| Chr (c : ascii)
| Cls (p : ascii -> bool)
| Bol
| Eol
| Seq (a b : re)
| Alt (a b : re)
| Star (greedy : bool) (p : ascii -> bool)
| Group (n : nat) (a : re).

(** A position in the subject: the code unit before it, if any, and the
    text from it on; with the groups captured so far. *)
Record State := mkState {
  prev : option ascii;
  rest : string;
  captures : gmap nat string
}.

(** [.] *)
Definition dot (c : ascii) : bool := negb (Js.is_line_terminator c).

(** [^] under [m] *)
Definition at_bol (s : State) : bool :=
  match prev s with
  | None => true
  | Some c => Js.is_line_terminator c
  end.

(** [$] under [m] *)
Definition at_eol (s : State) : bool :=
  match rest s with
  | EmptyString => true
  | String c _ => Js.is_line_terminator c
  end.

(** The first [n] code units of [s]. *)
Fixpoint take (n : nat) (s : string) : string :=
  match n, s with
  | S n', String c s' => String c (take n' s')
  | _, _ => EmptyString
  end.

(** The text between two positions of one subject. *)
Definition between (from to : string) : string :=
  take (String.length from - String.length to) from.

Fixpoint star {R} (greedy : bool) (p : ascii -> bool) (before : option ascii)
    (s : string) (k : option ascii -> string -> option R) : option R :=
  match s with
  | String c s' =>
      if p c
      then
        if greedy
        then match star greedy p (Some c) s' k with
             | Some r => Some r
             | None => k before s
             end
        else match k before s with
             | Some r => Some r
             | None => star greedy p (Some c) s' k
             end
      else k before s
  | EmptyString => k before s
  end.

Fixpoint matcher (r : re) (s : State) (k : State -> option State) : option State :=
  match r with
  | Eps => k s
  | Chr c =>
      match rest s with
      | String d s' =>
          if Ascii.eqb c d then k (mkState (Some d) s' (captures s)) else None
      | EmptyString => None
      end
  | Cls p =>
      match rest s with
      | String d s' =>
          if p d then k (mkState (Some d) s' (captures s)) else None
      | EmptyString => None
      end
  | Bol => if at_bol s then k s else None
  | Eol => if at_eol s then k s else None
  | Seq a b => matcher a s (fun s' => matcher b s' k)
  | Alt a b =>
      match matcher a s k with
      | Some r => Some r
      | None => matcher b s k
      end
  | Star greedy p =>
      star greedy p (prev s) (rest s) (fun q t => k (mkState q t (captures s)))
  | Group n a =>
      matcher a s (fun s' =>
        k (mkState (prev s') (rest s')
             (<[n := between (rest s) (rest s')]> (captures s'))))
  end.

(** A match attempt at one position: the captures and the text after the
    match. *)
Definition exec (r : re) (before : option ascii) (s : string)
    : option (gmap nat string * string) :=
  match matcher r (mkState before s ∅) Some with
  | Some final => Some (captures final, rest final)
  | None => None
  end.

(** A literal text. *)
Fixpoint lit (s : string) : re :=
  match s with
  | EmptyString => Eps
  | String c s' => Seq (Chr c) (lit s')
  end.

(** [p+] *)
Definition plus (p : ascii -> bool) : re := Seq (Cls p) (Star true p).

(** A replacement pattern: literal text and group references [$n]. *)
Inductive piece := Text (s : string) | Ref (n : nat).

Fixpoint expand (tpl : list piece) (caps : gmap nat string) : string :=
  match tpl with
  | [] => EmptyString
  | Text s :: tpl' => s +:+ expand tpl' caps
  | Ref n :: tpl' => default EmptyString (caps !! n) +:+ expand tpl' caps
  end.

(** [subject.replace(r, tpl)], for [r] with the flag [g] when [global] is
    set.  The subject is walked once: [skip] counts the code units of the
    current match still to be dropped, [live] tells whether a further
    match is to be searched.  After an empty match the search resumes one
    code unit later. *)
Fixpoint replace_from (r : re) (tpl : list piece) (global : bool)
    (before : option ascii) (s : string) (skip : nat) (live : bool) : string :=
  match skip with
  | S skip' =>
      match s with
      | String c s' => replace_from r tpl global (Some c) s' skip' live
      | EmptyString => EmptyString
      end
  | O =>
      if live
      then
        match exec r before s with
        | Some (caps, after) =>
            expand tpl caps +:+
            match String.length s - String.length after, s with
            | O, String c s' => String c (replace_from r tpl global (Some c) s' O global)
            | S n, String c s' => replace_from r tpl global (Some c) s' n global
            | _, EmptyString => EmptyString
            end
        | None =>
            match s with
            | String c s' => String c (replace_from r tpl global (Some c) s' O live)
            | EmptyString => EmptyString
            end
        end
      else s
  end.

Definition replace (r : re) (tpl : list piece) (global : bool) (s : string) : string :=
  replace_from r tpl global None s O true.

End Regex.

Module Render.
Import Regex.

Definition LF : string := String "010"%char EmptyString.

(** The pattern of the title line, flags [m]: [^]; group 1 is [\s*], the
    text [Title:] and [\s*]; group 2 is [.*?]; group 3 is [$] or [\n]. *)
Definition titleLine : re :=
  Seq Bol
    (Seq (Group 1 (Seq (Star true Js.is_space)
                     (Seq (lit "Title:") (Star true Js.is_space))))
       (Seq (Group 2 (Star false dot))
          (Group 3 (Alt Eol (Chr "010"%char))))).

(** The pattern of the section markers, flags [gm]: [^]; group 1 is [\s*],
    the text [##] and [\s*]; group 2 is [.*?]; group 3 is [$] or [\n]. *)
Definition sectionMarker : re :=
  Seq Bol
    (Seq (Group 1 (Seq (Star true Js.is_space)
                     (Seq (lit "##") (Star true Js.is_space))))
       (Seq (Group 2 (Star false dot))
          (Group 3 (Alt Eol (Chr "010"%char))))).

(** The pattern of the numbered points, flags [gm]: two stars; group 1 is
    [\d+]; a full stop; group 2 is two stars or [\s+]; group 3 is [.*?];
    group 4 is [$] or [\n]. *)
Definition numberedPoint : re :=
  Seq (lit "**")
    (Seq (Group 1 (plus Js.is_digit))
       (Seq (Chr "."%char)
          (Seq (Group 2 (Alt (lit "**") (plus Js.is_space)))
             (Seq (Group 3 (Star false dot))
                (Group 4 (Alt Eol (Chr "010"%char))))))).

(** The pattern of the section headers, flags [gm]: [^]; group 1 is [\s*];
    group 2 is the text [##] and [\s+]; group 3 is [.*?]; group 4 is [$] or
    [\n]. *)
Definition sectionHeader : re :=
  Seq Bol
    (Seq (Group 1 (Star true Js.is_space))
       (Seq (Group 2 (Seq (lit "##") (plus Js.is_space)))
          (Seq (Group 3 (Star false dot))
             (Group 4 (Alt Eol (Chr "010"%char)))))).

(** The effect of [ChatMessage] that computes [formattedContent], the text
    the component displays. *)
Definition is_assistant (role : Role) : bool :=
  match role with
  | assistant => true
  | user => false
  end.

Definition formattedContent (role : Role) (content : string) : string :=
  let processed := content in
  let processed :=
    if is_assistant role && negb (Js.startsWith content "#")
       && Js.includes content "Title:"
    then replace titleLine [Text "# "; Ref 2; Text LF] false content
    else processed in
  let processed :=
    if is_assistant role && negb (Js.includes content "##")
       && Js.includes content "##"
    then replace sectionMarker [Text "## "; Ref 2; Text LF] true processed
    else processed in
  let processed :=
    if is_assistant role
    then
      let processed :=
        replace numberedPoint [Ref 1; Text ". "; Ref 3; Text LF] true processed in
      replace sectionHeader [Ref 1; Text "## "; Ref 3; Text LF] true processed
    else processed in
  processed.

End Render.

(** ** Operations of the context in flight together *)

(** Nothing stops the user interface from calling an operation of the
    context while the requests of earlier calls are still pending; every
    call runs up to its next [await] and the pending requests settle in any
    order. *)
Module Concurrent.

(** The asynchronous operations of the context: those that write the
    active session or its messages. *)
Inductive Call :=
| LoadSession (id : string)
| InitializeSession (settings : OrganizationSettings)
| CreateNewSession
| SendMessage (message : string)
| DeleteSession (id : string)
| LoadInitialData.

(** A call waiting for the answer to [request]. *)
Record Pending := mkPending {
  expects : Payload;
  request : Request;
  resume : FetchResult (payload expects) -> Task unit
}.

(** The browser, the calls in flight and, for the record, the sessions the
    server has delivered so far, each with the request it answered. *)
Record System := mkSystem {
  world : World;
  pending : list Pending;
  delivered : list (Request * ChatSession)
}.

Inductive Event :=
| Invoke (c : Call)
| Settle (i : nat) (answer : forall p : Payload, FetchResult (payload p)).

(** The session a result delivers, if it is a well-formed answer to a
    request for one session. *)
Definition delivers (p : Payload) : FetchResult (payload p) -> option ChatSession :=
  match p with
  | PSession => fun r =>
      match r with
      | Received resp =>
          if ok resp
          then match json resp with
               | Json (Some session) => Some session
               | Json None | Malformed _ => None
               end
          else None
      | NetworkFailure _ => None
      end
  | _ => fun _ => None
  end.

Section WithHost.
Context (host : Host) (now : nat -> Z).

(** The calls are made from the current render. *)
Definition task_of (c : Call) (self : AgentState) : Task unit :=
  match c with
  | LoadSession id => Agent.loadSession host id
  | InitializeSession settings => Agent.initializeSession host settings
  | CreateNewSession => Agent.createNewSession host self
  | SendMessage message => Agent.sendUserMessage host self message
  | DeleteSession id => Agent.deleteSessionById host self id
  | LoadInitialData => Agent.loadInitialData host
  end.

(** Run [t] up to its next [await] and park it there. *)
Definition park (t : Task unit) (w : World) (others : list Pending)
    (log : list (Request * ChatSession)) : System :=
  match advance now t w with
  | (Finished _, w') => mkSystem w' others log
  | (Suspended p req k, w') => mkSystem w' (others ++ [mkPending p req k]) log
  end.

Definition step (s : System) (e : Event) : System :=
  match e with
  | Invoke c =>
      park (task_of c (agent (world s))) (world s) (pending s) (delivered s)
  | Settle i answer =>
      match pending s !! i with
      | Some pd =>
          park (resume pd (answer (expects pd))) (world s) (delete i (pending s))
            (match delivers (expects pd) (answer (expects pd)) with
             | Some session => delivered s ++ [(request pd, session)]
             | None => delivered s
             end)
      | None => s
      end
  end.

Definition steps (s : System) (events : list Event) : System :=
  fold_left step events s.

End WithHost.

(** The pair the invariant of the data model is about. *)
Definition active (s : AgentState) : option string * list ChatMessage :=
  (sessionId s, agentMessages s).

End Concurrent.

(** ** Vocabulary of the properties *)

(** What a function of the client makes of the answer to its request. *)
Definition settle {B} (failure : string) (r : FetchResult B) : Outcome B :=
  match r with
  | NetworkFailure reason => Thrown (Js.TypeError reason)
  | Received resp =>
      if ok resp
      then match json resp with
           | Json v => Returned v
           | Malformed reason => Thrown (Js.SyntaxError reason)
           end
      else Thrown (Js.newError (failure +:+ statusText resp))
  end.

(** A request that fails: no answer, an answer whose status is not
    successful, or a body that is no JSON. *)
Definition failed {B} (r : FetchResult B) : Prop :=
  match r with
  | NetworkFailure _ => True
  | Received resp => ok resp = false \/ exists reason, json resp = Malformed reason
  end.

Definition createRequest (host : Host) (settings : OrganizationSettings) : Request :=
  mkRequest (Api.API_BASE_URL host +:+ "/sessions") POST (SessionRequest settings).

(** Everything of the browser but the organization settings is the same in
    [w] and [w']: the session, the messages, the summaries, local storage;
    and no request was sent in between. *)
Definition same_but_settings (w w' : World) : Prop :=
  sessionId (agent w') = sessionId (agent w) /\
  agentMessages (agent w') = agentMessages (agent w) /\
  sessions (agent w') = sessions (agent w) /\
  isInitialized (agent w') = isInitialized (agent w) /\
  isLoading (agent w') = isLoading (agent w) /\
  personalityPresets (agent w') = personalityPresets (agent w) /\
  page w' = page w /\
  localStorage w' = localStorage w /\
  requests w' = requests w.

Definition deleteRequest (host : Host) (id : string) : Request :=
  mkRequest (Api.API_BASE_URL host +:+ "/sessions/" +:+ id) DELETE NoBody.

Definition listRequest (host : Host) : Request :=
  mkRequest (Api.API_BASE_URL host +:+ "/sessions") GET NoBody.

Definition sessionRequest (host : Host) (id : string) : Request :=
  mkRequest (Api.API_BASE_URL host +:+ "/sessions/" +:+ id) GET NoBody.

(** The server answers every request, and never with a successful
    status. *)
Definition rejects (E : Env) : Prop :=
  forall p sent req, exists resp, respond E p sent req = Received resp /\ ok resp = false.


(** C4 as the specification words it, for one operation: whenever the
    status of the response is not successful, the operation raises. *)
Definition raises_on_bad_status {A} (operation : Task A) : Prop :=
  forall E w, rejects E -> exists e, fst (run E operation w) = Thrown e.

(** The mock list of [getAllSessions] for the clock of [E], read from
    [w] on. *)
Definition mockList (host : Host) (E : Env) (w : World) : list ChatSession :=
  Api.mockSessions host
    (clock E (ticks w)) (clock E (1 + ticks w)) (clock E (2 + ticks w))
    (clock E (3 + ticks w)) (clock E (4 + ticks w)) (clock E (5 + ticks w)).

(** The browser after [initializeSession settings] has created the
    session [response] on the server. *)
Definition session_started (host : Host) (settings : OrganizationSettings)
    (response : SessionResponse) (w : World) : World :=
  mkWorld
    (mkAgent true false (Some (sr_session_id response)) [] (sessions (agent w))
       (personalityPresets (agent w)) (mkSettings settings))
    (page w)
    (<["lastSessionId" := sr_session_id response]> (localStorage w))
    (alerts w)
    (requests w ++ [createRequest host settings])
    (ticks w).

(** The browser after [initializeSession settings] has failed to create a
    session. *)
Definition session_refused (host : Host) (settings : OrganizationSettings)
    (w : World) : World :=
  mkWorld
    (mkAgent (isInitialized (agent w)) false (sessionId (agent w))
       (agentMessages (agent w)) (sessions (agent w))
       (personalityPresets (agent w)) (currentSettings (agent w)))
    (page w)
    (localStorage w)
    (alerts w ++ ["Failed to initialize chat session. Please try refreshing the page."])
    (requests w ++ [createRequest host settings])
    (ticks w).

(** The chat request of the context for the render [self]. *)
Definition chatRequest (self : AgentState) (message : string) : Request :=
  mkRequest Agent.chatUrl POST (MessageRequest (sessionId self) message).

(** The requests sent between [w] and [w']. *)
Definition sent_since (w w' : World) : list Request :=
  drop (length (requests w)) (requests w').

Definition chat_reply (r : FetchResult MessageResponse) : Js.Error + string :=
  match r with
  | NetworkFailure reason => inl (Js.TypeError reason)
  | Received resp =>
      if ok resp
      then match json resp with
           | Json data =>
               if Js.truthy_opt (response data)
               then inr (default EmptyString (response data))
               else inl (Js.newError "Invalid response format from API")
           | Malformed _ =>
               inl (Js.newError ("Failed to parse API response: " +:+ text resp))
           end
      else inl (Js.newError ("API error: " +:+ pretty (status resp) +:+ " "
                               +:+ statusText resp))
  end.

Definition is404 (error : Js.Error) : bool :=
  Js.includes (Js.toString error) "404" || Js.includes (Js.toString error) "not found".

Definition set_loading (b : bool) (s : AgentState) : AgentState :=
  mkAgent (isInitialized s) b (sessionId s) (agentMessages s)
    (sessions s) (personalityPresets s) (currentSettings s).

Definition add_message (m : ChatMessage) (s : AgentState) : AgentState :=
  mkAgent (isInitialized s) (isLoading s) (sessionId s) (agentMessages s ++ [m])
    (sessions s) (personalityPresets s) (currentSettings s).

Definition set_messages (l : list ChatMessage) (s : AgentState) : AgentState :=
  mkAgent (isInitialized s) (isLoading s) (sessionId s) l
    (sessions s) (personalityPresets s) (currentSettings s).

(** C5 as the specification words it: every request of a send through the
    context is addressed to the configured base URL. *)
Definition sends_to_base_url (host : Host) (E : Env) (w : World) (message : string) : Prop :=
  Forall (fun req => Js.startsWith (url req) (Api.API_BASE_URL host) = true)
    (sent_since w (snd (run E (Agent.sendUserMessage host (agent w) message) w))).

Definition message_eqb (a b : ChatMessage) : bool :=
  match role a, role b with
  | user, user | assistant, assistant => String.eqb (content a) (content b)
  | _, _ => false
  end.

(** How often [m] occurs in [l]. *)
Definition occurrences (m : ChatMessage) (l : list ChatMessage) : nat :=
  length (List.filter (message_eqb m) l).

(** C2 as the specification words it, on the message list a send ends
    with: one notice that the session expired, one notice that a new
    session was created, and the user's message once. *)
Definition notices_as_specified (message : string) (final : list ChatMessage) : Prop :=
  occurrences Agent.expiredMessage final = 1 /\
  occurrences Agent.newSessionMessage final = 1 /\
  occurrences (mkMessage user message) final = 1.

(** Whether the handler of the render [self] gets past its guard. *)
Definition submits (self : PageState) (agentLoading : bool) : bool :=
  negb (negb (Js.truthy (Js.trim (input self))) || pageLoading self || agentLoading).


Definition pageChatRequest (host : Host) (id message : string) : Request :=
  mkRequest (Page.apiBaseUrl host +:+ "/chat") POST (MessageRequest (Some id) message).

Import Concurrent.


(** The answer is a successful response whose body is [null] where a
    session is read. *)
Definition null_body (p : Payload) : FetchResult (payload p) -> bool :=
  match p with
  | PSession => fun r =>
      match r with
      | Received resp =>
          ok resp && match json resp with
                     | Json None => true
                     | _ => false
                     end
      | NetworkFailure _ => false
      end
  | _ => fun _ => false
  end.







Import Regex Render.

(** Every code unit of [s] satisfies [p]. *)
Fixpoint all_chars (p : ascii -> bool) (s : string) : bool :=
  match s with
  | EmptyString => true
  | String c s' => p c && all_chars p s'
  end.

(** The code unit [c] does not occur in [s]. *)
Definition free_of (c : ascii) (s : string) : bool :=
  all_chars (fun d => negb (Ascii.eqb c d)) s.

(** [s] is empty or starts with a line terminator. *)
Definition line_end (s : string) : bool :=
  match s with
  | EmptyString => true
  | String c _ => Js.is_line_terminator c
  end.

(** The code unit before the position after [s]. *)
Fixpoint last_of (s : string) (before : option ascii) : option ascii :=
  match s with
  | EmptyString => before
  | String c s' => last_of s' (Some c)
  end.

(** The lines before a title line: each starts with a code unit that is
    neither white space nor [T], and the last one is complete. *)
Fixpoint ordinary_lines (at_start : bool) (s : string) : bool :=
  match s with
  | EmptyString => at_start
  | String c s' =>
      if at_start
      then negb (Js.is_space c) && negb (Ascii.eqb "T" c) && ordinary_lines false s'
      else ordinary_lines (Js.is_line_terminator c) s'
  end.

(** ** Handlers of components with state of their own *)

(** [Settings] and [Sidebar] keep state in [useState] hooks of their own.
    A handler of such a component is a task over that state: it runs from
    the current state [S] of the component and ends with an outcome and
    the state after the updates it has queued.  An exception is part of
    the outcome, so that the updates made before a [throw] are kept when
    it is caught. *)
Module Component.
Section WithState.
Context {S : Type}.

Definition M (A : Type) : Type := S -> Task (Outcome A * S).

Definition ret {A} (a : A) : M A := fun s => Ret (Returned a, s).

Definition throw {A} (e : Js.Error) : M A := fun s => Ret (Thrown e, s).

Definition and_then {A B} (m : M A) (k : A -> M B) : M B :=
  fun s =>
    let! r := m s in
    match fst r with
    | Returned a => k a (snd r)
    | Thrown e => Ret (Thrown e, snd r)
    end.

(** A state setter of the component, called with an updater function. *)
Definition update (f : S -> S) : M unit := fun s => Ret (Returned tt, f s).

(** A task of the browser or of the context, called from the handler. *)
Definition lift {A} (t : Task A) : M A :=
  fun s =>
    try_catch (let! a := t in Ret (Returned a, s)) (fun e => Ret (Thrown e, s)).

Definition catch {A} (m : M A) (handler : Js.Error -> M A) : M A :=
  fun s =>
    let! r := m s in
    match fst r with
    | Returned _ => Ret r
    | Thrown e => handler e (snd r)
    end.

Definition finally {A} (m : M A) (cleanup : M unit) : M A :=
  fun s =>
    let! r := m s in
    let! r' := cleanup (snd r) in
    match fst r' with
    | Returned _ => Ret (fst r, snd r')
    | Thrown e' => Ret (Thrown e', snd r')
    end.

End WithState.

(** The handler [m] run to its end from the state [s] of the component
    and the browser [w]. *)
Definition run {S A} (E : Env) (m : @M S A) (s : S) (w : World) : Outcome A * S * World :=
  match run E (m s) w with
  | (Returned (o, s'), w') => (o, s', w')
  | (Thrown e, w') => (Thrown e, s, w')
  end.

End Component.

Declare Scope component_scope.
Delimit Scope component_scope with component.
Notation "'let!' x ':=' m 'in' k" := (Component.and_then m (fun x => k))
  (at level 10, x pattern, m at level 100, k at level 200) : component_scope.
Notation "m ';;' k" := (Component.and_then m (fun _ => k))
  (at level 100, k at level 200, right associativity) : component_scope.

(** [Array.prototype.filter] with a callback that reads the index. *)
Fixpoint filter_from {A} (f : A -> nat -> bool) (i : nat) (l : list A) : list A :=
  match l with
  | [] => []
  | x :: l' => if f x i then x :: filter_from f (S i) l' else filter_from f (S i) l'
  end.

Definition filter_indexed {A} (f : A -> nat -> bool) (l : list A) : list A :=
  filter_from f 0 l.

(** ** [components/Settings.tsx] *)

(** The state hooks of the settings dialog ([activeTab], which only
    selects the tab on display, is left out).  [enabledTools] is the
    object of the four flags. *)
Record SettingsState := mkSettingsState {
  selectedPersonality : string;
  customInstructions : string;
  websiteUrl : string;
  backgroundInfo : string;
  backgroundItems : list string;
  isScraping : bool;
  scrapeError : string;
  settingsLoading : bool;
  enabledTools : ToolFlags
}.

Module Settings.
Local Open Scope component_scope.

Definition setSelectedPersonality (v : string) : Component.M unit :=
  Component.update (fun s =>
    mkSettingsState v (customInstructions s) (websiteUrl s) (backgroundInfo s)
      (backgroundItems s) (isScraping s) (scrapeError s) (settingsLoading s)
      (enabledTools s)).

Definition setCustomInstructions (v : string) : Component.M unit :=
  Component.update (fun s =>
    mkSettingsState (selectedPersonality s) v (websiteUrl s) (backgroundInfo s)
      (backgroundItems s) (isScraping s) (scrapeError s) (settingsLoading s)
      (enabledTools s)).

Definition setWebsiteUrl (v : string) : Component.M unit :=
  Component.update (fun s =>
    mkSettingsState (selectedPersonality s) (customInstructions s) v (backgroundInfo s)
      (backgroundItems s) (isScraping s) (scrapeError s) (settingsLoading s)
      (enabledTools s)).

Definition setBackgroundInfo (v : string) : Component.M unit :=
  Component.update (fun s =>
    mkSettingsState (selectedPersonality s) (customInstructions s) (websiteUrl s) v
      (backgroundItems s) (isScraping s) (scrapeError s) (settingsLoading s)
      (enabledTools s)).

Definition setBackgroundItems (f : list string -> list string) : Component.M unit :=
  Component.update (fun s =>
    mkSettingsState (selectedPersonality s) (customInstructions s) (websiteUrl s)
      (backgroundInfo s) (f (backgroundItems s)) (isScraping s) (scrapeError s)
      (settingsLoading s) (enabledTools s)).

Definition setIsScraping (b : bool) : Component.M unit :=
  Component.update (fun s =>
    mkSettingsState (selectedPersonality s) (customInstructions s) (websiteUrl s)
      (backgroundInfo s) (backgroundItems s) b (scrapeError s) (settingsLoading s)
      (enabledTools s)).

Definition setScrapeError (v : string) : Component.M unit :=
  Component.update (fun s =>
    mkSettingsState (selectedPersonality s) (customInstructions s) (websiteUrl s)
      (backgroundInfo s) (backgroundItems s) (isScraping s) v (settingsLoading s)
      (enabledTools s)).

Definition setIsLoading (b : bool) : Component.M unit :=
  Component.update (fun s =>
    mkSettingsState (selectedPersonality s) (customInstructions s) (websiteUrl s)
      (backgroundInfo s) (backgroundItems s) (isScraping s) (scrapeError s) b
      (enabledTools s)).

Definition setEnabledTools (f : ToolFlags -> ToolFlags) : Component.M unit :=
  Component.update (fun s =>
    mkSettingsState (selectedPersonality s) (customInstructions s) (websiteUrl s)
      (backgroundInfo s) (backgroundItems s) (isScraping s) (scrapeError s)
      (settingsLoading s) (f (enabledTools s))).

(** Default tool settings *)
Definition defaultToolSettings : ToolFlags :=
  mkToolFlags (Some true) (Some true) (Some true) (Some false).

(** The state of the first render. *)
Definition initialState : SettingsState :=
  mkSettingsState "Balanced" EmptyString EmptyString EmptyString [] false EmptyString
    false defaultToolSettings.

(** The object spread of [a] and then [b]: a flag of [b] wins where [b]
    has it. *)
Definition spread (a b : ToolFlags) : ToolFlags :=
  mkToolFlags
    (match backgroundSearch b with Some v => Some v | None => backgroundSearch a end)
    (match memoryStorage b with Some v => Some v | None => memoryStorage a end)
    (match memoryRetrieval b with Some v => Some v | None => memoryRetrieval a end)
    (match webSearch b with Some v => Some v | None => webSearch a end).

(** The four switches of the tools tab; the one of web search is
    disabled in the markup. *)
Definition toggleBackgroundSearch (checked : bool) : Component.M unit :=
  setEnabledTools (fun prev => spread prev (mkToolFlags (Some checked) None None None)).

Definition toggleMemoryStorage (checked : bool) : Component.M unit :=
  setEnabledTools (fun prev => spread prev (mkToolFlags None (Some checked) None None)).

Definition toggleMemoryRetrieval (checked : bool) : Component.M unit :=
  setEnabledTools (fun prev => spread prev (mkToolFlags None None (Some checked) None)).

Definition addBackgroundItem (self : SettingsState) : Component.M unit :=
  if Js.truthy (Js.trim (backgroundInfo self))
  then
    setBackgroundItems (fun prev => prev ++ [Js.trim (backgroundInfo self)]) ;;
    setBackgroundInfo EmptyString
  else Component.ret tt.

Definition removeBackgroundItem (index : nat) : Component.M unit :=
  setBackgroundItems (fun prev => filter_indexed (fun _ i => negb (Nat.eqb i index)) prev).

Section WithHost.
Context (host : Host).
(** [JSON.stringify] on the list of background items and on the object of
    the tool flags. *)
Context (JSON_stringify_array : list string -> string).
Context (JSON_stringify_tools : ToolFlags -> string).

(** Load tool settings from localStorage in a useEffect *)
Definition loadTools : Component.M unit :=
  Component.catch
    (let! savedTools := Component.lift (localStorage_getItem "enabledTools") in
     if Js.truthy_opt savedTools
     then
       match JSON_parse_tools host (default EmptyString savedTools) with
       | Some parsedTools =>
           setEnabledTools (fun _ => spread defaultToolSettings parsedTools)
       | None => Component.throw (Js.SyntaxError "JSON.parse")
       end
     else Component.ret tt)
    (fun error => Component.ret tt).

(** Load saved settings on initial render.  The parse of the background
    items is the last statement of the [try] block, so a text that is no
    JSON and a value that is no array both leave the items as they
    are. *)
Definition loadSavedSettings : Component.M unit :=
  Component.catch
    (let! savedPersonality := Component.lift (localStorage_getItem "aiPersonality") in
     (if Js.truthy_opt savedPersonality
      then setSelectedPersonality (default EmptyString savedPersonality)
      else Component.ret tt) ;;
     let! savedCustomInstructions := Component.lift (localStorage_getItem "customPrompt") in
     (if Js.truthy_opt savedCustomInstructions
      then setCustomInstructions (default EmptyString savedCustomInstructions)
      else Component.ret tt) ;;
     let! savedBackgroundItems := Component.lift (localStorage_getItem "backgroundTexts") in
     if Js.truthy_opt savedBackgroundItems
     then
       match JSON_parse_array host (default EmptyString savedBackgroundItems) with
       | Some parsedItems => setBackgroundItems (fun _ => parsedItems)
       | None => Component.ret tt
       end
     else Component.ret tt)
    (fun error => Component.ret tt).

Definition scrapeRequest (self : SettingsState) : WebsiteScrapeRequest :=
  mkScrapeRequest (websiteUrl self) (Some 5%N) (Some 10%N).

Definition handleScrapeWebsite (self : SettingsState) : Component.M unit :=
  if negb (Js.truthy (Js.trim (websiteUrl self)))
  then Component.ret tt
  else
    Component.finally
      (Component.catch
         (setIsScraping true ;;
          setScrapeError EmptyString ;;
          let request := scrapeRequest self in
          let! response := Component.lift (Api.scrapeWebsite host request) in
          if status_ok response && Nat.ltb 0 (length (background_items response))
          then
            setBackgroundItems (fun prev => prev ++ background_items response) ;;
            setWebsiteUrl EmptyString
          else
            setScrapeError
              (Js.or_else (Some (ws_message response))
                 "Failed to extract content from the website."))
         (fun error =>
            setScrapeError "Failed to scrape website. Please check the URL and try again."))
      (setIsScraping false).

(** [onClose] is the property the dialog is closed with. *)
Definition handleSaveSettings (self : SettingsState) (onClose : Task unit)
    : Component.M unit :=
  Component.finally
    (Component.catch
       (setIsLoading true ;;
        Component.lift (localStorage_setItem "aiPersonality" (selectedPersonality self)) ;;
        (if String.eqb (selectedPersonality self) "Custom"
         then Component.lift (localStorage_setItem "customPrompt" (customInstructions self))
         else Component.lift (localStorage_removeItem "customPrompt")) ;;
        Component.lift
          (localStorage_setItem "backgroundTexts"
             (JSON_stringify_array (backgroundItems self))) ;;
        Component.lift
          (localStorage_setItem "enabledTools"
             (JSON_stringify_tools (enabledTools self))) ;;
        Component.lift onClose)
       (fun error => Component.ret tt))
    (setIsLoading false).

End WithHost.
End Settings.

(** ** [components/Sidebar.tsx] *)

Module Sidebar.
Local Open Scope component_scope.

(** Get last message text for preview *)
Definition lastMessage (session : ChatSession) : string :=
  match messages session with
  | Some l =>
      match last l with
      | Some m => content m
      | None => "No messages"
      end
  | None => "No messages"
  end.

(** The line under the title of a session in the list. *)
Definition preview (session : ChatSession) : string :=
  if Nat.ltb 40 (String.length (lastMessage session))
  then substring 0 40 (lastMessage session) +:+ "..."
  else lastMessage session.

Definition sessionTitle (session : ChatSession) : string :=
  Js.or_else (title session) ("Chat " +:+ session_id session).

(** The state hook [isDeleting] is the state of the component the
    handlers read and write; [ctx] is the context of the render the
    handler belongs to, [narrow] tells whether the window is less than 768
    pixels wide, [toggleSidebar] is the property of that name. *)
Definition setIsDeleting (v : option string) : @Component.M (option string) unit :=
  Component.update (fun _ => v).

Section WithHost.
Context (host : Host) (ctx : AgentState) (isDeleting : option string)
  (narrow : bool) (toggleSidebar : Task unit).

Definition currentSessionId : option string := sessionId ctx.

(** Handler for selecting a chat history *)
Definition handleSelectChat (sessionId : string) : @Component.M (option string) unit :=
  if isLoading ctx || Js.truthy_opt isDeleting
  then Component.ret tt
  else if bool_decide (Some sessionId = currentSessionId)
  then
    if narrow then Component.lift toggleSidebar else Component.ret tt
  else
    Component.catch
      (Component.lift (Agent.loadSession host sessionId) ;;
       if narrow then Component.lift toggleSidebar else Component.ret tt)
      (fun error =>
         Component.lift (alert "Failed to load chat session. Please try again.")).

(** Handler for creating a new chat *)
Definition handleNewChat : @Component.M (option string) unit :=
  if isLoading ctx
  then Component.ret tt
  else
    Component.catch
      (Component.lift (Agent.createNewSession host ctx) ;;
       if narrow then Component.lift toggleSidebar else Component.ret tt)
      (fun error =>
         Component.lift (alert "Failed to create new chat. Please try again.")).

(** Handler for deleting a chat *)
Definition handleDeleteChat (sessionId : string) : @Component.M (option string) unit :=
  if isLoading ctx || Js.truthy_opt isDeleting
  then Component.ret tt
  else
    setIsDeleting (Some sessionId) ;;
    Component.finally
      (Component.catch
         (Component.lift (Agent.deleteSessionById host ctx sessionId))
         (fun error =>
            Component.lift (alert "Failed to delete chat session. Please try again.")))
      (setIsDeleting None).

End WithHost.
End Sidebar.

(** ** Vocabulary of the further properties *)

(** The browser when [loadSession id] has received [session] and is about
    to refresh the summaries. *)
Definition session_opened (host : Host) (id : string) (session : ChatSession)
    (w : World) : World :=
  mkWorld
    (mkAgent true true (Some id) (default [] (messages session)) (sessions (agent w))
       (personalityPresets (agent w)) (currentSettings (agent w)))
    (page w)
    (<["lastSessionId" := id]> (localStorage w))
    (alerts w)
    (requests w ++ [sessionRequest host id])
    (ticks w).

(** The browser after a [loadSession id] whose request has failed. *)
Definition load_failed (host : Host) (id : string) (w : World) : World :=
  mkWorld
    (mkAgent (isInitialized (agent w)) false (sessionId (agent w)) []
       (sessions (agent w)) (personalityPresets (agent w)) (currentSettings (agent w)))
    (page w) (localStorage w) (alerts w)
    (requests w ++ [sessionRequest host id])
    (ticks w).

(** The browser after a [loadSession id] whose request was answered with
    a successful status and the body [null]: the id has been set, and
    nothing after it. *)
Definition load_nulled (host : Host) (id : string) (w : World) : World :=
  mkWorld
    (mkAgent (isInitialized (agent w)) false (Some id) []
       (sessions (agent w)) (personalityPresets (agent w)) (currentSettings (agent w)))
    (page w) (localStorage w) (alerts w)
    (requests w ++ [sessionRequest host id])
    (ticks w).

(** The summaries are replaced by [l] and the loading flag is cleared. *)
Definition listed (l : list ChatSession) (s : AgentState) : AgentState :=
  mkAgent (isInitialized s) false (sessionId s) (agentMessages s) l
    (personalityPresets s) (currentSettings s).

(** The request is answered with a successful status and the JSON body
    [v]. *)
Definition answers {B} (r : FetchResult B) (v : B) : Prop :=
  exists resp, r = Received resp /\ ok resp = true /\ json resp = Json v.

Definition presetsRequest (host : Host) : Request :=
  mkRequest (Api.API_BASE_URL host +:+ "/personalities") GET NoBody.

(** The session id kept in local storage is the active one (both absent,
    or both the same id). *)
Definition persisted (w : World) : Prop :=
  localStorage w !! "lastSessionId" = sessionId (agent w).

(** The request the chat page probes the server with on mount. *)
Definition probeRequest (host : Host) : Request :=
  mkRequest (Page.apiBaseUrl host) GET NoBody.

(** The probe counts as passed when its answer has a JSON body, whatever
    its status. *)
Definition probe_passed (r : FetchResult unit) : bool :=
  match r with
  | Received resp => match json resp with Json _ => true | Malformed _ => false end
  | NetworkFailure _ => false
  end.

(** Between [w] and [w'] the request [req] was sent and nothing of the
    browser's state was changed. *)
Definition only_sends (req : Request) (w w' : World) : Prop :=
  agent w' = agent w /\ page w' = page w /\ localStorage w' = localStorage w /\
  alerts w' = alerts w /\ requests w' = requests w ++ [req].




(** The scrape request the settings dialog sends for the render [self]. *)
Definition scrapeWebsiteRequest (host : Host) (self : SettingsState) : Request :=
  mkRequest (Api.API_BASE_URL host +:+ "/scrape-website") POST
    (ScrapeRequest (Settings.scrapeRequest self)).

(** The state of the dialog is the same in [s] and [s'] but for the
    background items, the URL field and the two fields of the scrape. *)
Definition same_but_scrape (s s' : SettingsState) : Prop :=
  selectedPersonality s' = selectedPersonality s /\
  customInstructions s' = customInstructions s /\
  backgroundInfo s' = backgroundInfo s /\
  settingsLoading s' = settingsLoading s /\
  enabledTools s' = enabledTools s.

(** [JSON.parse] gives back what [JSON.stringify] was given, for the two
    values the dialog of the render [self] stores; the text is never
    empty. *)
Definition round_trips (host : Host) (stringify_array : list string -> string)
    (stringify_tools : ToolFlags -> string) (self : SettingsState) : Prop :=
  JSON_parse_array host (stringify_array (backgroundItems self))
  = Some (backgroundItems self) /\
  Js.truthy (stringify_array (backgroundItems self)) = true /\
  JSON_parse_tools host (stringify_tools (enabledTools self)) = Some (enabledTools self) /\
  Js.truthy (stringify_tools (enabledTools self)) = true.

(** The task leaves local storage as it is. *)
Definition keeps_storage (t : Task unit) : Prop :=
  forall E w, localStorage (snd (run E t w)) = localStorage w.

(** The custom personality the chat page sends for the prompt
    [description]. *)
Definition customPersonality (description : string) : gmap string string :=
  <["description" := description]> (<["tone" := "custom"]> (<["style" := "custom"]> ∅)).

(** The organization the chat page reads from local storage: the stored
    personality or [Balanced], the custom prompt when the personality is
    [Custom], the stored background items when they parse to a list, and
    the stored tool flags, each with its default when missing. *)
Definition stored_organization (host : Host) (storage : gmap string string)
    : OrganizationSettings :=
  let type := Js.or_else (storage !! "aiPersonality") "Balanced" in
  mkOrganization "Agentica AI"
    (mkPersonality type
       (if String.eqb type "Custom"
        then Some (customPersonality (Js.or_else (storage !! "customPrompt") EmptyString))
        else None))
    (mkBackground
       (if Js.truthy_opt (storage !! "backgroundTexts")
        then default []
               (JSON_parse_array host (default EmptyString (storage !! "backgroundTexts")))
        else []))
    (if Js.truthy_opt (storage !! "enabledTools")
     then
       match JSON_parse_tools host (default EmptyString (storage !! "enabledTools")) with
       | Some flags =>
           mkTools (default true (backgroundSearch flags))
                   (default true (memoryStorage flags))
                   (default true (memoryRetrieval flags))
                   (default false (webSearch flags))
       | None => mkTools true true true false
       end
     else mkTools true true true false).

(** ** The normalization of [ChatMessage] in plain terms *)

(** What the formatting effect of [ChatMessage] does, said without regular
    expressions: the text is walked from left to right, and where a
    title line, a numbered point or a section header is found, it is
    replaced. *)
Module Plain.

(** The longest prefix of [s] whose code units satisfy [p], and what
    follows it. *)
Fixpoint span (p : ascii -> bool) (s : string) : string * string :=
  match s with
  | String c s' =>
      if p c
      then (String c (fst (span p s')), snd (span p s'))
      else (EmptyString, s)
  | EmptyString => (EmptyString, EmptyString)
  end.

(** [s] without its prefix [prefix], if it starts with it. *)
Fixpoint strip (prefix s : string) : option string :=
  match prefix with
  | EmptyString => Some s
  | String c prefix' =>
      match s with
      | String d s' => if Ascii.eqb c d then strip prefix' s' else None
      | EmptyString => None
      end
  end.

(** The position is the start of a line: the start of the text, or
    behind a line terminator. *)
Definition line_start (before : option ascii) : bool :=
  match before with
  | None => true
  | Some c => Js.is_line_terminator c
  end.

(** The code unit does not end the line. *)
Definition in_line (c : ascii) : bool := negb (Js.is_line_terminator c).

(** A title line at the position: at the start of a line, optional white
    space, [Title:], optional white space, and the title, which is the
    text up to the end of the line.  The result is the heading that
    replaces them and the text behind the title. *)
Definition title_at (before : option ascii) (s : string) : option (string * string) :=
  if line_start before
  then
    match strip "Title:" (snd (span Js.is_space s)) with
    | Some s' =>
        let line := span in_line (snd (span Js.is_space s')) in
        Some ("# " +:+ fst line +:+ String "010" EmptyString, snd line)
    | None => None
    end
  else None.

(** A numbered point at the position: two stars, a number, a full stop,
    then two stars or white space, and the item, which is the text up to
    the end of the line.  The result is the plain point that replaces them
    and the text behind the item. *)
Definition point_at (before : option ascii) (s : string) : option (string * string) :=
  match strip "**" s with
  | Some s1 =>
      match fst (span Js.is_digit s1), strip "." (snd (span Js.is_digit s1)) with
      | String d digits, Some s2 =>
          let item_from :=
            match strip "**" s2 with
            | Some s3 => Some s3
            | None =>
                match fst (span Js.is_space s2) with
                | String _ _ => Some (snd (span Js.is_space s2))
                | EmptyString => None
                end
            end in
          match item_from with
          | Some s3 =>
              let line := span in_line s3 in
              Some (String d digits +:+ ". " +:+ fst line +:+ String "010" EmptyString,
                    snd line)
          | None => None
          end
      | _, _ => None
      end
  | None => None
  end.

(** A section header at the position: at the start of a line, optional
    white space, two hash signs, white space, and the header, which is
    the text up to the end of the line.  The result keeps the white space
    before the hash signs and puts one blank behind them. *)
Definition header_at (before : option ascii) (s : string) : option (string * string) :=
  if line_start before
  then
    match strip "##" (snd (span Js.is_space s)) with
    | Some s' =>
        match fst (span Js.is_space s') with
        | String _ _ =>
            let line := span in_line (snd (span Js.is_space s')) in
            Some (fst (span Js.is_space s) +:+ "## " +:+ fst line
                    +:+ String "010" EmptyString,
                  snd line)
        | EmptyString => None
        end
    | None => None
    end
  else None.

(** The text [s], walked from left to right: where [find] finds something
    it is replaced and the walk goes on behind it; [every] tells whether
    the walk still replaces after the first replacement.  [skip] counts
    the code units of what was found that are still to be dropped, [live]
    tells whether the walk still replaces. *)
Fixpoint rewrite (find : option ascii -> string -> option (string * string))
    (every : bool) (before : option ascii) (s : string) (skip : nat) (live : bool)
    : string :=
  match skip with
  | S skip' =>
      match s with
      | String c s' => rewrite find every (Some c) s' skip' live
      | EmptyString => EmptyString
      end
  | O =>
      if live
      then
        match find before s with
        | Some (replacement, after) =>
            replacement +:+
            match String.length s - String.length after, s with
            | O, String c s' => String c (rewrite find every (Some c) s' O every)
            | S n, String c s' => rewrite find every (Some c) s' n every
            | _, EmptyString => EmptyString
            end
        | None =>
            match s with
            | String c s' => String c (rewrite find every (Some c) s' O live)
            | EmptyString => EmptyString
            end
        end
      else s
  end.

Definition rewrite_first find (s : string) : string := rewrite find false None s O true.
Definition rewrite_every find (s : string) : string := rewrite find true None s O true.

(** The text an assistant message is displayed as: unless the content
    starts with a hash sign its first title line is promoted to a
    heading; then every numbered point is made a plain point, and every
    section header is normalized. *)
Definition normalize (content : string) : string :=
  let titled :=
    if Js.startsWith content "#" then content else rewrite_first title_at content in
  rewrite_every header_at (rewrite_every point_at titled).

End Plain.

(** What a match attempt of [r] at a position gives, with the
    replacement pattern [tpl] filled in. *)
Definition found (r : re) (tpl : list piece) (before : option ascii) (s : string)
    : option (string * string) :=
  match exec r before s with
  | Some (caps, after) => Some (expand tpl caps, after)
  | None => None
  end.

(** ** Scenarios *)

Module Scenario.

Definition host : Host :=
  mkHost (Some "https://api.example.com") (fun ms => pretty ms)
    (fun _ => None) (fun _ => None).

(** No network at all. *)
Definition offline : Env :=
  mkEnv (fun p sent req => NetworkFailure "Failed to fetch") (fun n => 0%Z).

(** Every request is answered with status 500. *)
Definition broken : Env :=
  mkEnv (fun p sent req =>
           Received (mkResponse 500 "Internal Server Error" "oops" (Malformed "Unexpected token")))
        (fun n => 0%Z).

(** The server of the end-to-end example of the specification: sessions
    are created with the id [abc] and every message is answered with
    [Hello!]. *)
Definition healthy : Env :=
  mkEnv (fun p sent req =>
           match p return FetchResult (payload p) with
           | PSessionResponse =>
               Received (mkResponse 200 "OK" "{...}" (Json (mkSessionResponse "abc" "ok")))
           | PMessageResponse =>
               Received (mkResponse 200 "OK" "{...}"
                           (Json (mkMessageResponse "abc" (Some "Hello!"))))
           | PSession =>
               Received (mkResponse 200 "OK" "{...}"
                           (Json (Some (mkSession "B" (Some [mkMessage user "b1"])
                                          None None None))))
           | PSessionList => Received (mkResponse 200 "OK" "[]" (Json []))
           | PPresets => Received (mkResponse 200 "OK" "{...}" (Json ∅))
           | PScrape =>
               Received (mkResponse 200 "OK" "{...}" (Json (mkScrapeResponse true "ok" [])))
           | PAny => Received (mkResponse 200 "OK" "{}" (Json tt))
           end)
        (fun n => 0%Z).

(** A server that has forgotten the session: chat requests are answered
    with 404, a new session gets the id [new]. *)
Definition expired : Env :=
  mkEnv (fun p sent req =>
           match p return FetchResult (payload p) with
           | PSessionResponse =>
               Received (mkResponse 200 "OK" "{...}" (Json (mkSessionResponse "new" "ok")))
           | PMessageResponse =>
               Received (mkResponse 404 "Not Found" "{...}" (Malformed "Unexpected token"))
           | _ => NetworkFailure "Failed to fetch"
           end)
        (fun n => 0%Z).

(** The browser right after the first render. *)
Definition fresh : World :=
  mkWorld Agent.initialState (mkPage "Hi" [] false) ∅ [] [] 0.

(** The browser with the session [A] active and one message in it. *)
Definition busy : World :=
  mkWorld
    (mkAgent true false (Some "A") [mkMessage user "a1"]
       [mkSession "A" (Some [mkMessage user "a1"]) None None None;
        mkSession "B" (Some [mkMessage user "b1"]) None None None]
       ∅ (mkSettings Agent.defaultOrganizationSettings))
    (mkPage "Hi" [] false) (<["lastSessionId" := "A"]> ∅) [] [] 0.

End Scenario.

(** ** Further scenarios *)

Module Cases.

(** A proxy in front of the server answers chat requests with an HTML
    page, status 200, that mentions 404; sessions are created with the id
    [new]. *)
Definition garbled : Env :=
  mkEnv (fun p sent req =>
           match p return FetchResult (payload p) with
           | PSessionResponse =>
               Received (mkResponse 200 "OK" "{...}" (Json (mkSessionResponse "new" "ok")))
           | PMessageResponse =>
               Received (mkResponse 200 "OK" "<h1>404</h1>" (Malformed "Unexpected token <"))
           | _ => NetworkFailure "Failed to fetch"
           end)
        (fun n => 0%Z).

(** The server has forgotten every session: presets and summaries are
    answered, a session is not found. *)
Definition forgotten : Env :=
  mkEnv (fun p sent req =>
           match p return FetchResult (payload p) with
           | PPresets => Received (mkResponse 200 "OK" "{}" (Json ∅))
           | PSessionList => Received (mkResponse 200 "OK" "[]" (Json []))
           | PSession =>
               Received (mkResponse 404 "Not Found" "{...}" (Malformed "Unexpected token"))
           | _ => NetworkFailure "Failed to fetch"
           end)
        (fun n => 0%Z).

(** The scrape finds two items. *)
Definition scraping : Env :=
  mkEnv (fun p sent req =>
           match p return FetchResult (payload p) with
           | PScrape =>
               Received (mkResponse 200 "OK" "{...}"
                           (Json (mkScrapeResponse true "ok" ["About us"; "Pricing"])))
           | _ => NetworkFailure "Failed to fetch"
           end)
        (fun n => 0%Z).

(** The settings dialog with a URL typed in and one item in the list. *)
Definition dialog : SettingsState :=
  mkSettingsState "Custom" "Be brief." "https://example.com" " note " ["docs"] false
    EmptyString false Settings.defaultToolSettings.

(** A stand-in for [JSON.stringify] and [JSON.parse] on the two values
    the dialog stores, enough to run the dialog of [dialog]. *)
Definition stringify_array (l : list string) : string :=
  "[" +:+ String.concat "," l +:+ "]".

Definition stringify_tools (t : ToolFlags) : string :=
  match webSearch t with
  | Some true => "{tools, web}"
  | _ => "{tools}"
  end.

Definition codec : Host :=
  mkHost (Some "https://api.example.com") (fun ms => pretty ms)
    (fun s => if String.eqb s "[docs]" then Some ["docs"] else None)
    (fun s => if String.eqb s "{tools}" then Some Settings.defaultToolSettings else None).

(** A server that answers the request for a session with status 200 and
    the body [null]. *)
Definition nulled : Env :=
  mkEnv (fun p sent req =>
           match p return FetchResult (payload p) with
           | PSession => Received (mkResponse 200 "OK" "null" (Json None))
           | PSessionList => Received (mkResponse 200 "OK" "[]" (Json []))
           | _ => NetworkFailure "Failed to fetch"
           end)
        (fun n => 0%Z).


End Cases.

(** * Properties *)

(** ** Running composed tasks *)

Lemma run_bind {A B} (E : Env) (t : Task A) (k : A -> Task B) (w : World) :
  run E (bind t k) w =
  match run E t w with
  | (Returned a, w') => run E (k a) w'
  | (Thrown e, w') => (Thrown e, w')
  end.
Proof.
  revert w. induction t; intros w; cbn; auto.
Qed.

Lemma run_try_catch {A} (E : Env) (t : Task A) (h : Js.Error -> Task A) (w : World) :
  run E (try_catch t h) w =
  match run E t w with
  | (Returned a, w') => (Returned a, w')
  | (Thrown e, w') => run E (h e) w'
  end.
Proof.
  revert w. induction t; intros w; cbn; auto.
Qed.

Lemma run_try_finally {A} (E : Env) (t : Task A) (c : Task unit) (w : World) :
  run E (try_finally t c) w =
  match run E t w with
  | (Returned a, w') =>
      match run E c w' with
      | (Returned _, w'') => (Returned a, w'')
      | (Thrown e, w'') => (Thrown e, w'')
      end
  | (Thrown e, w') =>
      match run E c w' with
      | (Returned _, w'') => (Thrown e, w'')
      | (Thrown e', w'') => (Thrown e', w'')
      end
  end.
Proof.
  revert w. induction t; intros w; cbn; auto; rewrite run_bind; destruct (run E c w) as [[|] ?]; reflexivity.
Qed.

Lemma run_attempt (E : Env) (p : Payload) (req : Request) (failure : string) (w : World) :
  run E
    (let! response := fetch p req in
     if negb (ok response)
     then Throw (Js.newError (failure +:+ statusText response))
     else response_json response) w
  = (settle failure (respond E p (requests w) req), with_request req w).
Proof.
  cbn. unfold settle, response_json.
  destruct (respond E p (requests w) req) as [reason|resp]; cbn; [reflexivity|].
  destruct (ok resp); cbn; [|reflexivity].
  destruct (json resp); reflexivity.
Qed.

Lemma run_request (E : Env) (p : Payload) (req : Request) (failure : string) (w : World) :
  run E
    (try_catch
       (let! response := fetch p req in
        if negb (ok response)
        then Throw (Js.newError (failure +:+ statusText response))
        else response_json response)
       (fun error => Throw error)) w
  = (settle failure (respond E p (requests w) req), with_request req w).
Proof.
  rewrite run_try_catch, run_attempt.
  destruct (settle failure _); reflexivity.
Qed.

Lemma observations_bind {A B} (E : Env) (t : Task A) (k : A -> Task B) (w : World) :
  observations E (bind t k) w =
  observations E t w ++
  match run E t w with
  | (Returned a, w') => observations E (k a) w'
  | (Thrown e, w') => []
  end.
Proof.
  revert w. induction t; intros w; cbn; auto. rewrite H. reflexivity.
Qed.

Lemma observations_try_catch {A} (E : Env) (t : Task A) (h : Js.Error -> Task A) (w : World) :
  observations E (try_catch t h) w =
  observations E t w ++
  match run E t w with
  | (Returned a, w') => []
  | (Thrown e, w') => observations E (h e) w'
  end.
Proof.
  revert w. induction t; intros w; cbn; auto. rewrite H. reflexivity.
Qed.

Lemma observations_try_finally {A} (E : Env) (t : Task A) (c : Task unit) (w : World) :
  observations E (try_finally t c) w =
  observations E t w ++ observations E c (snd (run E t w)).
Proof.
  revert w. induction t; intros w; cbn; auto.
  - rewrite observations_bind. destruct (run E c w) as [[|] ?]; cbn; apply app_nil_r.
  - rewrite observations_bind. destruct (run E c w) as [[|] ?]; cbn; apply app_nil_r.
  - rewrite H. reflexivity.
Qed.

Lemma observations_request (E : Env) (p : Payload) (req : Request) (failure : string) (w : World) :
  observations E
    (try_catch
       (let! response := fetch p req in
        if negb (ok response)
        then Throw (Js.newError (failure +:+ statusText response))
        else response_json response)
       (fun error => Throw error)) w
  = [with_request req w].
Proof.
  cbn. unfold response_json. f_equal.
  destruct (respond E p (requests w) req) as [reason|resp]; cbn; [reflexivity|].
  destruct (ok resp); cbn; [|reflexivity].
  destruct (json resp); reflexivity.
Qed.

(** ** The API client *)

Lemma run_createSession host E settings w :
  run E (Api.createSession host settings) w =
  (settle "Failed to create session: "
     (respond E PSessionResponse (requests w) (createRequest host settings)),
   with_request (createRequest host settings) w).
Proof. exact (run_request E PSessionResponse _ _ w). Qed.

Lemma observations_createSession host E settings w :
  observations E (Api.createSession host settings) w =
  [with_request (createRequest host settings) w].
Proof. exact (observations_request E PSessionResponse _ _ w). Qed.

Lemma settle_failed {B} failure (r : FetchResult B) :
  failed r -> exists e, settle failure r = Thrown e.
Proof.
  destruct r as [reason|resp]; cbn; [eauto|].
  intros [H|[reason H]].
  - rewrite H. eauto.
  - rewrite H. destruct (ok resp); eauto.
Qed.

Lemma run_sendMessage host E id message w :
  run E (Api.sendMessage host id message) w =
  (settle "Failed to send message: "
     (respond E PMessageResponse (requests w)
        (mkRequest (Api.API_BASE_URL host +:+ "/chat") POST (MessageRequest (Some id) message))),
   with_request
     (mkRequest (Api.API_BASE_URL host +:+ "/chat") POST (MessageRequest (Some id) message)) w).
Proof. exact (run_request E PMessageResponse _ _ w). Qed.

Lemma run_getSession host E id w :
  run E (Api.getSession host id) w =
  (settle "Failed to get session: "
     (respond E PSession (requests w) (sessionRequest host id)),
   with_request (sessionRequest host id) w).
Proof. exact (run_request E PSession _ _ w). Qed.

Lemma run_getPersonalityPresets host E w :
  run E (Api.getPersonalityPresets host) w =
  (settle "Failed to get personality presets: "
     (respond E PPresets (requests w)
        (mkRequest (Api.API_BASE_URL host +:+ "/personalities") GET NoBody)),
   with_request (mkRequest (Api.API_BASE_URL host +:+ "/personalities") GET NoBody) w).
Proof. exact (run_request E PPresets _ _ w). Qed.

Lemma run_scrapeWebsite host E request w :
  run E (Api.scrapeWebsite host request) w =
  (settle "Failed to scrape website: "
     (respond E PScrape (requests w)
        (mkRequest (Api.API_BASE_URL host +:+ "/scrape-website") POST (ScrapeRequest request))),
   with_request
     (mkRequest (Api.API_BASE_URL host +:+ "/scrape-website") POST (ScrapeRequest request)) w).
Proof. exact (run_request E PScrape _ _ w). Qed.

Lemma run_getAllSessions host E w :
  run E (Api.getAllSessions host) w =
  match settle "Failed to get sessions: "
          (respond E PSessionList (requests w) (listRequest host)) with
  | Returned l => (Returned l, with_request (listRequest host) w)
  | Thrown _ =>
      (Returned (mockList host E w),
       Nat.iter 6 with_tick (with_request (listRequest host) w))
  end.
Proof.
  unfold Api.getAllSessions. rewrite run_try_catch.
  rewrite (run_attempt E PSessionList (listRequest host)).
  destruct (settle _ _); reflexivity.
Qed.

Lemma settle_rejected E p sent req failure :
  rejects E ->
  exists resp, respond E p sent req = Received resp /\ ok resp = false /\
    settle failure (respond E p sent req)
    = Thrown (Js.newError (failure +:+ statusText resp)).
Proof.
  intros H. destruct (H p sent req) as (resp & Hr & Hok).
  exists resp. rewrite Hr. cbn. rewrite Hok. auto.
Qed.

Lemma broken_rejects : rejects Scenario.broken.
Proof. intros p sent req. eexists. split; reflexivity. Qed.





(** C7, as the code has it.  [getAllSessions] returns the list the server
    sent when the response is successful and its body is JSON; in every
    other case (no answer, a status that is not successful, a body that is
    no JSON) it returns the mock list.  It never raises. *)
Theorem getAllSessions_outcome host E w :
  let result := fst (run E (Api.getAllSessions host) w) in
  match respond E PSessionList (requests w) (listRequest host) with
  | Received resp =>
      if ok resp
      then match json resp with
           | Json l => result = Returned l
           | Malformed _ => result = Returned (mockList host E w)
           end
      else result = Returned (mockList host E w)
  | NetworkFailure _ => result = Returned (mockList host E w)
  end /\
  map session_id (mockList host E w) = ["1"; "2"; "3"].
Proof.
  intros result. subst result. split; [|reflexivity].
  pose proof (run_getAllSessions host E w) as Hrun.
  destruct (respond E PSessionList _ _) as [reason|resp]; cbn [settle] in Hrun.
  - rewrite Hrun. reflexivity.
  - destruct (ok resp); [|rewrite Hrun; reflexivity].
    destruct (json resp); rewrite Hrun; reflexivity.
Qed.

(** C7 as stated fails: answered with status 500, [getAllSessions] returns
    the mock list instead of raising. *)
Lemma getAllSessions_does_not_raise :
  ~ raises_on_bad_status (Api.getAllSessions Scenario.host).
Proof.
  intros H.
  destruct (H Scenario.broken Scenario.fresh broken_rejects) as [e He].
  rewrite run_getAllSessions in He.
  destruct (settle_rejected Scenario.broken PSessionList (requests Scenario.fresh)
              (listRequest Scenario.host) "Failed to get sessions: " broken_rejects)
    as (resp & _ & _ & Hs).
  rewrite Hs in He. discriminate He.
Qed.

(** ** The session context *)



(** C8.  Each settings mutator changes its own field of the organization
    settings and nothing else: the other fields, the active session id,
    the messages, the session summaries and local storage keep their
    values, and no request is sent. *)
Theorem settings_mutators_frame E w new_personality new_background new_name :
  let settings x := organization (currentSettings (agent x)) in
  let p := run E (Agent.updatePersonality new_personality) w in
  let b := run E (Agent.updateBackground new_background) w in
  let n := run E (Agent.updateOrganizationName new_name) w in
  (fst p = Returned tt /\
   personality (settings (snd p)) = new_personality /\
   name (settings (snd p)) = name (settings w) /\
   background (settings (snd p)) = background (settings w) /\
   tools (settings (snd p)) = tools (settings w) /\
   same_but_settings w (snd p)) /\
  (fst b = Returned tt /\
   background (settings (snd b)) = new_background /\
   name (settings (snd b)) = name (settings w) /\
   personality (settings (snd b)) = personality (settings w) /\
   tools (settings (snd b)) = tools (settings w) /\
   same_but_settings w (snd b)) /\
  (fst n = Returned tt /\
   name (settings (snd n)) = new_name /\
   personality (settings (snd n)) = personality (settings w) /\
   background (settings (snd n)) = background (settings w) /\
   tools (settings (snd n)) = tools (settings w) /\
   same_but_settings w (snd n)).
Proof.
  cbn. unfold same_but_settings. cbn. repeat split; reflexivity.
Qed.

Lemma run_deleteSession host E id w :
  exists result,
    run E (Api.deleteSession host id) w =
    (Returned result, with_request (deleteRequest host id) w).
Proof.
  unfold Api.deleteSession. rewrite run_try_catch, run_bind. cbn.
  destruct (respond E PAny (requests w) _) as [reason|resp]; cbn;
    [eexists; reflexivity|].
  destruct (ok _); cbn; eexists; reflexivity.
Qed.

Lemma filter_session_id id (l : list ChatSession) :
  Forall (fun s => session_id s <> id)
    (List.filter (fun s => negb (String.eqb (session_id s) id)) l).
Proof.
  apply Forall_forall. intros s Hin. apply list_elem_of_In, filter_In in Hin as [_ Hs].
  apply negb_true_iff, String.eqb_neq in Hs. exact Hs.
Qed.

(** C6.  Deleting the active session clears the active id, the messages
    and the persisted id, and removes the session from the summaries;
    deleting another session removes it from the summaries and leaves the
    active id and the messages as they were. *)
Theorem deleteSessionById_effect host E w id :
  let result := run E (Agent.deleteSessionById host (agent w) id) w in
  let after := snd result in
  fst result = Returned tt /\
  Forall (fun s => session_id s <> id) (sessions (agent after)) /\
  if bool_decide (sessionId (agent w) = Some id)
  then sessionId (agent after) = None /\
       agentMessages (agent after) = [] /\
       localStorage after !! "lastSessionId" = None
  else sessionId (agent after) = sessionId (agent w) /\
       agentMessages (agent after) = agentMessages (agent w).
Proof.
  intros result after. subst after result. unfold Agent.deleteSessionById.
  rewrite run_try_catch, run_bind.
  destruct (run_deleteSession host E id w) as [result ->].
  rewrite run_bind. cbn [run Agent.setSessions skip].
  case_bool_decide as Hself; case_bool_decide as Hid; try congruence.
  - cbn. split; [reflexivity|]. split; [apply filter_session_id|].
    split; [reflexivity|]. split; [reflexivity|]. apply lookup_delete_eq.
  - cbn. split; [reflexivity|]. split; [apply filter_session_id|].
    split; reflexivity.
Qed.

(** ** Sending through the context *)

Lemma run_initializeSession host E settings w :
  run E (Agent.initializeSession host settings) w =
  (Returned tt,
   match settle "Failed to create session: "
           (respond E PSessionResponse (requests w) (createRequest host settings)) with
   | Returned response => session_started host settings response w
   | Thrown _ => session_refused host settings w
   end).
Proof.
  unfold Agent.initializeSession.
  rewrite run_bind. cbn [run Agent.setIsLoading skip].
  rewrite run_try_finally, run_try_catch, run_bind, run_createSession.
  cbn [requests with_agent].
  destruct (settle _ _); reflexivity.
Qed.

Lemma observations_initializeSession host E settings w :
  observations E (Agent.initializeSession host settings) w =
  [with_request (createRequest host settings)
     (with_agent (fun s => mkAgent (isInitialized s) true (sessionId s) (agentMessages s)
                             (sessions s) (personalityPresets s) (currentSettings s)) w)].
Proof.
  unfold Agent.initializeSession.
  rewrite observations_bind. cbn [run observations Agent.setIsLoading skip app].
  rewrite observations_try_finally, observations_try_catch, observations_bind,
    observations_createSession, run_bind, run_createSession.
  destruct (settle _ _); reflexivity.
Qed.

Lemma requests_initializeSession host E settings w :
  requests (snd (run E (Agent.initializeSession host settings) w)) =
  requests w ++ [createRequest host settings].
Proof.
  rewrite run_initializeSession. cbn [snd]. destruct (settle _ _); reflexivity.
Qed.

Lemma run_sendUserMessage_active host E w message :
  Js.truthy_opt (sessionId (agent w)) = true ->
  let settings := organization (currentSettings (agent w)) in
  let posted :=
    with_request (chatRequest (agent w) message)
      (with_agent (add_message (mkMessage user message))
         (with_agent (set_loading true) w)) in
  run E (Agent.sendUserMessage host (agent w) message) w =
  (Returned tt,
   match chat_reply (respond E PMessageResponse (requests w)
                       (chatRequest (agent w) message)) with
   | inr reply =>
       with_agent (set_loading false)
         (with_agent (add_message (mkMessage assistant reply)) posted)
   | inl error =>
       if is404 error
       then
         with_agent (set_loading false)
           (with_agent (add_message Agent.newSessionMessage)
              (snd (run E (Agent.initializeSession host settings)
                      (with_agent (add_message Agent.expiredMessage) posted))))
       else
         with_agent (set_loading false)
           (with_agent (add_message (Agent.sorryMessage error)) posted)
   end).
Proof.
  intros Hid settings posted. subst settings posted.
  unfold Agent.sendUserMessage. cbn zeta. rewrite Hid. cbn [negb].
  rewrite run_bind. cbn [run Agent.setIsLoading skip].
  rewrite run_bind. cbn [run Agent.setMessages skip].
  rewrite run_try_finally, run_try_catch, run_bind.
  cbn [run fetch requests with_agent].
  unfold chatRequest, chat_reply.
  assert (Hrecover : forall error w1,
    (let (o, w') :=
       run E
         (if Js.includes (Js.toString error) "404"
             || Js.includes (Js.toString error) "not found"
          then Agent.setMessages (fun prev => prev ++ [Agent.expiredMessage]) ;;
               Agent.initializeSession host (organization (currentSettings (agent w))) ;;
               Agent.setMessages (fun prev => prev ++ [Agent.newSessionMessage])
          else Agent.setMessages (fun prev => prev ++ [Agent.sorryMessage error])) w1 in
     match o with
     | Returned a =>
         let (o0, w'') := run E (Agent.setIsLoading false) w' in
         match o0 with
         | Returned _ => (Returned a, w'')
         | Thrown e => (Thrown e, w'')
         end
     | Thrown e =>
         let (o0, w'') := run E (Agent.setIsLoading false) w' in
         match o0 with
         | Returned _ => (Thrown e, w'')
         | Thrown e' => (Thrown e', w'')
         end
     end) =
    (Returned tt,
     if is404 error
     then with_agent (set_loading false)
            (with_agent (add_message Agent.newSessionMessage)
               (snd (run E (Agent.initializeSession host
                              (organization (currentSettings (agent w))))
                       (with_agent (add_message Agent.expiredMessage) w1))))
     else with_agent (set_loading false)
            (with_agent (add_message (Agent.sorryMessage error)) w1))).
  { intros error w1. unfold is404. destruct (_ || _); [|reflexivity].
    rewrite run_bind. cbn [run Agent.setMessages skip].
    rewrite run_bind, run_initializeSession.
    unfold add_message at 2. rewrite run_initializeSession.
    cbn [requests with_agent snd]. destruct (settle _ _); reflexivity. }
  destruct (respond E PMessageResponse (requests w) _) as [reason|resp].
  - cbn [run]. apply Hrecover.
  - cbn [run]. destruct (ok _).
    + cbn [negb]. rewrite run_bind. destruct (json _) as [reason|data].
      * cbn [run]. apply Hrecover.
      * cbn [run]. destruct (Js.truthy_opt (response data)).
        -- reflexivity.
        -- cbn [run]. apply Hrecover.
    + cbn [negb run]. apply Hrecover.
Qed.

Lemma run_sendUserMessage_inactive host E w message :
  Js.truthy_opt (sessionId (agent w)) = false ->
  run E (Agent.sendUserMessage host (agent w) message) w =
  (Returned tt,
   with_agent (set_messages [Agent.unableMessage])
     (snd (run E (Agent.initializeSession host
                    (organization (currentSettings (agent w)))) w))).
Proof.
  intros Hid. unfold Agent.sendUserMessage. cbn zeta. rewrite Hid. cbn [negb].
  rewrite run_bind, run_initializeSession. reflexivity.
Qed.

Lemma sent_since_app w w' l :
  requests w' = requests w ++ l -> sent_since w w' = l.
Proof. intros H. unfold sent_since. rewrite H. apply drop_app_length. Qed.

(** C5 fails on the context.  A send through the context posts the chat
    message with the browser's [fetch] to the fixed address
    [http://localhost:8000/chat], whatever the configured base URL is, and
    not through [Api.sendMessage]; only the creation of a session goes
    through the API client, to the base URL.  No other request is sent. *)
Theorem sendUserMessage_targets host E w message :
  let chat := chatRequest (agent w) message in
  let create := createRequest host (organization (currentSettings (agent w))) in
  let sent := sent_since w (snd (run E (Agent.sendUserMessage host (agent w) message) w)) in
  url chat = "http://localhost:8000/chat" /\
  url create = Api.API_BASE_URL host +:+ "/sessions" /\
  if Js.truthy_opt (sessionId (agent w))
  then sent = [chat] \/ sent = [chat; create]
  else sent = [create].
Proof.
  intros chat create sent. subst chat create sent.
  split; [reflexivity|]. split; [reflexivity|].
  destruct (Js.truthy_opt (sessionId (agent w))) eqn:Hid.
  - rewrite (run_sendUserMessage_active host E w message Hid). cbn [snd].
    destruct (chat_reply _) as [error|reply].
    + destruct (is404 error).
      * right. apply sent_since_app. cbn [requests with_agent].
        rewrite requests_initializeSession. cbn. rewrite <- app_assoc. reflexivity.
      * left. apply sent_since_app. reflexivity.
    + left. apply sent_since_app. reflexivity.
  - rewrite (run_sendUserMessage_inactive host E w message Hid). cbn [snd].
    apply sent_since_app. cbn [requests with_agent].
    apply requests_initializeSession.
Qed.

(** C5 as stated fails: with the base URL [https://api.example.com]
    configured and a session active, the message is posted to
    [http://localhost:8000/chat]. *)
Lemma sendUserMessage_ignores_base_url :
  ~ sends_to_base_url Scenario.host Scenario.healthy Scenario.busy "Hi".
Proof.
  unfold sends_to_base_url. intros H.
  assert (Hsent : sent_since Scenario.busy
            (snd (run Scenario.healthy
                    (Agent.sendUserMessage Scenario.host (agent Scenario.busy) "Hi")
                    Scenario.busy))
          = [mkRequest "http://localhost:8000/chat" POST (MessageRequest (Some "A") "Hi")])
    by (vm_compute; reflexivity).
  rewrite Hsent in H. inversion H as [|? ? Hurl _]. vm_compute in Hurl.
  discriminate Hurl.
Qed.

(** C1 fails on the context.  When the render has no session id,
    [sendMessage] creates a session - and stops: the function still sees
    the session id of its own render, shows the error notice and returns.
    The only request sent is the one that creates the session; the chat
    message is never posted, whether the creation succeeded or not. *)
Theorem sendUserMessage_without_session host E w message :
  Js.truthy_opt (sessionId (agent w)) = false ->
  let result := run E (Agent.sendUserMessage host (agent w) message) w in
  fst result = Returned tt /\
  sent_since w (snd result)
  = [createRequest host (organization (currentSettings (agent w)))] /\
  agentMessages (agent (snd result)) = [Agent.unableMessage].
Proof.
  intros Hid result. subst result.
  rewrite (run_sendUserMessage_inactive host E w message Hid). cbn [fst snd].
  split; [reflexivity|]. split; [|reflexivity].
  apply sent_since_app. cbn [requests with_agent].
  apply requests_initializeSession.
Qed.

Lemma sendUserMessage_without_session_witness :
  Js.truthy_opt (sessionId (agent Scenario.fresh)) = false /\
  requests (snd (run Scenario.healthy
                   (Agent.sendUserMessage Scenario.host (agent Scenario.fresh) "Hi")
                   Scenario.fresh))
  = [mkRequest "https://api.example.com/sessions" POST
       (SessionRequest Agent.defaultOrganizationSettings)] /\
  sessionId (agent (snd (run Scenario.healthy
                   (Agent.sendUserMessage Scenario.host (agent Scenario.fresh) "Hi")
                   Scenario.fresh))) = Some "abc".
Proof.
  split; [reflexivity|]. split; [|vm_compute; reflexivity].
  exact (proj1 (proj2 (sendUserMessage_without_session Scenario.host Scenario.healthy
                         Scenario.fresh "Hi" eq_refl))).
Defined.

Lemma not_found_is404 reason :
  is404 (Js.newError ("API error: " +:+ pretty 404%N +:+ " " +:+ reason)) = true.
Proof. vm_compute. reflexivity. Qed.

Lemma chat_reply_404 (resp : Response (payload PMessageResponse)) :
  status resp = 404%N ->
  chat_reply (@Received (payload PMessageResponse) resp)
  = inl (Js.newError ("API error: " +:+ pretty 404%N +:+ " " +:+ statusText resp)).
Proof.
  intros H. cbn [payload] in *. unfold chat_reply, ok. rewrite H. reflexivity.
Qed.

Lemma observations_sendUserMessage_404 host E w message
    (resp : Response (payload PMessageResponse)) :
  Js.truthy_opt (sessionId (agent w)) = true ->
  respond E PMessageResponse (requests w) (chatRequest (agent w) message) = Received resp ->
  status resp = 404%N ->
  map (fun o => agentMessages (agent o))
    (observations E (Agent.sendUserMessage host (agent w) message) w)
  = [agentMessages (agent w) ++ [mkMessage user message];
     (agentMessages (agent w) ++ [mkMessage user message]) ++ [Agent.expiredMessage]].
Proof.
  intros Hid Hresp Hstatus.
  unfold Agent.sendUserMessage. cbn zeta. rewrite Hid. cbn [negb].
  rewrite observations_bind. cbn [run observations Agent.setIsLoading skip app].
  rewrite observations_bind. cbn [run observations Agent.setMessages skip app].
  rewrite observations_try_finally, observations_try_catch, observations_bind.
  rewrite run_bind.
  cbn [run observations fetch requests with_agent app].
  unfold chatRequest in Hresp. rewrite Hresp.
  cbn [run observations app].
  assert (Hok : ok resp = false) by (unfold ok; rewrite Hstatus; reflexivity).
  rewrite Hok. cbn [negb run observations app].
  rewrite Hstatus.
  pose proof (not_found_is404 (statusText resp)) as H404. unfold is404 in H404.
  rewrite H404.
  rewrite observations_bind. cbn [run observations Agent.setMessages skip app].
  rewrite observations_bind, observations_initializeSession, run_initializeSession.
  cbn [run observations Agent.setMessages Agent.setIsLoading skip app snd map with_request
         with_agent agent agentMessages].
  reflexivity.
Qed.

(** C2, as the code has it.  When the chat request is answered with status
    404, the context has appended the user's message before the request and
    appends the notice that the session expired after it; both are on
    display while the new session is being created.  A session that is
    created resets the message list, so the send ends with the notice of
    the new session alone, under the new session id.  If no session can be
    created the list is kept and ends with the user's message and the two
    notices, in this order. *)
Theorem sendUserMessage_on_404 host E w message
    (resp : Response (payload PMessageResponse)) :
  Js.truthy_opt (sessionId (agent w)) = true ->
  respond E PMessageResponse (requests w) (chatRequest (agent w) message) = Received resp ->
  status resp = 404%N ->
  let history := agentMessages (agent w) in
  let settings := organization (currentSettings (agent w)) in
  let task := Agent.sendUserMessage host (agent w) message in
  let final := agent (snd (run E task w)) in
  map (fun o => agentMessages (agent o)) (observations E task w)
  = [history ++ [mkMessage user message];
     (history ++ [mkMessage user message]) ++ [Agent.expiredMessage]] /\
  match settle "Failed to create session: "
          (respond E PSessionResponse (requests w ++ [chatRequest (agent w) message])
             (createRequest host settings)) with
  | Returned created =>
      agentMessages final = [Agent.newSessionMessage] /\
      sessionId final = Some (sr_session_id created)
  | Thrown _ =>
      agentMessages final
      = ((history ++ [mkMessage user message]) ++ [Agent.expiredMessage])
        ++ [Agent.newSessionMessage] /\
      sessionId final = sessionId (agent w)
  end.
Proof.
  intros Hid Hresp Hstatus history settings task final.
  subst history settings task final.
  split; [exact (observations_sendUserMessage_404 host E w message resp Hid Hresp Hstatus)|].
  rewrite (run_sendUserMessage_active host E w message Hid). cbn [snd].
  rewrite Hresp, (chat_reply_404 resp Hstatus), not_found_is404.
  rewrite run_initializeSession. cbn [snd requests with_agent with_request].
  destruct (settle _ _); split; reflexivity.
Qed.

Lemma expired_answers_404 :
  respond Scenario.expired PMessageResponse (requests Scenario.busy)
    (chatRequest (agent Scenario.busy) "Hi")
  = Received (mkResponse 404 "Not Found" "{...}" (Malformed "Unexpected token")).
Proof. reflexivity. Qed.

Lemma sendUserMessage_on_404_witness :
  Js.truthy_opt (sessionId (agent Scenario.busy)) = true /\
  agentMessages
    (agent (snd (run Scenario.expired
                   (Agent.sendUserMessage Scenario.host (agent Scenario.busy) "Hi")
                   Scenario.busy)))
  = [Agent.newSessionMessage].
Proof.
  split; [reflexivity|].
  exact (proj1 (proj2 (sendUserMessage_on_404 Scenario.host Scenario.expired Scenario.busy
                         "Hi" _ eq_refl expired_answers_404 eq_refl))).
Defined.

(** C2 as stated fails when the new session is created: the send ends
    with the notice of the new session alone; the notice that the session
    expired and the user's message are gone. *)
Lemma sendUserMessage_on_404_resets_messages :
  ~ notices_as_specified "Hi"
      (agentMessages
         (agent (snd (run Scenario.expired
                        (Agent.sendUserMessage Scenario.host (agent Scenario.busy) "Hi")
                        Scenario.busy)))).
Proof.
  intros [Hexpired _]. vm_compute in Hexpired. discriminate Hexpired.
Qed.

(** ** Sending from the chat page *)

Lemma run_getItem_pure {A} E (key : string) (k : option string -> Task A) w :
  run E (GetItem key k) w = run E (k (localStorage w !! key)) w.
Proof. reflexivity. Qed.

Lemma run_orgSettings host E w :
  exists org, run E (Page.orgSettings host) w = (Returned org, w).
Proof.
  unfold Page.orgSettings, Page.getPersonality, Page.getCustomPrompt,
    Page.getBackgroundTexts, Page.getEnabledTools, localStorage_getItem.
  cbn [bind run].
  destruct (String.eqb _ "Custom"); cbn [bind run];
    destruct (Js.truthy_opt (localStorage w !! "backgroundTexts")); cbn [bind run];
    destruct (Js.truthy_opt (localStorage w !! "enabledTools")); cbn [bind run];
    try destruct (JSON_parse_tools host _); cbn [bind run]; eexists; reflexivity.
Qed.

Lemma run_orgSettings_stored host E w :
  run E (Page.orgSettings host) w
  = (Returned (stored_organization host (localStorage w)), w).
Proof.
  unfold Page.orgSettings, Page.getPersonality, Page.getCustomPrompt,
    Page.getBackgroundTexts, Page.getEnabledTools, localStorage_getItem,
    stored_organization, customPersonality, Page.defaultTools.
  cbn [bind run].
  destruct (String.eqb _ "Custom"); cbn [bind run];
    destruct (Js.truthy_opt (localStorage w !! "backgroundTexts")); cbn [bind run];
    destruct (Js.truthy_opt (localStorage w !! "enabledTools")); cbn [bind run];
    try destruct (JSON_parse_tools host _); cbn [bind run]; reflexivity.
Qed.


(** X14.  With a session id in local storage, [handleSubmit] creates no session:
    it sends the chat request alone, under the stored id, and leaves the
    stored id in place. *)
Lemma handleSubmit_reuses_session host E w agentLoading id :
  submits (page w) agentLoading = true ->
  localStorage w !! "lastSessionId" = Some id ->
  Js.truthy id = true ->
  let final := snd (run E (Page.handleSubmit host (page w) agentLoading) w) in
  sent_since w final = [pageChatRequest host id (input (page w))] /\
  localStorage final !! "lastSessionId" = Some id.
Proof.
  intros Hgo Hstored Hid final. subst final.
  unfold submits in Hgo. apply negb_true_iff in Hgo.
  unfold Page.handleSubmit. rewrite Hgo.
  rewrite run_bind. cbn [run Page.setInput skip].
  rewrite run_bind. cbn [run Page.setMessages skip].
  rewrite run_bind. cbn [run Page.setIsLoading skip].
  rewrite run_try_finally, run_try_catch.
  unfold localStorage_getItem. cbn [bind].
  rewrite run_getItem_pure. cbn [localStorage with_page].
  rewrite Hstored. cbn [Js.or_else]. rewrite Hid. rewrite Hid.
  cbn [negb bind run fetch].
  destruct (respond E PMessageResponse _ _) as [reason|chat]; cbn [run bind].
  2: destruct (ok _); cbn [negb run bind];
       [unfold response_json; destruct (json _) as [reason|data]; cbn [run bind];
        [|destruct (Js.truthy_opt (response data))]|].
  all: cbn; (split; [|exact Hstored]).
  all: apply sent_since_app; reflexivity.
Qed.

Example handleSubmit_end_to_end :
  let first := snd (run Scenario.healthy
                      (Page.handleSubmit Scenario.host (page Scenario.fresh) false)
                      Scenario.fresh) in
  let second := snd (run Scenario.healthy
                       (Page.handleSubmit Scenario.host (mkPage "Again" [] false) false)
                       first) in
  map url (requests second)
  = ["https://api.example.com/sessions"; "https://api.example.com/chat";
     "https://api.example.com/chat"] /\
  map body (drop 1 (requests second))
  = [MessageRequest (Some "abc") "Hi"; MessageRequest (Some "abc") "Again"] /\
  pageMessages (page first) = [mkMessage user "Hi"; mkMessage assistant "Hello!"].
Proof. vm_compute. repeat split; reflexivity. Qed.

(** ** Loads and creations in flight together *)

















(** A load that fails leaves the old id with the emptied list for good. *)
Example failed_load_keeps_id_drops_messages :
  let result := run Scenario.offline (Agent.loadSession Scenario.host "B") Scenario.busy in
  fst result = Thrown (Js.TypeError "Failed to fetch") /\
  active (agent (snd result)) = (Some "A", []) /\
  localStorage (snd result) !! "lastSessionId" = Some "A".
Proof. vm_compute. repeat split; reflexivity. Qed.

(** Two loads in flight, the later one answered first: the context ends
    with the id and the messages of the load answered last. *)
Example racing_loads :
  let answer (id text : string) : forall p : Payload, FetchResult (payload p) :=
    fun p =>
      match p return FetchResult (payload p) with
      | PSession =>
          Received (mkResponse 200 "OK" "{...}"
                      (Json (Some (mkSession id (Some [mkMessage user text])
                                     None None None))))
      | _ => NetworkFailure "Failed to fetch"
      end in
  let final :=
    steps Scenario.host (fun _ => 0%Z) (mkSystem Scenario.fresh [] [])
      [Invoke (LoadSession "A"); Invoke (LoadSession "B");
       Settle 1 (answer "B" "b1"); Settle 0 (answer "A" "a1")] in
  active (agent (world final)) = (Some "A", [mkMessage user "a1"]) /\
  length (pending final) = 2.
Proof. vm_compute. split; reflexivity. Qed.

(** ** The message renderer *)

Lemma append_cons x (a b : string) : String x a +:+ b = String x (a +:+ b).
Proof. reflexivity. Qed.

Lemma append_nil_l (b : string) : EmptyString +:+ b = b.
Proof. reflexivity. Qed.

Lemma append_assoc (a b c : string) : (a +:+ b) +:+ c = a +:+ (b +:+ c).
Proof.
  induction a as [|x a IH]; [reflexivity|]. rewrite !append_cons. f_equal. exact IH.
Qed.

Lemma length_append (a b : string) :
  String.length (a +:+ b) = String.length a + String.length b.
Proof.
  induction a as [|x a IH]; [reflexivity|]. rewrite append_cons. cbn. f_equal. exact IH.
Qed.

Lemma take_append (a b : string) : take (String.length a) (a +:+ b) = a.
Proof.
  induction a as [|x a IH]; [destruct b; reflexivity|].
  rewrite append_cons. cbn. f_equal. exact IH.
Qed.

Lemma between_append (a b : string) : between (a +:+ b) b = a.
Proof.
  unfold between. rewrite length_append.
  replace (String.length a + String.length b - String.length b) with (String.length a) by lia.
  apply take_append.
Qed.

Lemma all_chars_append p a b :
  all_chars p (a +:+ b) = all_chars p a && all_chars p b.
Proof.
  induction a as [|x a IH]; [reflexivity|]. rewrite append_cons. cbn.
  rewrite IH. apply andb_assoc.
Qed.

(** A greedy star takes the whole run it is given when what follows
    matches after it. *)
Lemma star_greedy_run {R} p before (run tail : string)
    (k : option ascii -> string -> option R) r :
  all_chars p run = true ->
  k (last_of run before) tail = Some r ->
  (forall c tail', tail = String c tail' -> p c = false) ->
  star true p before (run +:+ tail) k = Some r.
Proof.
  revert before. induction run as [|c run IH]; intros before Hrun Hk Htail.
  - rewrite append_nil_l. cbn in Hk. destruct tail as [|c tail]; cbn; [exact Hk|].
    rewrite (Htail c tail eq_refl). exact Hk.
  - rewrite append_cons. cbn in *. apply andb_true_iff in Hrun as [Hc Hrun].
    rewrite Hc, (IH (Some c) Hrun Hk Htail). reflexivity.
Qed.

(** A lazy star stops at the first position where what follows matches. *)
Lemma star_lazy_run {R} p before (run tail : string)
    (k : option ascii -> string -> option R) :
  all_chars p run = true ->
  (forall a b, run = a +:+ b -> b <> EmptyString ->
     k (last_of a before) (b +:+ tail) = None) ->
  (forall c tail', tail = String c tail' -> p c = false) ->
  star false p before (run +:+ tail) k = k (last_of run before) tail.
Proof.
  revert before. induction run as [|c run IH]; intros before Hrun Hk Htail.
  - rewrite append_nil_l. cbn. destruct tail as [|c tail]; cbn; [reflexivity|].
    rewrite (Htail c tail eq_refl). reflexivity.
  - rewrite append_cons. cbn in *. apply andb_true_iff in Hrun as [Hc Hrun].
    rewrite Hc.
    assert (Hhere : k before (String c (run +:+ tail)) = None).
    { apply (Hk EmptyString (String c run) eq_refl). discriminate. }
    rewrite Hhere.
    apply IH; [exact Hrun| |exact Htail].
    intros a b Hab Hb. apply (Hk (String c a) b); [|exact Hb].
    rewrite append_cons. f_equal. exact Hab.
Qed.

(** A star fails when what follows fails at every position of the
    subject. *)
Lemma star_fails {R} greedy p before (s : string)
    (k : option ascii -> string -> option R) :
  (forall a b, s = a +:+ b -> k (last_of a before) b = None) ->
  star greedy p before s k = None.
Proof.
  revert before. induction s as [|c s IH]; intros before Hk.
  - cbn. apply (Hk EmptyString EmptyString eq_refl).
  - assert (Hhere : k before (String c s) = None)
      by apply (Hk EmptyString (String c s) eq_refl).
    assert (Hlater : star greedy p (Some c) s k = None).
    { apply IH. intros a b Hab. apply (Hk (String c a) b).
      rewrite append_cons. f_equal. exact Hab. }
    cbn. rewrite Hhere, Hlater. destruct (p c), greedy; reflexivity.
Qed.

Lemma last_of_append a b before :
  last_of (a +:+ b) before = last_of b (last_of a before).
Proof.
  revert before. induction a as [|c a IH]; intros before; [reflexivity|].
  rewrite append_cons. cbn. apply IH.
Qed.

Lemma replace_from_skip r tpl global before (a rest : string) live :
  replace_from r tpl global before (a +:+ rest) (String.length a) live
  = replace_from r tpl global (last_of a before) rest 0 live.
Proof.
  revert before. induction a as [|c a IH]; intros before; [reflexivity|].
  rewrite append_cons. cbn [String.length replace_from last_of]. apply IH.
Qed.

(** Where the expression matches a non-empty text, the text is replaced
    and the search goes on behind it. *)
Lemma replace_from_match r tpl global before c (a after : string) caps :
  exec r before (String c a +:+ after) = Some (caps, after) ->
  replace_from r tpl global before (String c a +:+ after) 0 true
  = expand tpl caps +:+
    replace_from r tpl global (last_of (String c a) before) after 0 global.
Proof.
  intros Hexec. rewrite append_cons in *. cbn [replace_from]. rewrite Hexec. f_equal.
  change (String.length (String c (a +:+ after))) with (S (String.length (a +:+ after))).
  rewrite length_append.
  replace (S (String.length a + String.length after) - String.length after)
    with (S (String.length a)) by lia.
  cbn [last_of]. apply replace_from_skip.
Qed.

(** Where the expression matches at no position of [pre], [pre] is kept
    and the search goes on behind it. *)
Lemma replace_from_keep r tpl global before (pre rest : string) :
  (forall a b, pre = a +:+ b -> b <> EmptyString ->
     exec r (last_of a before) (b +:+ rest) = None) ->
  replace_from r tpl global before (pre +:+ rest) 0 true
  = pre +:+ replace_from r tpl global (last_of pre before) rest 0 true.
Proof.
  revert before. induction pre as [|c pre IH]; intros before Hnone; [reflexivity|].
  assert (Hhere : exec r before (String c (pre +:+ rest)) = None).
  { apply (Hnone EmptyString (String c pre) eq_refl). discriminate. }
  rewrite !append_cons. cbn [replace_from last_of]. rewrite Hhere. f_equal.
  apply IH. intros a b Hab Hb. apply (Hnone (String c a) b); [|exact Hb].
  rewrite append_cons. f_equal. exact Hab.
Qed.

(** Where the expression matches nowhere, nothing is replaced. *)
Lemma replace_from_none r tpl global before (s : string) live :
  (forall a b, s = a +:+ b -> exec r (last_of a before) b = None) ->
  replace_from r tpl global before s 0 live = s.
Proof.
  destruct live; [|destruct s; reflexivity].
  revert before. induction s as [|c s IH]; intros before Hnone.
  - assert (Hhere : exec r before EmptyString = None)
      by apply (Hnone EmptyString EmptyString eq_refl).
    cbn. rewrite Hhere. reflexivity.
  - assert (Hhere : exec r before (String c s) = None)
      by apply (Hnone EmptyString (String c s) eq_refl).
    cbn [replace_from]. rewrite Hhere. f_equal.
    apply IH. intros a b Hab. apply (Hnone (String c a) b).
    rewrite append_cons. f_equal. exact Hab.
Qed.

Lemma free_of_suffix c (a b : string) :
  free_of c (a +:+ b) = true -> free_of c b = true.
Proof.
  unfold free_of. rewrite all_chars_append. intros H.
  apply andb_true_iff in H. apply H.
Qed.

Lemma free_of_head c d (s : string) :
  free_of c (String d s) = true -> Ascii.eqb c d = false.
Proof.
  unfold free_of. cbn. intros H. apply andb_true_iff in H as [H _].
  apply negb_true_iff. exact H.
Qed.

Ltac rx_eval :=
  cbn -[Ascii.eqb Js.is_space Js.is_digit Js.is_line_terminator String.append between].

(** A numbered point starts with a star. *)
Lemma numberedPoint_needs_star before (s : string) :
  (forall s', s <> String "*" s') -> exec numberedPoint before s = None.
Proof.
  intros Hs. unfold exec. rx_eval. destruct s as [|d s]; [reflexivity|].
  destruct (Ascii.eqb "*" d) eqn:Hd; [|reflexivity].
  apply Ascii.eqb_eq in Hd. subst d. destruct (Hs s eq_refl).
Qed.

Lemma numberedPoint_none before (s : string) :
  free_of "*" s = true ->
  replace numberedPoint [Ref 1; Text ". "; Ref 3; Text LF] true s = s
  /\ forall live,
     replace_from numberedPoint [Ref 1; Text ". "; Ref 3; Text LF] true before s 0 live = s.
Proof.
  intros Hfree.
  assert (H : forall before live,
    replace_from numberedPoint [Ref 1; Text ". "; Ref 3; Text LF] true before s 0 live = s).
  { intros before' live. apply replace_from_none. intros a b Hab.
    apply numberedPoint_needs_star. intros s' Hb. subst s b.
    apply free_of_suffix, free_of_head in Hfree. discriminate Hfree. }
  split; [apply H|intros live; apply H].
Qed.

Lemma line_end_not_dot (rest : string) :
  line_end rest = true -> forall c rest', rest = String c rest' -> dot c = false.
Proof.
  intros H c rest' ->. cbn in H. unfold dot. rewrite H. reflexivity.
Qed.

Lemma dot_not_newline d : dot d = true -> Ascii.eqb "010" d = false.
Proof.
  intros H. destruct (Ascii.eqb "010" d) eqn:E; [|reflexivity].
  apply Ascii.eqb_eq in E. subst d. discriminate H.
Qed.

Lemma head_of_append (b rest : string) :
  b <> EmptyString -> exists d b', b = String d b' /\ b +:+ rest = String d (b' +:+ rest).
Proof. destruct b as [|d b']; [congruence|]. intros _. eauto. Qed.

Lemma all_chars_head p d (s : string) : all_chars p (String d s) = true -> p d = true.
Proof. cbn. intros H. apply andb_true_iff in H. apply H. Qed.

Lemma all_chars_suffix p (a b : string) :
  all_chars p (a +:+ b) = true -> all_chars p b = true.
Proof. rewrite all_chars_append. intros H. apply andb_true_iff in H. apply H. Qed.

Lemma exec_titleLine before (lead gap title rest : string) c title' :
  at_bol (mkState before EmptyString ∅) = true ->
  all_chars Js.is_space lead = true ->
  all_chars Js.is_space gap = true ->
  title = String c title' -> Js.is_space c = false ->
  all_chars dot title = true ->
  line_end rest = true ->
  exists caps,
    exec titleLine before (lead +:+ "Title:" +:+ gap +:+ title +:+ rest) = Some (caps, rest)
    /\ caps !! 2 = Some title.
Proof.
  intros Hbol Hlead Hgap Htitle Hc Hdot Hrest.
  assert (Hfinal : exists final,
    matcher titleLine
      (mkState before (lead +:+ "Title:" +:+ gap +:+ title +:+ rest) ∅) Some
    = Some final /\ Regex.rest final = rest /\ captures final !! 2 = Some title).
  { eexists. split.
    - rx_eval. unfold at_bol in *. cbn [prev] in *. rewrite Hbol.
      eapply star_greedy_run; [exact Hlead| |intros d tail' Heq; injection Heq as <- _; reflexivity].
      rewrite !append_cons, append_nil_l. rx_eval. rewrite !Ascii.eqb_refl.
      eapply star_greedy_run; [exact Hgap| |].
      2: { intros d tail' Heq. rewrite Htitle, append_cons in Heq.
           injection Heq as <- _. exact Hc. }
      rewrite (star_lazy_run dot _ title rest);
        [|exact Hdot| |exact (line_end_not_dot rest Hrest)].
      + replace (at_eol _) with true by (symmetry; exact Hrest). reflexivity.
      + intros a b Hab Hb. destruct (head_of_append b rest Hb) as (d & b' & -> & ->).
        assert (Hd : dot d = true).
        { rewrite Hab in Hdot. apply all_chars_suffix, all_chars_head in Hdot. exact Hdot. }
        rx_eval. unfold at_eol. cbn [Regex.rest].
        rewrite (dot_not_newline d Hd). unfold dot in Hd.
        apply negb_true_iff in Hd. rewrite Hd. reflexivity.
    - split; [reflexivity|]. cbn [captures].
      rewrite lookup_insert_ne by lia. rewrite lookup_insert_eq. f_equal.
      apply between_append. }
  destruct Hfinal as (final & Hmatch & Hrest' & Hcap).
  exists (captures final). unfold exec. rewrite Hmatch, Hrest'. split; [reflexivity|exact Hcap].
Qed.

Lemma exec_numberedPoint before (digits item rest : string) d digits' :
  digits = String d digits' ->
  all_chars Js.is_digit digits = true ->
  all_chars dot item = true ->
  line_end rest = true ->
  exists caps,
    exec numberedPoint before ("**" +:+ digits +:+ ".**" +:+ item +:+ rest)
    = Some (caps, rest)
    /\ caps !! 1 = Some digits /\ caps !! 3 = Some item.
Proof.
  intros Hdigits Hdig Hdot Hrest.
  assert (Hfinal : exists final,
    matcher numberedPoint
      (mkState before ("**" +:+ digits +:+ ".**" +:+ item +:+ rest) ∅) Some
    = Some final /\ Regex.rest final = rest /\
    captures final !! 1 = Some digits /\ captures final !! 3 = Some item).
  { subst digits. apply andb_true_iff in Hdig as [Hd Hdig]. fold all_chars in Hdig.
    eexists. split.
    - rewrite !append_cons, append_nil_l. rx_eval. rewrite !Ascii.eqb_refl, Hd.
      eapply star_greedy_run; [exact Hdig| |intros c tail' Heq; injection Heq as <- _; reflexivity].
      rx_eval. rewrite !Ascii.eqb_refl.
      rewrite (star_lazy_run dot _ item rest);
        [|exact Hdot| |exact (line_end_not_dot rest Hrest)].
      + replace (at_eol _) with true by (symmetry; exact Hrest). reflexivity.
      + intros a b Hab Hb. destruct (head_of_append b rest Hb) as (c & b' & -> & ->).
        assert (Hc : dot c = true).
        { rewrite Hab in Hdot. apply all_chars_suffix, all_chars_head in Hdot. exact Hdot. }
        rx_eval. unfold at_eol. cbn [Regex.rest].
        rewrite (dot_not_newline c Hc). unfold dot in Hc.
        apply negb_true_iff in Hc. rewrite Hc. reflexivity.
    - split; [reflexivity|]. cbn [captures]. split.
      + rewrite !lookup_insert_ne by lia. rewrite lookup_insert_eq. f_equal.
        exact (between_append (String d digits') _).
      + rewrite !lookup_insert_ne by lia. rewrite lookup_insert_eq. f_equal.
        exact (between_append item rest). }
  destruct Hfinal as (final & Hmatch & Hrest' & Hcap1 & Hcap3).
  exists (captures final). unfold exec. rewrite Hmatch, Hrest'.
  split; [reflexivity|]. split; assumption.
Qed.

Lemma all_chars_impl (p q : ascii -> bool) (s : string) :
  (forall c, p c = true -> q c = true) -> all_chars p s = true -> all_chars q s = true.
Proof.
  intros Hpq. induction s as [|c s IH]; [reflexivity|]. cbn. intros H.
  apply andb_true_iff in H as [Hc Hs]. rewrite (Hpq c Hc), (IH Hs). reflexivity.
Qed.

Lemma space_not_hash c : Js.is_space c = true -> negb (Ascii.eqb "#" c) = true.
Proof.
  intros H. destruct (Ascii.eqb "#" c) eqn:E; [|reflexivity].
  apply Ascii.eqb_eq in E. subst c. discriminate H.
Qed.

Lemma digit_not_hash c : Js.is_digit c = true -> negb (Ascii.eqb "#" c) = true.
Proof.
  intros H. destruct (Ascii.eqb "#" c) eqn:E; [|reflexivity].
  apply Ascii.eqb_eq in E. subst c. discriminate H.
Qed.

Lemma terminator_is_space c : Js.is_line_terminator c = true -> Js.is_space c = true.
Proof.
  unfold Js.is_line_terminator, Js.is_space.
  destruct (N_of_ascii c) as [|p]; [discriminate|].
  do 4 (destruct p as [p|p|]; try discriminate); reflexivity.
Qed.

Lemma free_of_append c (a b : string) :
  free_of c (a +:+ b) = free_of c a && free_of c b.
Proof. apply all_chars_append. Qed.

Lemma startsWith_free c p (s : string) :
  free_of c s = true -> Js.startsWith s (String c p) = false.
Proof.
  destruct s as [|d s]; [reflexivity|]. intros H. cbn.
  rewrite (free_of_head _ _ _ H). reflexivity.
Qed.

Lemma includes_free c p (s : string) :
  free_of c s = true -> Js.includes s (String c p) = false.
Proof.
  induction s as [|d s IH]; [reflexivity|]. intros H.
  cbn [Js.includes]. rewrite (startsWith_free c p _ H). cbn [orb].
  apply IH. exact (free_of_suffix c (String d EmptyString) s H).
Qed.

Lemma includes_append_free c p (a b : string) :
  free_of c a = true ->
  Js.includes (a +:+ b) (String c p) = Js.includes b (String c p).
Proof.
  induction a as [|d a IH]; [reflexivity|]. intros H.
  rewrite append_cons. cbn [Js.includes Js.startsWith].
  rewrite (free_of_head _ _ _ H). cbn [andb orb].
  apply IH. exact (free_of_suffix c (String d EmptyString) a H).
Qed.

Lemma includes_append_r (a b p : string) :
  Js.includes b p = true -> Js.includes (a +:+ b) p = true.
Proof.
  intros H. induction a as [|d a IH]; [exact H|].
  rewrite append_cons. cbn [Js.includes]. rewrite IH. apply orb_true_r.
Qed.

Lemma includes_suffix (a b p : string) :
  Js.includes (a +:+ b) p = false -> Js.startsWith b p = false.
Proof.
  induction a as [|d a IH].
  - rewrite append_nil_l. destruct b; cbn [Js.includes]; intros H;
      apply orb_false_iff in H; apply H.
  - rewrite append_cons. cbn [Js.includes]. intros H.
    apply orb_false_iff in H as [_ H]. apply IH. exact H.
Qed.

(** A section header needs two hash signs in a row. *)
Lemma sectionHeader_needs_hashes before (s : string) :
  Js.includes s "##" = false -> exec sectionHeader before s = None.
Proof.
  intros Hfree. unfold exec. rx_eval.
  destruct (at_bol _); [|reflexivity].
  rewrite star_fails; [reflexivity|].
  intros a b Hab. subst s. apply includes_suffix in Hfree.
  destruct b as [|d b]; [reflexivity|].
  destruct (Ascii.eqb "#" d) eqn:Hd; [|reflexivity].
  destruct b as [|d' b]; [reflexivity|].
  destruct (Ascii.eqb "#" d') eqn:Hd'; [|reflexivity].
  cbn -[Ascii.eqb] in Hfree. rewrite Hd, Hd' in Hfree. discriminate Hfree.
Qed.

Lemma sectionHeader_keeps (s : string) :
  Js.includes s "##" = false ->
  replace sectionHeader [Ref 1; Text "## "; Ref 3; Text LF] true s = s.
Proof.
  intros Hfree. apply replace_from_none. intros a b Hab.
  apply sectionHeader_needs_hashes. subst s.
  clear -Hfree. induction a as [|d a IH]; [exact Hfree|].
  rewrite append_cons in Hfree. cbn [Js.includes] in Hfree.
  apply orb_false_iff in Hfree as [_ Hfree]. apply IH. exact Hfree.
Qed.

Lemma numberedPoint_keeps (s : string) :
  free_of "*" s = true ->
  replace numberedPoint [Ref 1; Text ". "; Ref 3; Text LF] true s = s.
Proof. intros H. apply (numberedPoint_none None s H). Qed.

Lemma titleLine_not_before before (keep more : string) :
  ordinary_lines (at_bol (mkState before EmptyString ∅)) keep = true ->
  forall a b, keep = a +:+ b -> b <> EmptyString ->
    exec titleLine (last_of a before) (b +:+ more) = None.
Proof.
  revert before. induction keep as [|c keep IH]; intros before Hkeep a b Hab Hb.
  - destruct a; [|discriminate Hab]. rewrite append_nil_l in Hab. congruence.
  - destruct a as [|x a].
    + rewrite append_nil_l in Hab. subst b. rewrite append_cons.
      unfold exec. rx_eval. cbn [ordinary_lines] in Hkeep.
      unfold at_bol in *. cbn [prev] in *.
      destruct (match before with Some c0 => Js.is_line_terminator c0 | None => true end);
        [|reflexivity].
      apply andb_true_iff in Hkeep as [Hkeep _].
      apply andb_true_iff in Hkeep as [Hspace HT].
      apply negb_true_iff in Hspace, HT. rewrite Hspace, HT. reflexivity.
    + rewrite append_cons in Hab. injection Hab as <- Hab. cbn [last_of].
      apply (IH (Some c)); [|exact Hab|exact Hb].
      cbn [ordinary_lines] in Hkeep. unfold at_bol in *. cbn [prev] in *.
      destruct (match before with Some c0 => Js.is_line_terminator c0 | None => true end).
      * apply andb_true_iff in Hkeep as [Hkeep Hrest].
        apply andb_true_iff in Hkeep as [Hspace _]. apply negb_true_iff in Hspace.
        destruct (Js.is_line_terminator c) eqn:Hterm; [|exact Hrest].
        rewrite (terminator_is_space c Hterm) in Hspace. discriminate Hspace.
      * exact Hkeep.
Qed.

Lemma replace_from_match_text r tpl global before (matched after : string) caps :
  matched <> EmptyString ->
  exec r before (matched +:+ after) = Some (caps, after) ->
  replace_from r tpl global before (matched +:+ after) 0 true
  = expand tpl caps +:+ replace_from r tpl global (last_of matched before) after 0 global.
Proof.
  destruct matched as [|c a]; [congruence|]. intros _. apply replace_from_match.
Qed.

Lemma replace_from_done r tpl global before (s : string) :
  replace_from r tpl global before s 0 false = s.
Proof. destruct s; reflexivity. Qed.

Lemma includes_heading (x : string) :
  free_of "#" x = true -> Js.includes ("# " +:+ x) "##" = false.
Proof.
  intros H. change ("# " +:+ x) with (String "#" (String " " x)).
  cbn. apply includes_free. exact H.
Qed.

Lemma dead_branch (x : bool) : true && negb x && x = false.
Proof. destruct x; reflexivity. Qed.

Lemma formattedContent_user content : formattedContent user content = content.
Proof. reflexivity. Qed.

Lemma last_pass_keeps (s : string) :
  free_of "*" s = true -> Js.includes s "##" = false ->
  replace sectionHeader [Ref 1; Text "## "; Ref 3; Text LF] true
    (replace numberedPoint [Ref 1; Text ". "; Ref 3; Text LF] true s) = s.
Proof.
  intros Hstar Hhash. rewrite (numberedPoint_keeps s Hstar). apply sectionHeader_keeps, Hhash.
Qed.

Lemma ordinary_lines_end before at_start (keep : string) :
  at_start = at_bol (mkState before EmptyString ∅) ->
  ordinary_lines at_start keep = true ->
  at_bol (mkState (last_of keep before) EmptyString ∅) = true.
Proof.
  revert before at_start. induction keep as [|x keep IH]; intros before at_start Hflag H.
  - cbn in *. congruence.
  - cbn [ordinary_lines last_of] in *. destruct at_start.
    + apply andb_true_iff in H as [H Hlater].
      apply andb_true_iff in H as [Hspace _]. apply negb_true_iff in Hspace.
      apply (IH (Some x) false); [|exact Hlater].
      unfold at_bol. cbn [prev].
      destruct (Js.is_line_terminator x) eqn:Hterm; [|reflexivity].
      rewrite (terminator_is_space x Hterm) in Hspace. discriminate Hspace.
    + apply (IH (Some x) (Js.is_line_terminator x)); [reflexivity|exact H].
Qed.

Lemma formattedContent_title (keep lead gap title rest : string) c title' :
  ordinary_lines true keep = true ->
  all_chars Js.is_space lead = true ->
  all_chars Js.is_space gap = true ->
  title = String c title' -> Js.is_space c = false ->
  all_chars dot title = true ->
  line_end rest = true ->
  free_of "*" (keep +:+ title +:+ rest) = true ->
  free_of "#" (keep +:+ title +:+ rest) = true ->
  formattedContent assistant (keep +:+ lead +:+ "Title:" +:+ gap +:+ title +:+ rest)
  = keep +:+ "# " +:+ title +:+ LF +:+ rest.
Proof.
  intros Hkeep Hlead Hgap Htitle Hc Hdot Hrest Hstar Hhash.
  rewrite !free_of_append in Hstar, Hhash.
  apply andb_true_iff in Hstar as [Hstar_keep Hstar].
  apply andb_true_iff in Hstar as [Hstar_title Hstar_rest].
  apply andb_true_iff in Hhash as [Hhash_keep Hhash].
  apply andb_true_iff in Hhash as [Hhash_title Hhash_rest].
  unfold formattedContent. cbn [is_assistant].
  set (content := keep +:+ lead +:+ "Title:" +:+ gap +:+ title +:+ rest).
  assert (Hstart : Js.startsWith content "#" = false).
  { subst content. destruct keep as [|k keep'].
    - destruct lead as [|l lead']; [reflexivity|].
      rewrite append_nil_l, append_cons. cbn -[Ascii.eqb].
      apply all_chars_head, space_not_hash, negb_true_iff in Hlead.
      rewrite Hlead. reflexivity.
    - rewrite append_cons. cbn -[Ascii.eqb].
      rewrite (free_of_head _ _ _ Hhash_keep). reflexivity. }
  assert (Htitled : Js.includes content "Title:" = true).
  { subst content. do 2 apply includes_append_r. reflexivity. }
  rewrite Hstart, Htitled, dead_branch. cbn [negb andb].
  assert (Hfirst : replace titleLine [Text "# "; Ref 2; Text LF] false content
                   = keep +:+ "# " +:+ title +:+ LF +:+ rest).
  { subst content. unfold replace.
    rewrite replace_from_keep by (apply titleLine_not_before; exact Hkeep).
    f_equal.
    destruct (exec_titleLine (last_of keep None) lead gap title rest c title')
      as (caps & Hexec & Hcap); try assumption.
    { exact (ordinary_lines_end None true keep eq_refl Hkeep). }
    rewrite <- !append_assoc in *.
    rewrite (replace_from_match_text titleLine _ false _
               (((lead +:+ "Title:") +:+ gap) +:+ title) rest caps);
      [| destruct lead; discriminate | exact Hexec].
    rewrite replace_from_done. cbn [expand]. rewrite Hcap. cbn [default from_option id].
    rewrite !append_assoc, append_nil_l. reflexivity. }
  rewrite Hfirst. apply last_pass_keeps.
  - rewrite !free_of_append, Hstar_keep, Hstar_title, Hstar_rest. reflexivity.
  - rewrite (includes_append_free "#" "#" keep _ Hhash_keep).
    apply includes_heading.
    rewrite !free_of_append, Hhash_title, Hhash_rest. reflexivity.
Qed.

Lemma formattedContent_numbered (pre digits item rest : string) d digits' :
  digits = String d digits' ->
  all_chars Js.is_digit digits = true ->
  all_chars dot item = true ->
  line_end rest = true ->
  free_of "*" (pre +:+ item +:+ rest) = true ->
  free_of "#" (pre +:+ item +:+ rest) = true ->
  Js.includes (pre +:+ "**" +:+ digits +:+ ".**" +:+ item +:+ rest) "Title:" = false ->
  formattedContent assistant (pre +:+ "**" +:+ digits +:+ ".**" +:+ item +:+ rest)
  = pre +:+ digits +:+ ". " +:+ item +:+ LF +:+ rest.
Proof.
  intros Hdigits Hdig Hdot Hrest Hstar Hhash Hplain.
  rewrite !free_of_append in Hstar, Hhash.
  apply andb_true_iff in Hstar as [Hstar_pre Hstar].
  apply andb_true_iff in Hstar as [Hstar_item Hstar_rest].
  apply andb_true_iff in Hhash as [Hhash_pre Hhash].
  apply andb_true_iff in Hhash as [Hhash_item Hhash_rest].
  unfold formattedContent. cbn [is_assistant].
  rewrite Hplain, andb_false_r, dead_branch.
  assert (Hpoint :
    replace numberedPoint [Ref 1; Text ". "; Ref 3; Text LF] true
      (pre +:+ "**" +:+ digits +:+ ".**" +:+ item +:+ rest)
    = pre +:+ digits +:+ ". " +:+ item +:+ LF +:+ rest).
  { unfold replace. rewrite replace_from_keep.
    2: { intros a b Hab Hb. apply numberedPoint_needs_star. intros s' Hs'.
         destruct b as [|x b]; [congruence|]. rewrite append_cons in Hs'.
         injection Hs' as -> _. subst pre.
         apply free_of_suffix, free_of_head in Hstar_pre. discriminate Hstar_pre. }
    f_equal.
    destruct (exec_numberedPoint (last_of pre None) digits item rest d digits')
      as (caps & Hexec & Hcap1 & Hcap3); try assumption.
    rewrite <- !append_assoc in *.
    rewrite (replace_from_match_text numberedPoint _ true _
               ((("**" +:+ digits) +:+ ".**") +:+ item) rest caps);
      [| discriminate | exact Hexec].
    rewrite (proj2 (numberedPoint_none _ rest Hstar_rest)).
    cbn [expand]. rewrite Hcap1, Hcap3. cbn [default from_option id].
    rewrite !append_assoc, append_nil_l. reflexivity. }
  rewrite Hpoint. apply sectionHeader_keeps, includes_free.
  assert (Hhash_digits : free_of "#" digits = true)
    by exact (all_chars_impl _ _ digits digit_not_hash Hdig).
  rewrite !free_of_append, Hhash_pre, Hhash_item, Hhash_rest, Hhash_digits. reflexivity.
Qed.

Lemma append_nil_r (a : string) : a +:+ EmptyString = a.
Proof. induction a as [|c a IH]; [reflexivity|]. rewrite append_cons, IH. reflexivity. Qed.

Lemma span_append p (s : string) :
  s = fst (Plain.span p s) +:+ snd (Plain.span p s).
Proof.
  induction s as [|c s IH]; [reflexivity|]. cbn [Plain.span].
  destruct (p c); cbn [fst snd]; [|reflexivity]. rewrite append_cons. f_equal. exact IH.
Qed.

Lemma span_run p (s : string) : all_chars p (fst (Plain.span p s)) = true.
Proof.
  induction s as [|c s IH]; [reflexivity|]. cbn [Plain.span].
  destruct (p c) eqn:Hc; cbn [fst all_chars]; [|reflexivity]. rewrite Hc. exact IH.
Qed.

Lemma span_stops p (s : string) c tail :
  snd (Plain.span p s) = String c tail -> p c = false.
Proof.
  induction s as [|d s IH]; [discriminate|]. cbn [Plain.span].
  destruct (p d) eqn:Hd; cbn [snd]; [exact IH|].
  intros H. injection H as <- _. exact Hd.
Qed.

(** A greedy star takes the longest run when what follows it cannot start
    with a code unit of the run. *)
Lemma star_greedy_max {R} p before (s : string)
    (k : option ascii -> string -> option R) :
  (forall b c t, p c = true -> k b (String c t) = None) ->
  star true p before s k
  = k (last_of (fst (Plain.span p s)) before) (snd (Plain.span p s)).
Proof.
  intros Hk. revert before. induction s as [|c s IH]; intros before; [reflexivity|].
  cbn [star Plain.span]. destruct (p c) eqn:Hc; cbn [fst snd last_of]; [|reflexivity].
  rewrite IH, (Hk before c s Hc). destruct (k _ _); reflexivity.
Qed.

(** A greedy star takes the longest run when what follows it matches
    there. *)
Lemma star_greedy_first {R} p before (s : string)
    (k : option ascii -> string -> option R) r :
  k (last_of (fst (Plain.span p s)) before) (snd (Plain.span p s)) = Some r ->
  star true p before s k = Some r.
Proof.
  intros Hk. rewrite (span_append p s) at 1.
  apply star_greedy_run; [apply span_run|exact Hk|].
  intros c tail. apply span_stops.
Qed.

Lemma matcher_lit (p : string) q (s : string) caps k :
  matcher (lit p) (mkState q s caps) k
  = match Plain.strip p s with
    | Some s' => k (mkState (last_of p q) s' caps)
    | None => None
    end.
Proof.
  revert q s. induction p as [|c p IH]; intros q s; [reflexivity|].
  cbn [lit matcher Plain.strip Regex.rest captures last_of].
  destruct s as [|d s]; [reflexivity|].
  destruct (Ascii.eqb c d) eqn:Hcd; [|reflexivity].
  apply Ascii.eqb_eq in Hcd. subst d. apply IH.
Qed.

(** The rest of the line: a lazy run of [.] stops where the line ends. *)
Lemma rest_of_line {R} before (s : string) (k : option ascii -> string -> option R) :
  (forall b c t, dot c = true -> k b (String c t) = None) ->
  star false dot before s k
  = k (last_of (fst (Plain.span Plain.in_line s)) before)
      (snd (Plain.span Plain.in_line s)).
Proof.
  intros Hk. revert before. induction s as [|c s IH]; intros before; [reflexivity|].
  cbn [star Plain.span]. change (Plain.in_line c) with (dot c).
  destruct (dot c) eqn:Hc; cbn [fst snd last_of]; [|reflexivity].
  rewrite (Hk before c s Hc). apply IH.
Qed.

Lemma line_end_span (s : string) : line_end (snd (Plain.span Plain.in_line s)) = true.
Proof.
  destruct (snd (Plain.span Plain.in_line s)) as [|c tail] eqn:Hs; [reflexivity|].
  apply span_stops in Hs. unfold Plain.in_line in Hs. apply negb_false_iff in Hs.
  exact Hs.
Qed.

Lemma space_not c d : Js.is_space c = true -> Js.is_space d = false -> Ascii.eqb d c = false.
Proof.
  intros Hc Hd. destruct (Ascii.eqb d c) eqn:H; [|reflexivity].
  apply Ascii.eqb_eq in H. subst d. congruence.
Qed.

Lemma ends_no_line (k : State -> option State) caps b c t :
  dot c = true ->
  matcher (Alt Eol (Chr "010")) (mkState b (String c t) caps) k = None.
Proof.
  intros Hc. cbn [matcher at_eol Regex.rest].
  rewrite (dot_not_newline c Hc). unfold dot in Hc. apply negb_true_iff in Hc.
  rewrite Hc. reflexivity.
Qed.

Lemma between_span p (s : string) :
  between s (snd (Plain.span p s)) = fst (Plain.span p s).
Proof. rewrite (span_append p s) at 1. apply between_append. Qed.

Lemma found_titleLine before (s : string) :
  found titleLine [Text "# "; Ref 2; Text LF] before s = Plain.title_at before s.
Proof.
  unfold found, exec, Plain.title_at, titleLine.
  cbn [matcher Regex.rest captures prev]. unfold at_bol. cbn [prev].
  change (match before with Some c => Js.is_line_terminator c | None => true end)
    with (Plain.line_start before).
  destruct (Plain.line_start before); [|reflexivity].
  rewrite star_greedy_max.
  2: { intros b c t Hc. rewrite matcher_lit. cbn [Plain.strip].
       rewrite (space_not c "T" Hc eq_refl). reflexivity. }
  rewrite matcher_lit.
  destruct (Plain.strip "Title:" (snd (Plain.span Js.is_space s))) as [s'|]; [|reflexivity].
  cbn [Regex.rest captures prev].
  erewrite star_greedy_first.
  2: { rewrite rest_of_line.
       2: { intros b c t Hc. unfold at_eol. cbn [Regex.rest].
            rewrite (dot_not_newline c Hc). unfold dot in Hc. apply negb_true_iff in Hc.
            rewrite Hc. reflexivity. }
       unfold at_eol. cbn [Regex.rest].
       pose proof (line_end_span (snd (Plain.span Js.is_space s'))) as Hend.
       unfold line_end in Hend. rewrite Hend. reflexivity. }
  cbn [captures Regex.rest expand].
  rewrite lookup_insert_ne by lia. rewrite lookup_insert_eq.
  cbn [default from_option id]. rewrite between_span. unfold LF.
  rewrite append_nil_r. reflexivity.
Qed.

Lemma between_cons_span p d (s : string) :
  between (String d s) (snd (Plain.span p s)) = String d (fst (Plain.span p s)).
Proof.
  rewrite (span_append p s) at 1.
  exact (between_append (String d (fst (Plain.span p s))) _).
Qed.

Lemma digit_not_stop c : Js.is_digit c = true -> Ascii.eqb "." c = false.
Proof.
  intros H. destruct (Ascii.eqb "." c) eqn:Hc; [|reflexivity].
  apply Ascii.eqb_eq in Hc. subst c. discriminate H.
Qed.

Ltac to_line_end :=
  rewrite rest_of_line;
  [ unfold at_eol; cbn [Regex.rest];
    match goal with |- context [Plain.span Plain.in_line ?s] =>
      let Hend := fresh "Hend" in
      pose proof (line_end_span s) as Hend; unfold line_end in Hend; rewrite Hend
    end
  | let b := fresh "b" in let c := fresh "c" in let t := fresh "t" in
    let Hc := fresh "Hc" in
    intros b c t Hc; unfold at_eol; cbn [Regex.rest];
    rewrite (dot_not_newline c Hc); unfold dot in Hc; apply negb_true_iff in Hc;
    rewrite Hc; reflexivity ].

Lemma found_numberedPoint before (s : string) :
  found numberedPoint [Ref 1; Text ". "; Ref 3; Text LF] before s = Plain.point_at before s.
Proof.
  unfold found, exec, Plain.point_at, numberedPoint, plus.
  cbn [matcher]. rewrite matcher_lit.
  destruct (Plain.strip "**" s) as [s1|]; [|reflexivity].
  cbn [matcher Regex.rest captures prev].
  destruct s1 as [|d s1]; [reflexivity|].
  cbn [Plain.span]. destruct (Js.is_digit d) eqn:Hd; [|reflexivity].
  cbn [fst snd Regex.rest captures prev].
  rewrite star_greedy_max.
  2: { intros b c t Hc. cbn [Regex.rest]. rewrite (digit_not_stop c Hc). reflexivity. }
  cbn [Regex.rest captures prev].
  destruct (snd (Plain.span Js.is_digit s1)) as [|c s2] eqn:Hs2; [reflexivity|].
  change (Plain.strip "." (String c s2)) with (if Ascii.eqb "." c then Some s2 else None).
  destruct (Ascii.eqb "." c); [|reflexivity].
  rewrite !matcher_lit. cbn [Regex.rest captures prev].
  assert (Hone : between (String d s1) (String c s2)
                 = String d (fst (Plain.span Js.is_digit s1))).
  { rewrite <- Hs2. apply between_cons_span. }
  destruct (Plain.strip "**" s2) as [s3|].
  - to_line_end.
    cbn [captures Regex.rest expand].
    rewrite !lookup_insert_ne by lia. rewrite lookup_insert_eq.
    rewrite lookup_insert_ne by lia. rewrite lookup_insert_eq.
    cbn [default from_option id]. rewrite Hone, between_span. unfold LF.
    rewrite append_nil_r. reflexivity.
  - destruct s2 as [|e s3]; [reflexivity|].
    cbn [Plain.span]. destruct (Js.is_space e) eqn:He; [|reflexivity].
    cbn [fst snd].
    erewrite star_greedy_first.
    2: { to_line_end. reflexivity. }
    cbn [captures Regex.rest expand].
    rewrite !lookup_insert_ne by lia. rewrite lookup_insert_eq.
    rewrite lookup_insert_ne by lia. rewrite lookup_insert_eq.
    cbn [default from_option id]. rewrite Hone, between_span. unfold LF.
    rewrite append_nil_r. reflexivity.
Qed.

Lemma found_sectionHeader before (s : string) :
  found sectionHeader [Ref 1; Text "## "; Ref 3; Text LF] before s
  = Plain.header_at before s.
Proof.
  unfold found, exec, Plain.header_at, sectionHeader, plus.
  cbn [matcher Regex.rest captures prev]. unfold at_bol. cbn [prev].
  change (match before with Some c => Js.is_line_terminator c | None => true end)
    with (Plain.line_start before).
  destruct (Plain.line_start before); [|reflexivity].
  rewrite star_greedy_max.
  2: { intros b c t Hc. rewrite matcher_lit. cbn [Plain.strip].
       rewrite (space_not c "#" Hc eq_refl). reflexivity. }
  rewrite matcher_lit.
  destruct (Plain.strip "##" (snd (Plain.span Js.is_space s))) as [s'|]; [|reflexivity].
  cbn [Regex.rest captures prev].
  destruct s' as [|e s'']; [reflexivity|].
  cbn [Plain.span]. destruct (Js.is_space e) eqn:He; [|reflexivity].
  cbn [fst snd].
  erewrite star_greedy_first.
  2: { to_line_end. reflexivity. }
  cbn [captures Regex.rest expand].
  rewrite !lookup_insert_ne by lia. rewrite lookup_insert_eq.
  rewrite !lookup_insert_ne by lia. rewrite lookup_insert_eq.
  cbn [default from_option id]. rewrite !between_span. unfold LF.
  rewrite append_nil_r. reflexivity.
Qed.

Lemma replace_from_rewrite r tpl find :
  (forall before s, found r tpl before s = find before s) ->
  forall global (s : string) before skip live,
    replace_from r tpl global before s skip live
    = Plain.rewrite find global before s skip live.
Proof.
  intros Hfind global s.
  induction s as [|c s IH]; intros before skip live.
  - destruct skip; [|reflexivity]. cbn [replace_from Plain.rewrite].
    destruct live; [|reflexivity].
    rewrite <- Hfind. unfold found. destruct (exec r before EmptyString) as [[caps after]|];
      reflexivity.
  - destruct skip as [|skip]; cbn [replace_from Plain.rewrite]; [|apply IH].
    destruct live; [|reflexivity].
    rewrite <- Hfind. unfold found.
    destruct (exec r before (String c s)) as [[caps after]|].
    + destruct (String.length (String c s) - String.length after); rewrite IH; reflexivity.
    + rewrite IH. reflexivity.
Qed.

Lemma rewrite_none find every before (s : string) live :
  (forall a b, s = a +:+ b -> find (last_of a before) b = None) ->
  Plain.rewrite find every before s 0 live = s.
Proof.
  destruct live; [|destruct s; reflexivity].
  revert before. induction s as [|c s IH]; intros before Hnone.
  - assert (Hhere : find before EmptyString = None)
      by apply (Hnone EmptyString EmptyString eq_refl).
    cbn. rewrite Hhere. reflexivity.
  - assert (Hhere : find before (String c s) = None)
      by apply (Hnone EmptyString (String c s) eq_refl).
    cbn [Plain.rewrite]. rewrite Hhere. f_equal.
    apply IH. intros a b Hab. apply (Hnone (String c a) b).
    rewrite append_cons. f_equal. exact Hab.
Qed.

Lemma strip_startsWith (p s : string) :
  Js.startsWith s p = false -> Plain.strip p s = None.
Proof.
  revert s. induction p as [|c p IH]; intros s; [discriminate|].
  cbn [Js.startsWith Plain.strip]. destruct s as [|d s]; [reflexivity|].
  destruct (Ascii.eqb c d); [apply IH|reflexivity].
Qed.

Lemma includes_span q p (s : string) :
  Js.includes s p = false -> Js.startsWith (snd (Plain.span q s)) p = false.
Proof.
  intros H. rewrite (span_append q s) in H. exact (includes_suffix _ _ _ H).
Qed.

Lemma includes_tail (a b p : string) :
  Js.includes (a +:+ b) p = false -> Js.includes b p = false.
Proof.
  induction a as [|d a IH]; [rewrite append_nil_l; auto|].
  rewrite append_cons. cbn [Js.includes]. intros H.
  apply orb_false_iff in H as [_ H]. apply IH, H.
Qed.

(** Without the text [Title:] there is no title line. *)
Lemma rewrite_title_none (content : string) :
  Js.includes content "Title:" = false ->
  Plain.rewrite_first Plain.title_at content = content.
Proof.
  intros H. apply rewrite_none. intros a b Hab. subst content.
  apply includes_tail in H. unfold Plain.title_at.
  destruct (Plain.line_start _); [|reflexivity].
  rewrite strip_startsWith; [reflexivity|]. apply includes_span, H.
Qed.

Lemma formattedContent_plainly (content : string) :
  formattedContent assistant content = Plain.normalize content.
Proof.
  unfold formattedContent, Plain.normalize, Plain.rewrite_every, Plain.rewrite_first, replace.
  cbn [is_assistant]. rewrite dead_branch. cbn [andb].
  rewrite !(replace_from_rewrite _ _ _ found_numberedPoint),
    !(replace_from_rewrite _ _ _ found_sectionHeader),
    !(replace_from_rewrite _ _ _ found_titleLine).
  destruct (Js.startsWith content "#"); cbn [negb andb]; [reflexivity|].
  destruct (Js.includes content "Title:") eqn:Htitle; [reflexivity|].
  fold (Plain.rewrite_first Plain.title_at content).
  rewrite (rewrite_title_none content Htitle). reflexivity.
Qed.

(** C9.  The component changes the text of assistant messages only: the
    content of a user message is displayed as it is.  For every content,
    an assistant message is displayed as its plain normalization: unless
    the content starts with a hash sign, the first title line (at the
    start of a line, behind optional white space, [Title:]) is replaced
    by the heading made of a hash sign, a blank and the title; then every
    numbered point (two stars, a number, a full stop, and two stars or
    white space) is replaced by the number, a full stop, a blank and the
    item; then every section header is normalized.  Each rewritten line
    ends with an added line feed.  In particular, in a text otherwise free
    of stars and hash signs, a title line after ordinary lines becomes
    [# title], and a point written as two stars, the number, a full stop
    and two stars becomes the number and a full stop. *)
Theorem formattedContent_normalizes :
  (forall content, formattedContent user content = content) /\
  (forall content, formattedContent assistant content = Plain.normalize content) /\
  (forall (keep lead gap title rest : string) c title',
     ordinary_lines true keep = true ->
     all_chars Js.is_space lead = true ->
     all_chars Js.is_space gap = true ->
     title = String c title' -> Js.is_space c = false ->
     all_chars dot title = true ->
     line_end rest = true ->
     free_of "*" (keep +:+ title +:+ rest) = true ->
     free_of "#" (keep +:+ title +:+ rest) = true ->
     formattedContent assistant (keep +:+ lead +:+ "Title:" +:+ gap +:+ title +:+ rest)
     = keep +:+ "# " +:+ title +:+ LF +:+ rest) /\
  (forall (pre digits item rest : string) d digits',
     digits = String d digits' ->
     all_chars Js.is_digit digits = true ->
     all_chars dot item = true ->
     line_end rest = true ->
     free_of "*" (pre +:+ item +:+ rest) = true ->
     free_of "#" (pre +:+ item +:+ rest) = true ->
     Js.includes (pre +:+ "**" +:+ digits +:+ ".**" +:+ item +:+ rest) "Title:" = false ->
     formattedContent assistant (pre +:+ "**" +:+ digits +:+ ".**" +:+ item +:+ rest)
     = pre +:+ digits +:+ ". " +:+ item +:+ LF +:+ rest).
Proof.
  split; [exact formattedContent_user|].
  split; [exact formattedContent_plainly|].
  split; [exact formattedContent_title|exact formattedContent_numbered].
Qed.

Lemma formattedContent_normalizes_witness :
  formattedContent user "Title: Plan" = "Title: Plan" /\
  formattedContent assistant ("Intro" +:+ LF +:+ "Title: Plan" +:+ LF +:+ "Body")
  = "Intro" +:+ LF +:+ "# Plan" +:+ LF +:+ LF +:+ "Body" /\
  formattedContent assistant ("Steps:" +:+ LF +:+ "**12.** Go" +:+ LF +:+ "Done")
  = "Steps:" +:+ LF +:+ "12. " +:+ " Go" +:+ LF +:+ LF +:+ "Done" /\
  formattedContent assistant
    ("Title: Plan" +:+ LF +:+ "**1.** First *step*" +:+ LF +:+ "**2.** Second")
  = "# Plan" +:+ LF +:+ LF +:+ "1.  First *step*" +:+ LF +:+ LF +:+ "2.  Second" +:+ LF.
Proof.
  destruct formattedContent_normalizes as (Huser & Hplain & Htitle & Hpoint).
  split; [exact (Huser "Title: Plan")|]. split; [|split].
  - exact (Htitle ("Intro" +:+ LF) EmptyString " " "Plan" (LF +:+ "Body") "P"%char "lan"
             eq_refl eq_refl eq_refl eq_refl eq_refl eq_refl eq_refl eq_refl eq_refl).
  - exact (Hpoint ("Steps:" +:+ LF) "12" " Go" (LF +:+ "Done") "1"%char "2"
             eq_refl eq_refl eq_refl eq_refl eq_refl eq_refl eq_refl).
  - rewrite Hplain. reflexivity.
Defined.

Example formattedContent_examples :
  formattedContent assistant ("**1.** First" +:+ LF +:+ "**2.** Second")
  = "1.  First" +:+ LF +:+ LF +:+ "2.  Second" +:+ LF /\
  formattedContent assistant "The Title: unchanged" = "The Title: unchanged" /\
  formattedContent assistant "# Title: kept" = "# Title: kept" /\
  formattedContent assistant ("Title:" +:+ LF +:+ "Body" +:+ LF +:+ "more")
  = "# Body" +:+ LF +:+ LF +:+ "more" /\
  formattedContent assistant ("##   Section" +:+ LF +:+ "text")
  = "## Section" +:+ LF +:+ LF +:+ "text".
Proof. vm_compute. repeat split; reflexivity. Qed.

(** ** More of the context *)

Lemma run_getAllSessions_returns host E w :
  exists l,
    run E (Api.getAllSessions host) w
    = (Returned l,
       mkWorld (agent w) (page w) (localStorage w) (alerts w)
         (requests w ++ [listRequest host])
         (ticks (snd (run E (Api.getAllSessions host) w)))).
Proof.
  rewrite run_getAllSessions. destruct (settle _ _); eexists; reflexivity.
Qed.

Lemma run_loadSession host E id w :
  run E (Agent.loadSession host id) w =
  match settle "Failed to get session: "
          (respond E PSession (requests w) (sessionRequest host id)) with
  | Returned (Some session) =>
      let refreshed := run E (Api.getAllSessions host) (session_opened host id session w) in
      (Returned tt,
       with_agent
         (listed match fst refreshed with Returned l => l | Thrown _ => [] end)
         (snd refreshed))
  | Returned None =>
      (Thrown (Js.TypeError "Cannot read properties of null (reading 'messages')"),
       load_nulled host id w)
  | Thrown error => (Thrown error, load_failed host id w)
  end.
Proof.
  unfold Agent.loadSession.
  rewrite run_bind. cbn [run Agent.setIsLoading skip].
  rewrite run_try_finally, run_try_catch, run_bind. cbn [run Agent.setMessages skip].
  rewrite run_bind, run_getSession. cbn [requests with_agent].
  destruct (settle _ _) as [[session|]|error]; [| reflexivity | reflexivity].
  rewrite run_bind. cbn [run Agent.setSessionId skip].
  rewrite run_bind. cbn [run]. rewrite run_bind. cbn [run Agent.setMessages skip].
  rewrite run_bind. cbn [run Agent.setIsInitialized skip].
  rewrite run_bind. cbn [run localStorage_setItem skip].
  rewrite run_bind.
  match goal with |- context [run E (Api.getAllSessions host) ?w1] =>
    change w1 with (session_opened host id session w) end.
  cbn zeta.
  destruct (run_getAllSessions_returns host E (session_opened host id session w))
    as [l ->].
  reflexivity.
Qed.

Lemma settle_answers {B} failure (r : FetchResult B) v :
  answers r v -> settle failure r = Returned v.
Proof. intros (resp & -> & Hok & Hjson). cbn. rewrite Hok, Hjson. reflexivity. Qed.

(** X5.  A load that succeeds makes the requested id the active one (the
    id of the request, whatever id the answer carries), shows the
    messages of the answer (none when the answer has no message list),
    persists the id, and asks for the summaries once; the settings of the
    context are not touched. *)
Theorem loadSession_success host E w id session :
  answers (respond E PSession (requests w) (sessionRequest host id)) (Some session) ->
  let result := run E (Agent.loadSession host id) w in
  fst result = Returned tt /\
  sessionId (agent (snd result)) = Some id /\
  agentMessages (agent (snd result)) = default [] (messages session) /\
  isInitialized (agent (snd result)) = true /\
  isLoading (agent (snd result)) = false /\
  currentSettings (agent (snd result)) = currentSettings (agent w) /\
  localStorage (snd result) = <["lastSessionId" := id]> (localStorage w) /\
  sent_since w (snd result) = [sessionRequest host id; listRequest host].
Proof.
  intros Hanswer result. subst result.
  rewrite run_loadSession, (settle_answers _ _ _ Hanswer). cbn zeta.
  destruct (run_getAllSessions_returns host E (session_opened host id session w))
    as [l ->].
  cbn [fst snd]. repeat split.
  apply sent_since_app. cbn. rewrite <- app_assoc. reflexivity.
Qed.

Lemma loadSession_success_witness :
  let final := snd (run Scenario.healthy (Agent.loadSession Scenario.host "B") Scenario.busy) in
  sessionId (agent final) = Some "B" /\
  agentMessages (agent final) = [mkMessage user "b1"].
Proof.
  assert (H : answers
                (respond Scenario.healthy PSession (requests Scenario.busy)
                   (sessionRequest Scenario.host "B"))
                (Some (mkSession "B" (Some [mkMessage user "b1"]) None None None))).
  { eexists. repeat split. }
  pose proof (loadSession_success Scenario.host Scenario.healthy Scenario.busy "B" _ H)
    as (_ & Hid & Hmessages & _).
  split; [exact Hid | exact Hmessages].
Defined.

(** X6.  A load whose request fails raises the client's error to the
    caller, after one request.  The active id, the persisted id and the
    summaries stay as they were, but the message list has been emptied:
    the previous session is left active with no messages.  The loading
    flag is cleared. *)
Theorem loadSession_failure host E w id :
  failed (respond E PSession (requests w) (sessionRequest host id)) ->
  let result := run E (Agent.loadSession host id) w in
  (exists error, fst result = Thrown error) /\
  sessionId (agent (snd result)) = sessionId (agent w) /\
  agentMessages (agent (snd result)) = [] /\
  isInitialized (agent (snd result)) = isInitialized (agent w) /\
  isLoading (agent (snd result)) = false /\
  sessions (agent (snd result)) = sessions (agent w) /\
  localStorage (snd result) = localStorage w /\
  sent_since w (snd result) = [sessionRequest host id].
Proof.
  intros Hfailed result. subst result. rewrite run_loadSession.
  destruct (settle_failed "Failed to get session: " _ Hfailed) as [error ->].
  cbn [fst snd]. split; [eexists; reflexivity|]. repeat split.
  apply sent_since_app. reflexivity.
Qed.

Lemma loadSession_failure_witness :
  let final := snd (run Scenario.offline (Agent.loadSession Scenario.host "B") Scenario.busy) in
  sessionId (agent final) = Some "A" /\ agentMessages (agent final) = [].
Proof.
  pose proof (loadSession_failure Scenario.host Scenario.offline Scenario.busy "B" I)
    as (_ & Hid & Hmessages & _).
  split; [exact Hid | exact Hmessages].
Defined.

(** X7.  [createNewSession] never raises and sends two requests, the
    creation and then the summaries.  The message list ends empty in
    every case.  When the creation succeeds the new id is active and
    persisted; when it fails the user is alerted and the previous id stays
    active and persisted, now with an empty message list. *)
Theorem createNewSession_outcome host E w :
  let settings := organization (currentSettings (agent w)) in
  let result := run E (Agent.createNewSession host (agent w)) w in
  fst result = Returned tt /\
  sent_since w (snd result) = [createRequest host settings; listRequest host] /\
  agentMessages (agent (snd result)) = [] /\
  isLoading (agent (snd result)) = false /\
  match settle "Failed to create session: "
          (respond E PSessionResponse (requests w) (createRequest host settings)) with
  | Returned created =>
      sessionId (agent (snd result)) = Some (sr_session_id created) /\
      localStorage (snd result) = <["lastSessionId" := sr_session_id created]> (localStorage w) /\
      alerts (snd result) = alerts w
  | Thrown _ =>
      sessionId (agent (snd result)) = sessionId (agent w) /\
      localStorage (snd result) = localStorage w /\
      alerts (snd result)
      = alerts w ++ ["Failed to initialize chat session. Please try refreshing the page."]
  end.
Proof.
  intros settings result. subst settings result. unfold Agent.createNewSession.
  rewrite run_bind. cbn [run Agent.setMessages skip].
  rewrite run_bind, run_initializeSession.
  cbn [requests with_agent agent currentSettings].
  rewrite run_try_catch, run_bind.
  destruct (settle "Failed to create session: " _) as [created|error].
  - destruct (run_getAllSessions_returns host E
                (session_started host (organization (currentSettings (agent w))) created
                   (with_agent (fun s => mkAgent (isInitialized s) (isLoading s) (sessionId s)
                                            [] (sessions s) (personalityPresets s)
                                            (currentSettings s)) w)))
      as [l ->].
    cbn [fst snd run Agent.setSessions skip with_agent agent]. repeat split.
    apply sent_since_app. cbn. rewrite <- app_assoc. reflexivity.
  - destruct (run_getAllSessions_returns host E
                (session_refused host (organization (currentSettings (agent w)))
                   (with_agent (fun s => mkAgent (isInitialized s) (isLoading s) (sessionId s)
                                            [] (sessions s) (personalityPresets s)
                                            (currentSettings s)) w)))
      as [l ->].
    cbn [fst snd run Agent.setSessions skip with_agent agent]. repeat split.
    apply sent_since_app. cbn. rewrite <- app_assoc. reflexivity.
Qed.

(** X1.  With a session active and the chat request answered with the reply
    [reply], a send ends with the user's message and the reply appended,
    in this order; one request was sent, the session is the same and the
    loading flag is cleared. *)
Theorem sendUserMessage_success host E w message reply :
  Js.truthy_opt (sessionId (agent w)) = true ->
  chat_reply (respond E PMessageResponse (requests w) (chatRequest (agent w) message))
  = inr reply ->
  let result := run E (Agent.sendUserMessage host (agent w) message) w in
  fst result = Returned tt /\
  agentMessages (agent (snd result))
  = agentMessages (agent w) ++ [mkMessage user message; mkMessage assistant reply] /\
  sent_since w (snd result) = [chatRequest (agent w) message] /\
  sessionId (agent (snd result)) = sessionId (agent w) /\
  isLoading (agent (snd result)) = false /\
  localStorage (snd result) = localStorage w.
Proof.
  intros Hid Hreply result. subst result.
  rewrite (run_sendUserMessage_active host E w message Hid), Hreply. cbn [fst snd].
  split; [reflexivity|]. split; [cbn; rewrite <- app_assoc; reflexivity|].
  split; [apply sent_since_app; reflexivity|]. repeat split; reflexivity.
Qed.

Lemma sendUserMessage_success_witness :
  Js.truthy_opt (sessionId (agent Scenario.busy)) = true /\
  agentMessages
    (agent (snd (run Scenario.healthy
                   (Agent.sendUserMessage Scenario.host (agent Scenario.busy) "Hi")
                   Scenario.busy)))
  = [mkMessage user "a1"; mkMessage user "Hi"; mkMessage assistant "Hello!"].
Proof.
  split; [reflexivity|].
  exact (proj1 (proj2 (sendUserMessage_success Scenario.host Scenario.healthy Scenario.busy
                         "Hi" "Hello!" eq_refl eq_refl))).
Defined.

(** X2.  An error of the chat request that is not taken for a lost session
    (its text contains neither [404] nor [not found]) ends the send with
    the user's message and one notice that carries the error message; no
    session is created and the active session is kept. *)
Theorem sendUserMessage_other_error host E w message error :
  Js.truthy_opt (sessionId (agent w)) = true ->
  chat_reply (respond E PMessageResponse (requests w) (chatRequest (agent w) message))
  = inl error ->
  is404 error = false ->
  let result := run E (Agent.sendUserMessage host (agent w) message) w in
  fst result = Returned tt /\
  agentMessages (agent (snd result))
  = agentMessages (agent w)
    ++ [mkMessage user message;
        mkMessage assistant
          ("Sorry, there was an error processing your message: " +:+ Js.message error)] /\
  sent_since w (snd result) = [chatRequest (agent w) message] /\
  sessionId (agent (snd result)) = sessionId (agent w) /\
  isLoading (agent (snd result)) = false.
Proof.
  intros Hid Hreply Hkind result. subst result.
  rewrite (run_sendUserMessage_active host E w message Hid), Hreply, Hkind. cbn [fst snd].
  split; [reflexivity|]. split; [cbn; rewrite <- app_assoc; reflexivity|].
  split; [apply sent_since_app; reflexivity|]. repeat split; reflexivity.
Qed.

Lemma sendUserMessage_other_error_witness :
  Js.truthy_opt (sessionId (agent Scenario.busy)) = true /\
  agentMessages
    (agent (snd (run Scenario.broken
                   (Agent.sendUserMessage Scenario.host (agent Scenario.busy) "Hi")
                   Scenario.busy)))
  = [mkMessage user "a1"; mkMessage user "Hi";
     mkMessage assistant
       "Sorry, there was an error processing your message: API error: 500 Internal Server Error"].
Proof.
  split; [reflexivity|].
  exact (proj1 (proj2 (sendUserMessage_other_error Scenario.host Scenario.broken Scenario.busy
                         "Hi" _ eq_refl eq_refl eq_refl))).
Defined.

(** X3.  The lost-session test reads the text of the error, not a status: a
    chat answer with a successful status whose body is no JSON and
    contains [404] is taken for a lost session.  The send then creates a
    new session: the chat request is followed by a session creation. *)
Theorem sendUserMessage_404_in_body host E w message
    (resp : Response (payload PMessageResponse)) reason :
  Js.truthy_opt (sessionId (agent w)) = true ->
  respond E PMessageResponse (requests w) (chatRequest (agent w) message) = Received resp ->
  ok resp = true ->
  json resp = Malformed reason ->
  Js.includes (text resp) "404" = true ->
  let result := run E (Agent.sendUserMessage host (agent w) message) w in
  sent_since w (snd result)
  = [chatRequest (agent w) message;
     createRequest host (organization (currentSettings (agent w)))] /\
  last (agentMessages (agent (snd result))) = Some Agent.newSessionMessage.
Proof.
  intros Hid Hresp Hok Hjson Htext result. subst result.
  rewrite (run_sendUserMessage_active host E w message Hid), Hresp.
  cbn [chat_reply payload] in *. rewrite Hok, Hjson.
  assert (H404 : is404 (Js.newError ("Failed to parse API response: " +:+ text resp)) = true).
  { unfold is404. apply orb_true_iff. left.
    apply includes_append_r with (a := "Error: Failed to parse API response: ") in Htext.
    exact Htext. }
  rewrite H404. cbn [snd]. rewrite run_initializeSession.
  split.
  - apply sent_since_app. cbn [snd].
    destruct (settle _ _); cbn; rewrite <- app_assoc; reflexivity.
  - cbn [snd]. destruct (settle _ _); cbn; [reflexivity|].
    rewrite !last_snoc. reflexivity.
Qed.

Lemma sendUserMessage_404_in_body_witness :
  Js.includes "<h1>404</h1>" "404" = true /\
  sent_since Scenario.busy
    (snd (run Cases.garbled
            (Agent.sendUserMessage Scenario.host (agent Scenario.busy) "Hi")
            Scenario.busy))
  = [chatRequest (agent Scenario.busy) "Hi";
     createRequest Scenario.host Agent.defaultOrganizationSettings].
Proof.
  split; [reflexivity|].
  exact (proj1 (sendUserMessage_404_in_body Scenario.host Cases.garbled Scenario.busy "Hi"
                  _ _ eq_refl eq_refl eq_refl eq_refl eq_refl)).
Defined.

(** X4.  A send through the context never raises, whatever the network
    answers, and always ends with the loading flag cleared. *)
Theorem sendUserMessage_settles host E w message :
  let result := run E (Agent.sendUserMessage host (agent w) message) w in
  fst result = Returned tt /\ isLoading (agent (snd result)) = false.
Proof.
  intros result. subst result.
  destruct (Js.truthy_opt (sessionId (agent w))) eqn:Hid.
  - rewrite (run_sendUserMessage_active host E w message Hid).
    split; [reflexivity|]. cbn [snd].
    destruct (chat_reply _) as [error|reply]; [destruct (is404 error)|]; reflexivity.
  - rewrite (run_sendUserMessage_inactive host E w message Hid).
    split; [reflexivity|]. cbn [snd]. rewrite run_initializeSession.
    cbn [snd]. destruct (settle _ _); reflexivity.
Qed.

Lemma run_loadInitialData host E w :
  run E (Agent.loadInitialData host) w =
  match settle "Failed to get personality presets: "
          (respond E PPresets (requests w) (presetsRequest host)) with
  | Thrown _ => (Returned tt, with_request (presetsRequest host) w)
  | Returned presets =>
      let fetched :=
        run E (Api.getAllSessions host)
          (with_agent (fun s => mkAgent (isInitialized s) (isLoading s) (sessionId s)
                                  (agentMessages s) (sessions s) presets
                                  (currentSettings s))
             (with_request (presetsRequest host) w)) in
      let ready :=
        with_agent (fun s => mkAgent (isInitialized s) (isLoading s) (sessionId s)
                               (agentMessages s)
                               (match fst fetched with Returned l => l | Thrown _ => [] end)
                               (personalityPresets s) (currentSettings s))
          (snd fetched) in
      match localStorage w !! "lastSessionId" with
      | Some id =>
          if Js.truthy id
          then
            match run E (Agent.loadSession host id) ready with
            | (Returned _, w') => (Returned tt, w')
            | (Thrown _, w') => (Returned tt, with_storage (delete "lastSessionId") w')
            end
          else (Returned tt, ready)
      | None => (Returned tt, ready)
      end
  end.
Proof.
  unfold Agent.loadInitialData. rewrite run_try_catch, run_bind, run_getPersonalityPresets.
  fold (presetsRequest host).
  destruct (settle _ _) as [presets|error]; [|reflexivity].
  rewrite run_bind. cbn [run Agent.setPersonalityPresets skip]. rewrite run_bind.
  cbn zeta.
  match goal with |- context [run E (Api.getAllSessions host) ?w1] =>
    destruct (run_getAllSessions_returns host E w1) as [l Hl] end.
  rewrite Hl. cbn [fst snd].
  rewrite run_bind. cbn [run Agent.setSessions skip]. rewrite run_bind.
  unfold localStorage_getItem. cbn [run with_agent localStorage with_request].
  destruct (localStorage w !! "lastSessionId") as [id|]; [|reflexivity].
  destruct (Js.truthy id); [|reflexivity].
  rewrite run_try_catch.
  destruct (run E (Agent.loadSession host id) _) as [[[]|error] w']; reflexivity.
Qed.

(** X8.  When the personality presets cannot be fetched on mount, nothing else
    is loaded: no summaries are requested (so the mock list is not shown
    either), the stored session is not restored, and the state of the
    context and local storage stay as they were.  Nothing is raised. *)
Theorem loadInitialData_without_presets host E w :
  failed (respond E PPresets (requests w) (presetsRequest host)) ->
  let result := run E (Agent.loadInitialData host) w in
  fst result = Returned tt /\
  agent (snd result) = agent w /\
  localStorage (snd result) = localStorage w /\
  sent_since w (snd result) = [presetsRequest host].
Proof.
  intros Hfailed result. subst result. rewrite run_loadInitialData.
  destruct (settle_failed "Failed to get personality presets: " _ Hfailed) as [error ->].
  repeat split. apply sent_since_app. reflexivity.
Qed.

Lemma loadInitialData_without_presets_witness :
  let final := snd (run Scenario.offline (Agent.loadInitialData Scenario.host) Scenario.busy) in
  agent final = agent Scenario.busy /\
  sent_since Scenario.busy final = [presetsRequest Scenario.host].
Proof.
  pose proof (loadInitialData_without_presets Scenario.host Scenario.offline Scenario.busy I)
    as (_ & Hagent & _ & Hsent).
  split; [exact Hagent | exact Hsent].
Defined.

(** X9.  On mount, a stored session id whose session cannot be loaded is
    removed from local storage, and nothing is raised.  Three requests
    were sent: presets, summaries, the session.  The presets are in
    place, the active id is as before and the message list is empty. *)
Theorem loadInitialData_drops_stale_id host E w presets id :
  answers (respond E PPresets (requests w) (presetsRequest host)) presets ->
  localStorage w !! "lastSessionId" = Some id ->
  Js.truthy id = true ->
  failed (respond E PSession (requests w ++ [presetsRequest host; listRequest host])
            (sessionRequest host id)) ->
  let result := run E (Agent.loadInitialData host) w in
  fst result = Returned tt /\
  localStorage (snd result) = delete "lastSessionId" (localStorage w) /\
  sessionId (agent (snd result)) = sessionId (agent w) /\
  agentMessages (agent (snd result)) = [] /\
  personalityPresets (agent (snd result)) = presets /\
  isLoading (agent (snd result)) = false /\
  sent_since w (snd result)
  = [presetsRequest host; listRequest host; sessionRequest host id].
Proof.
  intros Hpresets Hstored Hid Hfailed result. subst result.
  rewrite run_loadInitialData, (settle_answers _ _ _ Hpresets), Hstored, Hid. cbn zeta.
  match goal with |- context [run E (Api.getAllSessions host) ?w1] =>
    destruct (run_getAllSessions_returns host E w1) as [l Hl] end.
  rewrite Hl. cbn [fst snd]. rewrite run_loadSession.
  cbn [requests with_agent with_request] in *. rewrite <- app_assoc. cbn [app].
  destruct (settle_failed "Failed to get session: " _ Hfailed) as [error ->].
  cbn [fst snd]. repeat split.
  apply sent_since_app. cbn. rewrite <- !app_assoc. reflexivity.
Qed.

(** X10.  On mount, with the presets answered and a stored session id whose
    session the server returns, that session is restored: its id is the
    active one, its messages are shown, the id stays persisted.  The
    summaries are requested twice, before and after the session. *)
Theorem loadInitialData_restores_session host E w presets id session :
  answers (respond E PPresets (requests w) (presetsRequest host)) presets ->
  localStorage w !! "lastSessionId" = Some id ->
  Js.truthy id = true ->
  answers (respond E PSession (requests w ++ [presetsRequest host; listRequest host])
             (sessionRequest host id)) (Some session) ->
  let result := run E (Agent.loadInitialData host) w in
  fst result = Returned tt /\
  sessionId (agent (snd result)) = Some id /\
  agentMessages (agent (snd result)) = default [] (messages session) /\
  isInitialized (agent (snd result)) = true /\
  personalityPresets (agent (snd result)) = presets /\
  localStorage (snd result) !! "lastSessionId" = Some id /\
  sent_since w (snd result)
  = [presetsRequest host; listRequest host; sessionRequest host id; listRequest host].
Proof.
  intros Hpresets Hstored Hid Hsession result. subst result.
  rewrite run_loadInitialData, (settle_answers _ _ _ Hpresets), Hstored, Hid. cbn zeta.
  match goal with |- context [run E (Api.getAllSessions host) ?w1] =>
    destruct (run_getAllSessions_returns host E w1) as [l Hl] end.
  rewrite Hl. cbn [fst snd]. rewrite run_loadSession.
  cbn [requests with_agent with_request] in *. rewrite <- app_assoc. cbn [app].
  rewrite (settle_answers _ _ _ Hsession). cbn zeta.
  match goal with |- context [run E (Api.getAllSessions host) ?w1] =>
    destruct (run_getAllSessions_returns host E w1) as [l' Hl'] end.
  rewrite Hl'. cbn [fst snd]. repeat split.
  - cbn. apply lookup_insert_eq.
  - apply sent_since_app. cbn. rewrite <- !app_assoc. reflexivity.
Qed.

Lemma loadInitialData_drops_stale_id_witness :
  localStorage Scenario.busy !! "lastSessionId" = Some "A" /\
  localStorage (snd (run Cases.forgotten (Agent.loadInitialData Scenario.host) Scenario.busy))
  = delete "lastSessionId" (localStorage Scenario.busy).
Proof.
  split; [reflexivity|].
  assert (Hpresets : answers
            (respond Cases.forgotten PPresets (requests Scenario.busy)
               (presetsRequest Scenario.host)) ∅).
  { eexists. repeat split. }
  assert (Hfailed : failed
            (respond Cases.forgotten PSession
               (requests Scenario.busy
                ++ [presetsRequest Scenario.host; listRequest Scenario.host])
               (sessionRequest Scenario.host "A"))).
  { left. reflexivity. }
  exact (proj1 (proj2 (loadInitialData_drops_stale_id Scenario.host Cases.forgotten
                         Scenario.busy ∅ "A" Hpresets eq_refl eq_refl Hfailed))).
Defined.

Lemma loadInitialData_restores_session_witness :
  localStorage Scenario.busy !! "lastSessionId" = Some "A" /\
  let final := snd (run Scenario.healthy (Agent.loadInitialData Scenario.host) Scenario.busy) in
  sessionId (agent final) = Some "A" /\
  agentMessages (agent final) = [mkMessage user "b1"].
Proof.
  split; [reflexivity|].
  assert (Hpresets : answers
            (respond Scenario.healthy PPresets (requests Scenario.busy)
               (presetsRequest Scenario.host)) ∅).
  { eexists. repeat split. }
  assert (Hsession : answers
            (respond Scenario.healthy PSession
               (requests Scenario.busy
                ++ [presetsRequest Scenario.host; listRequest Scenario.host])
               (sessionRequest Scenario.host "A"))
            (Some (mkSession "B" (Some [mkMessage user "b1"]) None None None))).
  { eexists. repeat split. }
  pose proof (loadInitialData_restores_session Scenario.host Scenario.healthy
                Scenario.busy ∅ "A" _ Hpresets eq_refl eq_refl Hsession)
    as (_ & Hid & Hmessages & _).
  split; [exact Hid | exact Hmessages].
Defined.

Lemma initializeSession_keeps_persisted host E settings w :
  persisted w -> persisted (snd (run E (Agent.initializeSession host settings) w)).
Proof.
  intros H. rewrite run_initializeSession. cbn [snd].
  destruct (settle _ _); [apply lookup_insert_eq | exact H].
Qed.

Lemma settle_null failure (r : FetchResult (payload PSession)) :
  settle failure r = Returned None <-> null_body PSession r = true.
Proof.
  destruct r as [reason|resp]; cbn; [split; discriminate|].
  destruct (ok _); cbn; [|split; discriminate].
  destruct (json _) as [reason|[session|]]; split; try discriminate; reflexivity.
Qed.

Lemma loadSession_keeps_persisted host E id w :
  null_body PSession (respond E PSession (requests w) (sessionRequest host id)) = false ->
  persisted w -> persisted (snd (run E (Agent.loadSession host id) w)).
Proof.
  intros Hshaped H. rewrite run_loadSession.
  destruct (settle _ _) as [[session|]|error] eqn:Hsettle; [| |exact H].
  - cbn zeta.
    destruct (run_getAllSessions_returns host E (session_opened host id session w)) as [l ->].
    apply lookup_insert_eq.
  - apply settle_null in Hsettle. congruence.
Qed.

Lemma createNewSession_keeps_persisted host E w :
  persisted w -> persisted (snd (run E (Agent.createNewSession host (agent w)) w)).
Proof.
  intros H. unfold Agent.createNewSession.
  rewrite run_bind. cbn [run Agent.setMessages skip].
  rewrite run_bind.
  pose proof (initializeSession_keeps_persisted host E
                (organization (currentSettings (agent w)))
                (with_agent (fun s => mkAgent (isInitialized s) (isLoading s) (sessionId s)
                                         [] (sessions s) (personalityPresets s)
                                         (currentSettings s)) w) H) as Hinit.
  destruct (run E (Agent.initializeSession host _) _) as [[[]|error] w1] eqn:Hrun.
  - rewrite run_try_catch, run_bind.
    destruct (run_getAllSessions_returns host E w1) as [l ->]. exact Hinit.
  - rewrite run_initializeSession in Hrun. discriminate Hrun.
Qed.

Lemma deleteSessionById_keeps_persisted host E id w :
  persisted w -> persisted (snd (run E (Agent.deleteSessionById host (agent w) id) w)).
Proof.
  intros H. unfold Agent.deleteSessionById.
  rewrite run_try_catch, run_bind.
  destruct (run_deleteSession host E id w) as [result ->].
  rewrite run_bind. cbn [run Agent.setSessions skip].
  case_bool_decide as Hactive.
  - cbn. unfold persisted. cbn. apply lookup_delete_eq.
  - exact H.
Qed.

Lemma sendUserMessage_keeps_persisted host E message w :
  persisted w -> persisted (snd (run E (Agent.sendUserMessage host (agent w) message) w)).
Proof.
  intros H.
  destruct (Js.truthy_opt (sessionId (agent w))) eqn:Hid.
  - rewrite (run_sendUserMessage_active host E w message Hid). cbn [snd].
    destruct (chat_reply _) as [error|reply]; [destruct (is404 error)|]; try exact H.
    refine (initializeSession_keeps_persisted host E _
              (with_agent (add_message Agent.expiredMessage)
                 (with_request (chatRequest (agent w) message)
                    (with_agent (add_message (mkMessage user message))
                       (with_agent (set_loading true) w)))) H).
  - rewrite (run_sendUserMessage_inactive host E w message Hid). cbn [snd].
    exact (initializeSession_keeps_persisted host E _ w H).
Qed.

(** X11.  The asynchronous operations of the context keep the persisted id in
    step with the active one: if local storage holds the active session id
    (or none when none is active) before [initializeSession],
    [loadSession], [createNewSession], [deleteSession] or [sendMessage],
    called from the current render, then it does so after, for every
    answer that is a failure, a body that is no JSON or a body of the
    shape the call site reads.  The one exception is a load answered with
    a successful status and the body [null]: it makes the requested id
    the active one and leaves local storage as it was. *)
Theorem context_keeps_persisted_id host E w settings id message :
  persisted w ->
  let answer := respond E PSession (requests w) (sessionRequest host id) in
  persisted (snd (run E (Agent.initializeSession host settings) w)) /\
  (null_body PSession answer = false ->
   persisted (snd (run E (Agent.loadSession host id) w))) /\
  (null_body PSession answer = true ->
   sessionId (agent (snd (run E (Agent.loadSession host id) w))) = Some id /\
   localStorage (snd (run E (Agent.loadSession host id) w)) = localStorage w) /\
  persisted (snd (run E (Agent.createNewSession host (agent w)) w)) /\
  persisted (snd (run E (Agent.deleteSessionById host (agent w) id) w)) /\
  persisted (snd (run E (Agent.sendUserMessage host (agent w) message) w)).
Proof.
  intros H answer. subst answer.
  split; [apply initializeSession_keeps_persisted, H|].
  split; [intros Hshaped; apply loadSession_keeps_persisted; assumption|].
  split.
  { intros Hnull. rewrite run_loadSession.
    apply (settle_null "Failed to get session: ") in Hnull. rewrite Hnull.
    split; reflexivity. }
  split; [apply createNewSession_keeps_persisted, H|].
  split; [apply deleteSessionById_keeps_persisted, H|].
  apply sendUserMessage_keeps_persisted, H.
Qed.

Lemma context_keeps_persisted_id_witness :
  persisted Scenario.busy /\
  persisted (snd (run Scenario.healthy (Agent.loadSession Scenario.host "B") Scenario.busy)) /\
  sessionId (agent (snd (run Cases.nulled (Agent.loadSession Scenario.host "B")
                           Scenario.busy))) = Some "B" /\
  localStorage (snd (run Cases.nulled (Agent.loadSession Scenario.host "B") Scenario.busy))
  = localStorage Scenario.busy.
Proof.
  split; [reflexivity|]. split.
  - exact (proj1 (proj2 (context_keeps_persisted_id Scenario.host Scenario.healthy
                           Scenario.busy Agent.defaultOrganizationSettings "B" "Hi"
                           eq_refl)) eq_refl).
  - exact (proj1 (proj2 (proj2 (context_keeps_persisted_id Scenario.host Cases.nulled
                                  Scenario.busy Agent.defaultOrganizationSettings "B" "Hi"
                                  eq_refl))) eq_refl).
Defined.

(** ** The persisted id under interleaving *)







(** ** More of the chat page *)

Ltac submit_cases :=
  repeat (cbn [run bind negb fst snd fetch localStorage_setItem skip Page.setMessages
                   Page.setIsLoading];
          unfold response_json;
    match goal with
    | |- context [run _ (bind _ _) _] => rewrite run_bind
    | |- context [respond ?E ?p ?sent ?req] => destruct (respond E p sent req)
    | |- context [ok ?resp] => destruct (ok resp)
    | |- context [json ?resp] => destruct (json resp)
    | |- context [Js.truthy_opt (response ?d)] => destruct (Js.truthy_opt (response d))
    end).

Lemma run_handleSubmit_idle host E w agentLoading :
  submits (page w) agentLoading = false ->
  run E (Page.handleSubmit host (page w) agentLoading) w = (Returned tt, w).
Proof.
  unfold submits, Page.handleSubmit. intros H. apply negb_false_iff in H.
  rewrite H. reflexivity.
Qed.

(** X15.  What a submit on the chat page leaves behind, whatever the network
    answers.  It never raises.  If the guard stops it (blank input, or the
    page or the context loading) nothing is changed and nothing is sent.
    Otherwise the input is cleared, the loading flag ends cleared, and
    the page's message list has grown by exactly the user's text followed
    by one assistant message (the reply or an error text); at most two
    requests were sent.  In both cases the state of the context is not
    touched: a session the page creates is not made the active session of
    the context. *)
Theorem handleSubmit_settles host E w agentLoading :
  let result := run E (Page.handleSubmit host (page w) agentLoading) w in
  fst result = Returned tt /\
  agent (snd result) = agent w /\
  if submits (page w) agentLoading
  then
    input (page (snd result)) = EmptyString /\
    pageLoading (page (snd result)) = false /\
    (exists answer,
       pageMessages (page (snd result))
       = pageMessages (page w)
         ++ [mkMessage user (input (page w)); mkMessage assistant answer]) /\
    1 <= length (sent_since w (snd result)) <= 2
  else snd result = w.
Proof.
  intros result. subst result.
  destruct (submits (page w) agentLoading) eqn:Hgo.
  2: { rewrite (run_handleSubmit_idle host E w agentLoading Hgo). auto. }
  unfold submits in Hgo. apply negb_true_iff in Hgo.
  unfold Page.handleSubmit. rewrite Hgo.
  rewrite run_bind. cbn [run Page.setInput skip].
  rewrite run_bind. cbn [run Page.setMessages skip].
  rewrite run_bind. cbn [run Page.setIsLoading skip].
  rewrite run_try_finally, run_try_catch.
  unfold localStorage_getItem. cbn [bind].
  rewrite run_getItem_pure. cbn [localStorage with_page].
  rewrite run_bind.
  destruct (negb (Js.truthy (Js.or_else (localStorage w !! "lastSessionId") EmptyString))).
  - rewrite run_bind.
    match goal with |- context [run E (Page.orgSettings host) ?w1] =>
      destruct (run_orgSettings host E w1) as [org ->] end.
    unfold sent_since. cbn [run fetch localStorage_setItem skip].
    submit_cases; cbn; rewrite ?length_drop, ?length_app, <- ?app_assoc; cbn;
      (split; [reflexivity|]); (split; [reflexivity|]);
      (split; [reflexivity|]); (split; [reflexivity|]);
      (split; [eexists; reflexivity|lia]).
  - unfold sent_since. cbn [run fetch].
    submit_cases; cbn; rewrite ?length_drop, ?length_app, <- ?app_assoc; cbn;
      (split; [reflexivity|]); (split; [reflexivity|]);
      (split; [reflexivity|]); (split; [reflexivity|]);
      (split; [eexists; reflexivity|lia]).
Qed.




Lemma handleSubmit_reuses_session_witness :
  let final := snd (run Scenario.healthy
                      (Page.handleSubmit Scenario.host (page Scenario.busy) false)
                      Scenario.busy) in
  sent_since Scenario.busy final = [pageChatRequest Scenario.host "A" "Hi"].
Proof.
  exact (proj1 (handleSubmit_reuses_session Scenario.host Scenario.healthy
                  Scenario.busy false "A" eq_refl eq_refl eq_refl)).
Defined.

(** X17.  With no personality, background texts or tools in local storage, the
    page builds the organization [Agentica AI] with the [Balanced]
    personality, no custom prompt (a stored one is ignored), no background
    items and the default tools, web search off; reading the settings
    changes nothing. *)
Theorem orgSettings_defaults host E w :
  localStorage w !! "aiPersonality" = None ->
  localStorage w !! "backgroundTexts" = None ->
  localStorage w !! "enabledTools" = None ->
  run E (Page.orgSettings host) w
  = (Returned (mkOrganization "Agentica AI" (mkPersonality "Balanced" None)
                 (mkBackground []) (mkTools true true true false)), w).
Proof.
  intros Hp Hb Ht.
  unfold Page.orgSettings, Page.getPersonality, Page.getCustomPrompt,
    Page.getBackgroundTexts, Page.getEnabledTools, localStorage_getItem.
  cbn [bind run]. rewrite Hp. cbn. rewrite Hb. cbn. rewrite Ht. reflexivity.
Qed.

Lemma orgSettings_defaults_witness :
  fst (run Scenario.healthy (Page.orgSettings Scenario.host) Scenario.fresh)
  = Returned (mkOrganization "Agentica AI" (mkPersonality "Balanced" None)
                (mkBackground []) (mkTools true true true false)).
Proof.
  rewrite (orgSettings_defaults Scenario.host Scenario.healthy Scenario.fresh
             eq_refl eq_refl eq_refl).
  reflexivity.
Defined.

Lemma stored_organization_without_id host (storage : gmap string string) :
  stored_organization host (delete "lastSessionId" storage)
  = stored_organization host storage.
Proof.
  unfold stored_organization. rewrite !lookup_delete_ne by discriminate. reflexivity.
Qed.

(** X18.  The mount effect of the chat page never raises and sends two
    requests: the probe of the server, then the session creation through
    the context, with the organization read from local storage.  If the
    creation succeeds, the new id is active and persisted and that
    organization is the context's settings.  If it fails, the active id
    is as before; the stored id has been removed when the probe had a
    JSON answer (whatever its status) and is as before otherwise. *)
Theorem initializeAgent_outcome host E w :
  let result := run E (Page.initializeAgent host) w in
  let probe := respond E PAny (requests w) (probeRequest host) in
  let org := stored_organization host (localStorage w) in
  fst result = Returned tt /\
  sent_since w (snd result) = [probeRequest host; createRequest host org] /\
  match settle "Failed to create session: "
          (respond E PSessionResponse (requests w ++ [probeRequest host])
             (createRequest host org)) with
  | Returned created =>
      sessionId (agent (snd result)) = Some (sr_session_id created) /\
      localStorage (snd result) !! "lastSessionId" = Some (sr_session_id created) /\
      currentSettings (agent (snd result)) = mkSettings org
  | Thrown _ =>
      sessionId (agent (snd result)) = sessionId (agent w) /\
      localStorage (snd result) !! "lastSessionId"
      = (if probe_passed probe then None else localStorage w !! "lastSessionId")
  end.
Proof.
  intros result probe org. subst result probe org. unfold Page.initializeAgent.
  rewrite run_bind, run_try_catch, run_bind. cbn [run fetch].
  fold (probeRequest host).
  destruct (respond E PAny (requests w) (probeRequest host)) as [reason|resp];
    cbn [run skip probe_passed payload] in *.
  2: rewrite run_bind; unfold response_json; destruct (json resp) as [reason|data] eqn:Hjson;
       cbn [run localStorage_removeItem skip].
  all: rewrite run_bind, run_orgSettings_stored;
    cbn [localStorage with_request with_storage];
    rewrite ?stored_organization_without_id;
    rewrite run_initializeSession; cbn [requests with_request with_storage];
    (split; [reflexivity|]);
    destruct (settle _ _) as [created|error]; cbn [snd];
    (split; [apply sent_since_app; cbn; rewrite <- app_assoc; reflexivity|]);
    cbn; repeat split; try apply lookup_insert_eq; try apply lookup_delete_eq;
    match goal with H : json _ = _ |- _ => rewrite H end;
    try reflexivity; apply lookup_delete_eq.
Qed.

(** ** The footprint of the API client *)

(** X19.  Each operation of the API client sends exactly one request, with the
    method and the path of its endpoint under the base URL and with its
    arguments as the body, and touches nothing of the browser: not the
    context, not the page, not local storage, and it alerts nothing.
    This holds whatever the network answers. *)
Theorem client_only_sends host E w settings id message request :
  let base := Api.API_BASE_URL host in
  only_sends (mkRequest (base +:+ "/sessions") POST (SessionRequest settings)) w
    (snd (run E (Api.createSession host settings) w)) /\
  only_sends (mkRequest (base +:+ "/chat") POST (MessageRequest (Some id) message)) w
    (snd (run E (Api.sendMessage host id message) w)) /\
  only_sends (mkRequest (base +:+ "/sessions/" +:+ id) GET NoBody) w
    (snd (run E (Api.getSession host id) w)) /\
  only_sends (mkRequest (base +:+ "/personalities") GET NoBody) w
    (snd (run E (Api.getPersonalityPresets host) w)) /\
  only_sends (mkRequest (base +:+ "/sessions") GET NoBody) w
    (snd (run E (Api.getAllSessions host) w)) /\
  only_sends (mkRequest (base +:+ "/sessions/" +:+ id) DELETE NoBody) w
    (snd (run E (Api.deleteSession host id) w)) /\
  only_sends (mkRequest (base +:+ "/scrape-website") POST (ScrapeRequest request)) w
    (snd (run E (Api.scrapeWebsite host request) w)).
Proof.
  intros base. subst base.
  rewrite run_createSession, run_sendMessage, run_getSession, run_getPersonalityPresets,
    run_scrapeWebsite.
  destruct (run_getAllSessions_returns host E w) as [l ->].
  destruct (run_deleteSession host E id w) as [result ->].
  repeat split.
Qed.

(** ** More of the renderer *)

(** X20.  An assistant message without stars, without two hash signs in a row,
    and either without [Title:] or starting with a hash sign is displayed
    as it is: none of the four rewritings applies. *)
Theorem formattedContent_plain role (content : string) :
  free_of "*" content = true ->
  Js.includes content "##" = false ->
  Js.includes content "Title:" = false \/ Js.startsWith content "#" = true ->
  formattedContent role content = content.
Proof.
  intros Hstar Hhash Htitle. destruct role; [reflexivity|].
  unfold formattedContent. cbn [is_assistant].
  rewrite dead_branch.
  replace (true && negb (Js.startsWith content "#") && Js.includes content "Title:")
    with false.
  - apply last_pass_keeps; assumption.
  - destruct Htitle as [-> | ->]; [symmetry; apply andb_false_r|reflexivity].
Qed.

Lemma formattedContent_plain_witness :
  formattedContent assistant "# Title: kept, with a #tag" = "# Title: kept, with a #tag".
Proof.
  apply formattedContent_plain; [reflexivity|reflexivity|right; reflexivity].
Defined.

Lemma space_not_star c : Js.is_space c = true -> negb (Ascii.eqb "*" c) = true.
Proof.
  intros H. destruct (Ascii.eqb "*" c) eqn:Hc; [|reflexivity].
  apply Ascii.eqb_eq in Hc. subst c. discriminate H.
Qed.

Lemma sectionHeader_not_before before (keep more : string) :
  ordinary_lines (at_bol (mkState before EmptyString ∅)) keep = true ->
  free_of "#" keep = true ->
  forall a b, keep = a +:+ b -> b <> EmptyString ->
    exec sectionHeader (last_of a before) (b +:+ more) = None.
Proof.
  revert before. induction keep as [|c keep IH]; intros before Hkeep Hfree a b Hab Hb.
  - destruct a; [|discriminate Hab]. rewrite append_nil_l in Hab. congruence.
  - destruct a as [|x a].
    + rewrite append_nil_l in Hab. subst b. rewrite append_cons.
      unfold exec. rx_eval. cbn [ordinary_lines] in Hkeep.
      unfold at_bol in *. cbn [prev] in *.
      destruct (match before with Some c0 => Js.is_line_terminator c0 | None => true end);
        [|reflexivity].
      apply andb_true_iff in Hkeep as [Hkeep _].
      apply andb_true_iff in Hkeep as [Hspace _].
      apply negb_true_iff in Hspace. rewrite Hspace.
      rewrite (free_of_head _ _ _ Hfree). reflexivity.
    + rewrite append_cons in Hab. injection Hab as <- Hab. cbn [last_of].
      apply (IH (Some c)); [| |exact Hab|exact Hb].
      * cbn [ordinary_lines] in Hkeep. unfold at_bol in *. cbn [prev] in *.
        destruct (match before with Some c0 => Js.is_line_terminator c0 | None => true end).
        -- apply andb_true_iff in Hkeep as [Hkeep Hrest].
           apply andb_true_iff in Hkeep as [Hspace _]. apply negb_true_iff in Hspace.
           destruct (Js.is_line_terminator c) eqn:Hterm; [|exact Hrest].
           rewrite (terminator_is_space c Hterm) in Hspace. discriminate Hspace.
        -- exact Hkeep.
      * exact (free_of_suffix "#" (String c EmptyString) keep Hfree).
Qed.

Lemma exec_sectionHeader before (lead gap text rest : string) g gap' c text' :
  at_bol (mkState before EmptyString ∅) = true ->
  all_chars Js.is_space lead = true ->
  gap = String g gap' ->
  all_chars Js.is_space gap = true ->
  text = String c text' -> Js.is_space c = false ->
  all_chars dot text = true ->
  line_end rest = true ->
  exists caps,
    exec sectionHeader before (lead +:+ "##" +:+ gap +:+ text +:+ rest) = Some (caps, rest)
    /\ caps !! 1 = Some lead /\ caps !! 3 = Some text.
Proof.
  intros Hbol Hlead Hgap Hspaces Htext Hc Hdot Hrest.
  assert (Hfinal : exists final,
    matcher sectionHeader
      (mkState before (lead +:+ "##" +:+ gap +:+ text +:+ rest) ∅) Some
    = Some final /\ Regex.rest final = rest /\
    captures final !! 1 = Some lead /\ captures final !! 3 = Some text).
  { subst gap. apply andb_true_iff in Hspaces as [Hg Hspaces]. fold all_chars in Hspaces.
    eexists. split.
    - rx_eval. unfold at_bol in *. cbn [prev] in *. rewrite Hbol.
      eapply star_greedy_run; [exact Hlead| |intros d tail' Heq; injection Heq as <- _; reflexivity].
      rewrite !append_cons, append_nil_l. rx_eval. rewrite !Ascii.eqb_refl, Hg.
      eapply star_greedy_run; [exact Hspaces| |].
      2: { intros d tail' Heq. rewrite Htext, append_cons in Heq.
           injection Heq as <- _. exact Hc. }
      rewrite (star_lazy_run dot _ text rest);
        [|exact Hdot| |exact (line_end_not_dot rest Hrest)].
      + replace (at_eol _) with true by (symmetry; exact Hrest). reflexivity.
      + intros a b Hab Hb. destruct (head_of_append b rest Hb) as (d & b' & -> & ->).
        assert (Hd : dot d = true).
        { rewrite Hab in Hdot. apply all_chars_suffix, all_chars_head in Hdot. exact Hdot. }
        rx_eval. unfold at_eol. cbn [Regex.rest].
        rewrite (dot_not_newline d Hd). unfold dot in Hd.
        apply negb_true_iff in Hd. rewrite Hd. reflexivity.
    - split; [reflexivity|]. cbn [captures]. split.
      + rewrite !lookup_insert_ne by lia. rewrite lookup_insert_eq. f_equal.
        apply between_append.
      + rewrite !lookup_insert_ne by lia. rewrite lookup_insert_eq. f_equal.
        apply between_append. }
  destruct Hfinal as (final & Hmatch & Hrest' & Hcap1 & Hcap3).
  exists (captures final). unfold exec. rewrite Hmatch, Hrest'.
  split; [reflexivity|]. split; assumption.
Qed.

(** X21.  In an assistant message a section header, two hash signs behind
    optional white space at the start of a line and followed by white
    space and a text, is normalized: the white space before the hash
    signs is kept, exactly one blank separates the hash signs from the
    text, and a line feed is added behind the text.  (The header comes
    after ordinary lines; the text is otherwise free of stars and hash
    signs and has no [Title:].) *)
Theorem formattedContent_section_header (keep lead gap text rest : string) g gap' c text' :
  ordinary_lines true keep = true ->
  all_chars Js.is_space lead = true ->
  gap = String g gap' ->
  all_chars Js.is_space gap = true ->
  text = String c text' -> Js.is_space c = false ->
  all_chars dot text = true ->
  line_end rest = true ->
  free_of "*" (keep +:+ text +:+ rest) = true ->
  free_of "#" (keep +:+ text +:+ rest) = true ->
  Js.includes (keep +:+ lead +:+ "##" +:+ gap +:+ text +:+ rest) "Title:" = false ->
  formattedContent assistant (keep +:+ lead +:+ "##" +:+ gap +:+ text +:+ rest)
  = keep +:+ lead +:+ "## " +:+ text +:+ LF +:+ rest.
Proof.
  intros Hkeep Hlead Hgap Hspaces Htext Hc Hdot Hrest Hstar Hhash Hplain.
  rewrite !free_of_append in Hstar, Hhash.
  apply andb_true_iff in Hstar as [Hstar_keep Hstar].
  apply andb_true_iff in Hstar as [Hstar_text Hstar_rest].
  apply andb_true_iff in Hhash as [Hhash_keep Hhash].
  apply andb_true_iff in Hhash as [Hhash_text Hhash_rest].
  unfold formattedContent. cbn [is_assistant].
  rewrite Hplain, andb_false_r, dead_branch.
  rewrite numberedPoint_keeps.
  2: { assert (Hstar_lead : free_of "*" lead = true)
         by exact (all_chars_impl _ _ lead space_not_star Hlead).
       assert (Hstar_gap : free_of "*" gap = true)
         by exact (all_chars_impl _ _ gap space_not_star Hspaces).
       rewrite !free_of_append, Hstar_keep, Hstar_text, Hstar_rest, Hstar_lead, Hstar_gap.
       reflexivity. }
  unfold replace. rewrite replace_from_keep
    by (apply sectionHeader_not_before; assumption).
  f_equal.
  destruct (exec_sectionHeader (last_of keep None) lead gap text rest g gap' c text')
    as (caps & Hexec & Hcap1 & Hcap3); try assumption.
  { exact (ordinary_lines_end None true keep eq_refl Hkeep). }
  rewrite <- !append_assoc in *.
  rewrite (replace_from_match_text sectionHeader _ true _
             (((lead +:+ "##") +:+ gap) +:+ text) rest caps);
    [| destruct lead; discriminate | exact Hexec].
  rewrite replace_from_none.
  2: { intros a b Hab. apply sectionHeader_needs_hashes, includes_free.
       subst rest. exact (free_of_suffix "#" a b Hhash_rest). }
  cbn [expand]. rewrite Hcap1, Hcap3. cbn [default from_option id].
  rewrite !append_assoc, append_nil_l. reflexivity.
Qed.

Lemma formattedContent_section_header_witness :
  formattedContent assistant ("Intro" +:+ LF +:+ " ##   Plan" +:+ LF +:+ "Body")
  = "Intro" +:+ LF +:+ " " +:+ "## " +:+ "Plan" +:+ LF +:+ LF +:+ "Body".
Proof.
  exact (formattedContent_section_header ("Intro" +:+ LF) " " "   " "Plan" (LF +:+ "Body")
           " "%char "  " "P"%char "lan"
           eq_refl eq_refl eq_refl eq_refl eq_refl eq_refl eq_refl eq_refl eq_refl
           eq_refl eq_refl).
Defined.

(** ** The settings dialog *)

Lemma run_lift {S A} E (t : Task A) (s : S) w :
  run E (Component.lift t s) w =
  (Returned (fst (run E t w), s), snd (run E t w)).
Proof.
  unfold Component.lift. rewrite run_try_catch, run_bind.
  destruct (run E t w) as [[a|e] w']; reflexivity.
Qed.

Lemma run_and_then_lift {S A B} E (t : Task A) (k : A -> @Component.M S B) (s : S) w :
  run E (Component.and_then (Component.lift t) k s) w =
  match fst (run E t w) with
  | Returned a => run E (k a s) (snd (run E t w))
  | Thrown e => (Returned (Thrown e, s), snd (run E t w))
  end.
Proof.
  unfold Component.and_then. rewrite run_bind, run_lift.
  destruct (run E t w) as [[a|e] w']; reflexivity.
Qed.

Lemma run_catch {S A} E (m : @Component.M S A) handler (s : S) w :
  run E (Component.catch m handler s) w =
  match run E (m s) w with
  | (Returned (Returned a, s'), w') => (Returned (Returned a, s'), w')
  | (Returned (Thrown e, s'), w') => run E (handler e s') w'
  | (Thrown e, w') => (Thrown e, w')
  end.
Proof.
  unfold Component.catch. rewrite run_bind.
  destruct (run E (m s) w) as [[[[a|e] s']|e] w']; reflexivity.
Qed.

Lemma run_finally {S A} E (m : @Component.M S A) cleanup (s : S) w :
  run E (Component.finally m cleanup s) w =
  match run E (m s) w with
  | (Returned (o, s'), w') =>
      match run E (cleanup s') w' with
      | (Returned (Returned _, s''), w'') => (Returned (o, s''), w'')
      | (Returned (Thrown e', s''), w'') => (Returned (Thrown e', s''), w'')
      | (Thrown e', w'') => (Thrown e', w'')
      end
  | (Thrown e, w') => (Thrown e, w')
  end.
Proof.
  unfold Component.finally. rewrite run_bind.
  destruct (run E (m s) w) as [[[o s']|e] w']; [|reflexivity].
  rewrite run_bind. cbn [fst snd].
  destruct (run E (cleanup s') w') as [[[[u|e] s'']|e] w'']; reflexivity.
Qed.

Ltac component_cbn :=
  cbn -[String.append Js.trim Js.or_else Api.scrapeWebsite Agent.loadSession
        Agent.createNewSession Agent.deleteSessionById].

Ltac component_eval :=
  component_cbn;
  repeat (progress (rewrite ?run_bind, ?run_and_then_lift, ?run_lift, ?run_catch,
                      ?run_finally);
          component_cbn).

(** X22.  A scrape from the settings dialog that the server answers with
    success and at least one item appends the items of the answer, in
    their order, behind the items the dialog holds at that time, and
    clears the URL field.  One request is sent, for at most 5 pages and 10
    items; the scrape flag ends cleared, no error is shown and the other
    fields of the dialog are untouched. *)
Theorem handleScrapeWebsite_adds_items host E self st w response :
  Js.truthy (Js.trim (websiteUrl self)) = true ->
  answers (respond E PScrape (requests w) (scrapeWebsiteRequest host self)) response ->
  status_ok response = true ->
  background_items response <> [] ->
  let result := Component.run E (Settings.handleScrapeWebsite host self) st w in
  fst (fst result) = Returned tt /\
  backgroundItems (snd (fst result)) = backgroundItems st ++ background_items response /\
  websiteUrl (snd (fst result)) = EmptyString /\
  isScraping (snd (fst result)) = false /\
  scrapeError (snd (fst result)) = EmptyString /\
  same_but_scrape st (snd (fst result)) /\
  only_sends (scrapeWebsiteRequest host self) w (snd result).
Proof.
  intros Hurl Hanswer Hok Hitems result. subst result.
  unfold Component.run, Settings.handleScrapeWebsite. rewrite Hurl. cbn [negb].
  component_eval. rewrite run_scrapeWebsite.
  fold (Settings.scrapeRequest self). fold (scrapeWebsiteRequest host self).
  rewrite (settle_answers _ _ _ Hanswer).
  component_eval. rewrite Hok.
  destruct (background_items response) as [|item items] eqn:Hlist; [congruence|].
  cbn [length Nat.ltb Nat.leb andb]. component_eval.
  repeat split.
Qed.

Lemma or_else_truthy a b : Js.truthy b = true -> Js.truthy (Js.or_else a b) = true.
Proof.
  intros Hb. destruct a as [s|]; [|exact Hb]. cbn.
  destruct (Js.truthy s) eqn:Hs; [exact Hs|exact Hb].
Qed.

Lemma handleScrapeWebsite_adds_items_witness :
  let result :=
    Component.run Cases.scraping (Settings.handleScrapeWebsite Scenario.host Cases.dialog)
      Cases.dialog Scenario.fresh in
  backgroundItems (snd (fst result)) = ["docs"; "About us"; "Pricing"] /\
  websiteUrl (snd (fst result)) = EmptyString.
Proof.
  assert (Hanswer : answers
            (respond Cases.scraping PScrape (requests Scenario.fresh)
               (scrapeWebsiteRequest Scenario.host Cases.dialog))
            (mkScrapeResponse true "ok" ["About us"; "Pricing"])).
  { eexists. repeat split. }
  pose proof (handleScrapeWebsite_adds_items Scenario.host Cases.scraping Cases.dialog
                Cases.dialog Scenario.fresh _ eq_refl Hanswer eq_refl
                ltac:(discriminate)) as (_ & Hitems & Hurl & _).
  split; [exact Hitems | exact Hurl].
Defined.

(** X23.  A scrape from the settings dialog that does not deliver (the request
    fails, or the answer does not report success, or it has no items)
    never raises and never touches the background items or the URL
    field: it shows an error text, which is never empty, and clears the
    scrape flag.  One request is sent. *)
Theorem handleScrapeWebsite_reports_failure host E self st w :
  Js.truthy (Js.trim (websiteUrl self)) = true ->
  (failed (respond E PScrape (requests w) (scrapeWebsiteRequest host self)) \/
   exists response,
     answers (respond E PScrape (requests w) (scrapeWebsiteRequest host self)) response /\
     (status_ok response = false \/ background_items response = [])) ->
  let result := Component.run E (Settings.handleScrapeWebsite host self) st w in
  fst (fst result) = Returned tt /\
  backgroundItems (snd (fst result)) = backgroundItems st /\
  websiteUrl (snd (fst result)) = websiteUrl st /\
  isScraping (snd (fst result)) = false /\
  Js.truthy (scrapeError (snd (fst result))) = true /\
  same_but_scrape st (snd (fst result)) /\
  only_sends (scrapeWebsiteRequest host self) w (snd result).
Proof.
  intros Hurl Hcase result. subst result.
  unfold Component.run, Settings.handleScrapeWebsite. rewrite Hurl. cbn [negb].
  component_eval. rewrite run_scrapeWebsite.
  fold (Settings.scrapeRequest self). fold (scrapeWebsiteRequest host self).
  destruct Hcase as [Hfailed|(response & Hanswer & Hcase)].
  - destruct (settle_failed "Failed to scrape website: " _ Hfailed) as [error ->].
    component_eval. repeat split.
  - rewrite (settle_answers _ _ _ Hanswer). component_eval.
    assert (Hno : status_ok response
                  && match length (background_items response) with
                     | O => false
                     | S _ => true
                     end = false).
    { destruct Hcase as [-> | ->]; [reflexivity|apply andb_false_r]. }
    rewrite Hno. component_eval. repeat split.
    apply or_else_truthy. reflexivity.
Qed.

Lemma handleScrapeWebsite_reports_failure_witness :
  let result :=
    Component.run Scenario.offline (Settings.handleScrapeWebsite Scenario.host Cases.dialog)
      Cases.dialog Scenario.fresh in
  backgroundItems (snd (fst result)) = ["docs"] /\
  scrapeError (snd (fst result))
  = "Failed to scrape website. Please check the URL and try again.".
Proof.
  pose proof (handleScrapeWebsite_reports_failure Scenario.host Scenario.offline Cases.dialog
                Cases.dialog Scenario.fresh eq_refl (or_introl I)) as (_ & Hitems & _).
  split; [exact Hitems | reflexivity].
Defined.

Lemma filter_from_delete {A} (index k : nat) (l : list A) :
  filter_from (fun _ i => negb (Nat.eqb i (k + index))) k l = delete index l.
Proof.
  revert index k. induction l as [|x l IH]; intros index k; [destruct index; reflexivity|].
  cbn [filter_from]. destruct index as [|index].
  - rewrite Nat.add_0_r, Nat.eqb_refl. cbn [negb].
    clear IH. change (delete 0 (x :: l)) with l.
    assert (H : forall j, k < j -> filter_from (fun (_ : A) i => negb (Nat.eqb i k)) j l = l).
    { clear x. induction l as [|y l IH]; intros j Hj; [reflexivity|].
      cbn [filter_from]. replace (Nat.eqb j k) with false
        by (symmetry; apply Nat.eqb_neq; lia).
      cbn [negb]. f_equal. apply IH. lia. }
    apply H. lia.
  - replace (Nat.eqb k (k + S index)) with false by (symmetry; apply Nat.eqb_neq; lia).
    cbn [negb]. change (delete (S index) (x :: l)) with (x :: delete index l). f_equal.
    replace (k + S index) with (S k + index) by lia. apply IH.
Qed.

Lemma run_removeBackgroundItem E index st w :
  Component.run E (Settings.removeBackgroundItem index) st w
  = (Returned tt,
     mkSettingsState (selectedPersonality st) (customInstructions st) (websiteUrl st)
       (backgroundInfo st) (delete index (backgroundItems st)) (isScraping st)
       (scrapeError st) (settingsLoading st) (enabledTools st),
     w).
Proof.
  unfold Component.run, Settings.removeBackgroundItem, Settings.setBackgroundItems,
    Component.update, filter_indexed.
  cbn [run]. rewrite (filter_from_delete index 0). reflexivity.
Qed.

(** X24.  Editing the background items in the settings dialog.  Removing an
    item removes exactly the item at the given position: the items before
    and behind it stay, in their order, and a position behind the end
    removes nothing; no other field of the dialog and nothing of the
    browser is touched.  Adding the text of the input field appends it,
    trimmed, as the last item and clears the field; removing the last
    item then gives back the list. *)
Theorem background_items_editing E self st w index :
  Component.run E (Settings.removeBackgroundItem index) st w
  = (Returned tt,
     mkSettingsState (selectedPersonality st) (customInstructions st) (websiteUrl st)
       (backgroundInfo st) (delete index (backgroundItems st)) (isScraping st)
       (scrapeError st) (settingsLoading st) (enabledTools st),
     w) /\
  (Js.truthy (Js.trim (backgroundInfo self)) = true ->
   let added := Component.run E (Settings.addBackgroundItem self) st w in
   backgroundItems (snd (fst added))
   = backgroundItems st ++ [Js.trim (backgroundInfo self)] /\
   backgroundInfo (snd (fst added)) = EmptyString /\
   backgroundItems
     (snd (fst (Component.run E
                  (Settings.removeBackgroundItem (length (backgroundItems st)))
                  (snd (fst added)) (snd added))))
   = backgroundItems st).
Proof.
  split; [apply run_removeBackgroundItem|].
  intros Hinfo added. subst added.
  rewrite run_removeBackgroundItem.
  unfold Component.run, Settings.addBackgroundItem. rewrite Hinfo.
  component_eval. repeat split.
  rewrite delete_middle. apply app_nil_r.
Qed.

Lemma background_items_editing_witness :
  Js.truthy (Js.trim (backgroundInfo Cases.dialog)) = true /\
  backgroundItems
    (snd (fst (Component.run Scenario.offline (Settings.addBackgroundItem Cases.dialog)
                 Cases.dialog Scenario.fresh)))
  = ["docs"; "note"].
Proof.
  split; [reflexivity|].
  exact (proj1 (proj2 (background_items_editing Scenario.offline Cases.dialog Cases.dialog
                         Scenario.fresh 0) eq_refl)).
Defined.

Lemma storage_after_save stringify_array stringify_tools E self onClose st w :
  keeps_storage onClose ->
  localStorage
    (snd (Component.run E
            (Settings.handleSaveSettings stringify_array stringify_tools self onClose) st w))
  = <["enabledTools" := stringify_tools (enabledTools self)]>
      (<["backgroundTexts" := stringify_array (backgroundItems self)]>
         ((if String.eqb (selectedPersonality self) "Custom"
           then <["customPrompt" := customInstructions self]>
           else delete "customPrompt")
            (<["aiPersonality" := selectedPersonality self]> (localStorage w)))).
Proof.
  intros Hclose. unfold Component.run, Settings.handleSaveSettings.
  component_eval.
  destruct (String.eqb (selectedPersonality self) "Custom"); component_eval;
    destruct (run E onClose _) as [[[]|e] w'] eqn:Hrun; component_eval;
    apply (f_equal snd) in Hrun; cbn [snd] in Hrun; subst w'; rewrite Hclose; reflexivity.
Qed.

(** X25.  What the settings dialog saves is what the chat page sends as the
    organization of the next session: the selected personality, the
    custom prompt if and only if the personality is [Custom], the
    background items, and the four tool flags under their API names. *)
Theorem saved_settings_reach_the_page host stringify_array stringify_tools
    E self onClose st w :
  Js.truthy (selectedPersonality self) = true ->
  round_trips host stringify_array stringify_tools self ->
  keeps_storage onClose ->
  let saved :=
    snd (Component.run E
           (Settings.handleSaveSettings stringify_array stringify_tools self onClose) st w) in
  fst (run E (Page.orgSettings host) saved)
  = Returned
      (mkOrganization "Agentica AI"
         (mkPersonality (selectedPersonality self)
            (if String.eqb (selectedPersonality self) "Custom"
             then Some (customPersonality (customInstructions self))
             else None))
         (mkBackground (backgroundItems self))
         (mkTools (default true (backgroundSearch (enabledTools self)))
                  (default true (memoryStorage (enabledTools self)))
                  (default true (memoryRetrieval (enabledTools self)))
                  (default false (webSearch (enabledTools self))))).
Proof.
  intros Hpersonality (Harray & Harray_text & Htools & Htools_text) Hclose saved.
  pose proof (storage_after_save stringify_array stringify_tools E self onClose st w Hclose)
    as Hstorage.
  fold saved in Hstorage.
  assert (Htype : localStorage saved !! "aiPersonality" = Some (selectedPersonality self)).
  { rewrite Hstorage. rewrite !lookup_insert_ne by discriminate.
    destruct (String.eqb _ "Custom");
      [rewrite lookup_insert_ne by discriminate|rewrite lookup_delete_ne by discriminate];
      apply lookup_insert_eq. }
  assert (Hitems : localStorage saved !! "backgroundTexts"
                   = Some (stringify_array (backgroundItems self))).
  { rewrite Hstorage. rewrite lookup_insert_ne by discriminate. apply lookup_insert_eq. }
  assert (Hflags : localStorage saved !! "enabledTools"
                   = Some (stringify_tools (enabledTools self))).
  { rewrite Hstorage. apply lookup_insert_eq. }
  assert (Hprompt : String.eqb (selectedPersonality self) "Custom" = true ->
                    localStorage saved !! "customPrompt" = Some (customInstructions self)).
  { intros Hcustom. rewrite Hstorage, Hcustom.
    rewrite !lookup_insert_ne by discriminate. apply lookup_insert_eq. }
  unfold Page.orgSettings, Page.getPersonality, Page.getCustomPrompt,
    Page.getBackgroundTexts, Page.getEnabledTools, localStorage_getItem.
  cbn [bind run]. rewrite Htype. cbn [Js.or_else]. rewrite Hpersonality.
  destruct (String.eqb (selectedPersonality self) "Custom") eqn:Hcustom; cbn [bind run].
  - rewrite (Hprompt eq_refl), Hitems. cbn [Js.truthy_opt default from_option id].
    rewrite Harray_text, Harray. cbn [bind run]. rewrite Hflags.
    cbn [Js.truthy_opt default from_option id]. rewrite Htools_text, Htools.
    unfold customPersonality. cbn [Js.or_else].
    destruct (customInstructions self); reflexivity.
  - rewrite Hitems. cbn [Js.truthy_opt default from_option id].
    rewrite Harray_text, Harray. cbn [bind run]. rewrite Hflags.
    cbn [Js.truthy_opt default from_option id]. rewrite Htools_text, Htools.
    reflexivity.
Qed.

Lemma saved_settings_reach_the_page_witness :
  fst (run Scenario.offline (Page.orgSettings Cases.codec)
         (snd (Component.run Scenario.offline
                 (Settings.handleSaveSettings Cases.stringify_array Cases.stringify_tools
                    Cases.dialog skip)
                 Cases.dialog Scenario.fresh)))
  = Returned
      (mkOrganization "Agentica AI"
         (mkPersonality "Custom" (Some (customPersonality "Be brief.")))
         (mkBackground ["docs"]) (mkTools true true true false)).
Proof.
  assert (Hcodec : round_trips Cases.codec Cases.stringify_array Cases.stringify_tools
                     Cases.dialog).
  { repeat split. }
  assert (Hclose : keeps_storage skip).
  { intros E w. reflexivity. }
  exact (saved_settings_reach_the_page Cases.codec Cases.stringify_array
           Cases.stringify_tools Scenario.offline Cases.dialog skip Cases.dialog
           Scenario.fresh eq_refl Hcodec Hclose).
Defined.

(** X26.  What the settings dialog saves is what it shows when it is opened
    again: the two mount effects, run from the state of the first render
    on the storage a save has left, restore the selected personality,
    the background items and the tool flags; the custom prompt is
    restored when the personality is [Custom] and is empty otherwise (a
    save with another personality removes the stored prompt). *)
Theorem saved_settings_reopen host stringify_array stringify_tools
    E self onClose st w :
  Js.truthy (selectedPersonality self) = true ->
  round_trips host stringify_array stringify_tools self ->
  keeps_storage onClose ->
  let saved :=
    snd (Component.run E
           (Settings.handleSaveSettings stringify_array stringify_tools self onClose) st w) in
  let reopened :=
    snd (fst (Component.run E
                (Component.and_then (Settings.loadTools host)
                   (fun _ => Settings.loadSavedSettings host))
                Settings.initialState saved)) in
  selectedPersonality reopened = selectedPersonality self /\
  customInstructions reopened
  = (if String.eqb (selectedPersonality self) "Custom"
     then customInstructions self else EmptyString) /\
  backgroundItems reopened = backgroundItems self /\
  enabledTools reopened
  = Settings.spread Settings.defaultToolSettings (enabledTools self).
Proof.
  intros Hpersonality (Harray & Harray_text & Htools & Htools_text) Hclose saved.
  pose proof (storage_after_save stringify_array stringify_tools E self onClose st w Hclose)
    as Hstorage.
  fold saved in Hstorage.
  assert (Htype : localStorage saved !! "aiPersonality" = Some (selectedPersonality self)).
  { rewrite Hstorage. rewrite !lookup_insert_ne by discriminate.
    destruct (String.eqb _ "Custom");
      [rewrite lookup_insert_ne by discriminate|rewrite lookup_delete_ne by discriminate];
      apply lookup_insert_eq. }
  assert (Hitems : localStorage saved !! "backgroundTexts"
                   = Some (stringify_array (backgroundItems self))).
  { rewrite Hstorage. rewrite lookup_insert_ne by discriminate. apply lookup_insert_eq. }
  assert (Hflags : localStorage saved !! "enabledTools"
                   = Some (stringify_tools (enabledTools self))).
  { rewrite Hstorage. apply lookup_insert_eq. }
  assert (Hprompt : localStorage saved !! "customPrompt"
                    = if String.eqb (selectedPersonality self) "Custom"
                      then Some (customInstructions self) else None).
  { rewrite Hstorage. rewrite !lookup_insert_ne by discriminate.
    destruct (String.eqb _ "Custom"); [apply lookup_insert_eq|apply lookup_delete_eq]. }
  intros reopened. subst reopened.
  unfold Component.run, Settings.loadTools, Settings.loadSavedSettings, localStorage_getItem.
  clear Hstorage. clearbody saved.
  component_eval. rewrite Hflags. component_eval. rewrite Htools_text, Htools.
  component_eval. rewrite Htype. component_eval. rewrite Hpersonality.
  component_eval. rewrite Hprompt.
  destruct (String.eqb (selectedPersonality self) "Custom"); component_eval.
  - destruct (customInstructions self) as [|c prompt] eqn:Hc; component_eval;
      rewrite Hitems; component_eval; rewrite Harray_text, Harray; component_eval;
      repeat split.
  - rewrite Hitems. component_eval. rewrite Harray_text, Harray. component_eval.
    repeat split.
Qed.

Lemma saved_settings_reopen_witness :
  let saved :=
    snd (Component.run Scenario.offline
           (Settings.handleSaveSettings Cases.stringify_array Cases.stringify_tools
              Cases.dialog skip)
           Cases.dialog Scenario.fresh) in
  let reopened :=
    snd (fst (Component.run Scenario.offline
                (Component.and_then (Settings.loadTools Cases.codec)
                   (fun _ => Settings.loadSavedSettings Cases.codec))
                Settings.initialState saved)) in
  selectedPersonality reopened = "Custom" /\
  customInstructions reopened = "Be brief." /\
  backgroundItems reopened = ["docs"] /\
  enabledTools reopened = Settings.defaultToolSettings.
Proof.
  assert (Hcodec : round_trips Cases.codec Cases.stringify_array Cases.stringify_tools
                     Cases.dialog).
  { repeat split. }
  assert (Hclose : keeps_storage skip).
  { intros E w. reflexivity. }
  exact (saved_settings_reopen Cases.codec Cases.stringify_array
           Cases.stringify_tools Scenario.offline Cases.dialog skip Cases.dialog
           Scenario.fresh eq_refl Hcodec Hclose).
Defined.

(** ** The sidebar *)

Lemma substring_prefix n (s : string) :
  n <= String.length s ->
  exists tail, s = substring 0 n s +:+ tail /\ String.length (substring 0 n s) = n.
Proof.
  revert s. induction n as [|n IH]; intros s Hn.
  - exists s. destruct s; split; reflexivity.
  - destruct s as [|c s]; [cbn in Hn; lia|].
    destruct (IH s) as (tail & Hs & Hlen); [cbn in Hn; lia|].
    exists tail. cbn [substring]. rewrite append_cons. split.
    + f_equal. exact Hs.
    + cbn [String.length]. f_equal. exact Hlen.
Qed.

(** X27.  The preview line of a session in the sidebar is at most 43
    characters long.  A last message of at most 40 characters is shown
    whole; of a longer one the first 40 characters are shown, followed by
    three full stops.  A session without messages shows [No messages]. *)
Theorem preview_bounds session :
  String.length (Sidebar.preview session) <= 43 /\
  (String.length (Sidebar.lastMessage session) <= 40 ->
   Sidebar.preview session = Sidebar.lastMessage session) /\
  (40 < String.length (Sidebar.lastMessage session) ->
   exists head tail,
     Sidebar.lastMessage session = head +:+ tail /\ String.length head = 40 /\
     Sidebar.preview session = head +:+ "...") /\
  (default [] (messages session) = [] -> Sidebar.preview session = "No messages").
Proof.
  unfold Sidebar.preview.
  destruct (Nat.ltb 40 (String.length (Sidebar.lastMessage session))) eqn:Hlong.
  - apply Nat.ltb_lt in Hlong.
    destruct (substring_prefix 40 (Sidebar.lastMessage session)) as (tail & Hs & Hlen);
      [lia|].
    split; [rewrite length_append, Hlen; cbn; lia|].
    split; [lia|]. split.
    + intros _. exists (substring 0 40 (Sidebar.lastMessage session)), tail. auto.
    + intros Hnone. exfalso. unfold Sidebar.lastMessage in Hlong.
      destruct (messages session) as [l|]; cbn in Hnone; [subst l|];
        cbn in Hlong; lia.
  - apply Nat.ltb_ge in Hlong.
    split; [lia|]. split; [reflexivity|]. split; [lia|].
    intros Hnone. unfold Sidebar.lastMessage.
    destruct (messages session) as [l|]; cbn in Hnone; [subst l|]; reflexivity.
Qed.

Lemma preview_bounds_witness :
  let session :=
    mkSession "1" (Some [mkMessage user "Hi";
                         mkMessage assistant
                           "The quarterly report is ready for your review today."])
      None None None in
  40 < String.length (Sidebar.lastMessage session) /\
  exists head tail,
    Sidebar.lastMessage session = head +:+ tail /\ String.length head = 40 /\
    Sidebar.preview session = head +:+ "...".
Proof.
  intros session.
  assert (Hlong : 40 < String.length (Sidebar.lastMessage session)) by (cbn; lia).
  split; [exact Hlong|].
  exact (proj1 (proj2 (proj2 (preview_bounds session))) Hlong).
Defined.

(** X28.  Selecting another session in the sidebar whose load fails never
    raises: the user is alerted once, the sidebar is not toggled, and the
    context is left as the failed load leaves it, the previous session
    still active and persisted, its message list emptied. *)
Theorem handleSelectChat_failed_load host E w isDeleting narrow toggleSidebar id st :
  isLoading (agent w) = false ->
  Js.truthy_opt isDeleting = false ->
  Some id <> sessionId (agent w) ->
  failed (respond E PSession (requests w) (sessionRequest host id)) ->
  Component.run E
    (Sidebar.handleSelectChat host (agent w) isDeleting narrow toggleSidebar id) st w
  = (Returned tt, st,
     with_alert "Failed to load chat session. Please try again." (load_failed host id w)).
Proof.
  intros Hidle Hfree Hother Hfailed.
  unfold Component.run, Sidebar.handleSelectChat, Sidebar.currentSessionId.
  rewrite Hidle, Hfree. cbn [orb]. rewrite bool_decide_eq_false_2 by exact Hother.
  rewrite run_catch, run_and_then_lift, run_loadSession.
  destruct (settle_failed "Failed to get session: " _ Hfailed) as [error ->].
  cbn [fst snd]. rewrite run_lift. reflexivity.
Qed.

Lemma handleSelectChat_failed_load_witness :
  alerts (snd (Component.run Scenario.offline
                 (Sidebar.handleSelectChat Scenario.host (agent Scenario.busy) None true
                    (alert "toggled") "B")
                 None Scenario.busy))
  = ["Failed to load chat session. Please try again."].
Proof.
  rewrite (handleSelectChat_failed_load Scenario.host Scenario.offline Scenario.busy None
             true (alert "toggled") "B" None eq_refl eq_refl ltac:(discriminate) I).
  reflexivity.
Defined.

(** X29.  Deleting a session from the sidebar never raises and never alerts,
    whatever the server answers, also when the server refuses the
    deletion or cannot be reached: the session is removed from the list
    in every case, and the marker of the deletion in progress ends
    cleared. *)
Theorem handleDeleteChat_is_silent host E w isDeleting id st :
  isLoading (agent w) = false ->
  Js.truthy_opt isDeleting = false ->
  let result :=
    Component.run E
      (Sidebar.handleDeleteChat host (agent w) isDeleting id) st w in
  fst result = (Returned tt, None) /\
  alerts (snd result) = alerts w /\
  Forall (fun s => session_id s <> id) (sessions (agent (snd result))) /\
  sent_since w (snd result) = [deleteRequest host id].
Proof.
  intros Hidle Hfree result. subst result.
  unfold Component.run, Sidebar.handleDeleteChat.
  rewrite Hidle, Hfree. cbn [orb].
  component_eval. unfold Agent.deleteSessionById.
  rewrite run_try_catch, run_bind.
  destruct (run_deleteSession host E id w) as [deleted ->].
  rewrite run_bind. cbn [run Agent.setSessions skip].
  case_bool_decide; component_eval; (split; [reflexivity|]); (split; [reflexivity|]);
    (split; [apply filter_session_id|apply sent_since_app; reflexivity]).
Qed.

Lemma handleDeleteChat_is_silent_witness :
  let result :=
    Component.run Scenario.broken
      (Sidebar.handleDeleteChat Scenario.host (agent Scenario.busy) None "B")
      None Scenario.busy in
  alerts (snd result) = [] /\
  map session_id (sessions (agent (snd result))) = ["A"].
Proof.
  pose proof (handleDeleteChat_is_silent Scenario.host Scenario.broken Scenario.busy None
                "B" None eq_refl eq_refl) as (_ & Halerts & _).
  split; [exact Halerts | reflexivity].
Defined.

Lemma run_createNewSession host E w :
  exists w',
    run E (Agent.createNewSession host (agent w)) w = (Returned tt, w') /\
    (alerts w' = alerts w \/
     alerts w'
     = alerts w ++ ["Failed to initialize chat session. Please try refreshing the page."]).
Proof.
  unfold Agent.createNewSession.
  rewrite run_bind. cbn [run Agent.setMessages skip].
  rewrite run_bind, run_initializeSession.
  rewrite run_try_catch, run_bind.
  destruct (settle "Failed to create session: " _) as [created|error];
    match goal with |- context [run E (Api.getAllSessions host) ?w1] =>
      destruct (run_getAllSessions_returns host E w1) as [l ->] end;
    eexists; (split; [reflexivity|]); [left|right]; reflexivity.
Qed.

(** X30.  Starting a new chat from the sidebar (on a wide window, where the
    sidebar is not toggled) does what [createNewSession] of the context
    does and nothing more, and never raises.  Its own alert is never
    shown: when the creation fails the only alert is the one of
    [initializeSession]. *)
Theorem handleNewChat_outcome host E w toggleSidebar (st : option string) :
  isLoading (agent w) = false ->
  let result :=
    Component.run E (Sidebar.handleNewChat host (agent w) false toggleSidebar) st w in
  fst result = (Returned tt, st) /\
  snd result = snd (run E (Agent.createNewSession host (agent w)) w) /\
  (alerts (snd result) = alerts w \/
   alerts (snd result)
   = alerts w ++ ["Failed to initialize chat session. Please try refreshing the page."]).
Proof.
  intros Hidle result. subst result.
  unfold Component.run, Sidebar.handleNewChat. rewrite Hidle.
  rewrite run_catch, run_and_then_lift.
  destruct (run_createNewSession host E w) as (w' & -> & Halerts).
  cbn [fst snd run Component.ret]. auto.
Qed.

Lemma handleNewChat_outcome_witness :
  alerts (snd (Component.run Scenario.offline
                 (Sidebar.handleNewChat Scenario.host (agent Scenario.busy) false skip)
                 None Scenario.busy))
  = ["Failed to initialize chat session. Please try refreshing the page."].
Proof.
  pose proof (handleNewChat_outcome Scenario.host Scenario.offline Scenario.busy skip
                None eq_refl) as (_ & Hsame & _).
  rewrite Hsame. reflexivity.
Defined.

